(** * XJR-3: read tracking, duplicate policy and paper search

    A shallow embedding of the backend routes of XJR-3
    (routes/paper.js, routes/admin.js, models/paper.js, models/config.js)
    and the properties of the read-tracking core that hold, or fail,
    on them.

    Conventions
    - A request body is JSON.  A field of a body is [Undefined] (key
      absent), [Null], or [Val a] with [a] of the JSON type the schema
      names for that key.
    - A string is the sequence of its UTF-16 code units, and every
      code unit is below 256 (the characters of Latin-1): a character
      of [string] is the code unit of that number.  White space and
      letter case are those of these characters.
    - The Mongo collections are lists of documents in the order a
      collection scan yields them.
    - [new Date()] is an argument [now] of the handler; ObjectIds come
      from a counter of the process.
    - The authenticated identity [req.user.id] is an argument of the
      handler: [authenticateUser] has already run. *)

From Stdlib Require Import List String Ascii ZArith Bool Lia Permutation.
From Stdlib Require Import DecimalString.
Import ListNotations.
Open Scope string_scope.
Open Scope Z_scope.
Open Scope list_scope.

(** ** JSON fields and HTTP responses *)

Inductive field (A : Type) : Type :=
| Undefined
| Null
| Val (a : A).
Arguments Undefined {A}.
Arguments Null {A}.
Arguments Val {A} a.

(** What Joi reports in [error.details[0]]: the label (the key, or
    [key[i]] for the element [i] of an array) and the rule. *)
Inductive JoiRule :=
| any_required
| string_base
| string_empty
| array_base
| boolean_base
| number_base
| number_min
| number_max
| number_unsafe.

Record JoiError := { err_key : string; err_rule : JoiRule }.

(** [res.status(n).json(...)]: the status code, with the body where a
    property reads it. *)
Inductive Response (A : Type) : Type :=
| Status200 (body : A)
| Status400 (error : JoiError)
| Status404
| Status409
| Status500.
Arguments Status404 {A}.
Arguments Status409 {A}.
Arguments Status500 {A}.
Arguments Status400 {A} error.
Arguments Status200 {A} body.

(** ** Joi rules used by the route schemas *)

Module Joi.

Definition MAX_SAFE_INTEGER : Z := 9007199254740991.

(** [Joi.string().required()] *)
Definition string_required (f : field string) : option JoiRule :=
  match f with
  | Undefined => Some any_required
  | Null => Some string_base
  | Val s => if (s =? "")%string then Some string_empty else None
  end.

(** [Joi.array().items(Joi.string()).required()] *)
Definition array_items_string_required (f : field (list string)) : option JoiRule :=
  match f with
  | Undefined => Some any_required
  | Null => Some array_base
  | Val items =>
      match find (fun s => (s =? "")%string) items with
      | Some _ => Some string_empty
      | None => None
      end
  end.

(** The label of what [Joi.array().items(Joi.string())] reports: the
    first element that is refused, [key[i]], or the key itself. *)
Fixpoint first_empty (items : list string) (i : nat) : option nat :=
  match items with
  | [] => None
  | s :: rest => if (s =? "")%string then Some i else first_empty rest (S i)
  end.

Definition items_label (key : string) (f : field (list string)) : string :=
  match f with
  | Val items =>
      match first_empty items 0 with
      | Some i =>
          String.append key
            (String.append "["
               (String.append (NilZero.string_of_uint (Nat.to_uint i)) "]"))
      | None => key
      end
  | _ => key
  end.

(** [Joi.number().integer()]: a JSON integer within the safe range *)
Definition number_integer (z : Z) : option JoiRule :=
  if Z.abs z <=? MAX_SAFE_INTEGER then None else Some number_unsafe.

Definition min (m z : Z) : option JoiRule :=
  if m <=? z then None else Some number_min.

Definition max (m z : Z) : option JoiRule :=
  if z <=? m then None else Some number_max.

(** [Joi.number().integer().min(m).required()] *)
Definition number_integer_min_required (m : Z) (f : field Z) : option JoiRule :=
  match f with
  | Undefined => Some any_required
  | Null => Some number_base
  | Val z =>
      match number_integer z with
      | Some r => Some r
      | None => min m z
      end
  end.

(** First failing key of an object schema (abortEarly). *)
Fixpoint first_error (checks : list (string * option JoiRule)) : option JoiError :=
  match checks with
  | [] => None
  | (k, Some r) :: _ => Some {| err_key := k; err_rule := r |}
  | (_, None) :: rest => first_error rest
  end.

End Joi.

(** ** Documents *)

Definition ObjectId := N.

(** A stored read entry (ReadSchema). *)
Record Read := {
  read_id : ObjectId;          (* _id, given by Mongoose to the subdocument *)
  read_user : string;
  read_timestamp : Z;
  read_notes : string
}.

Record Metadata := {
  title : string;
  authors : list string;
  abstract : string;
  publishYear : Z
}.

(** A stored paper (PaperSchema). *)
Record Paper := {
  paper_id : string;
  paper_metadata : Metadata;
  paper_reads : list Read
}.

(** The only document kind of the Config collection (ConfigSchema). *)
Record ConfigDoc := { preventDuplicateReads : bool }.

(** ** Request bodies of POST /api/papers/mark-read *)

Record RawMetadata := {
  raw_title : field string;
  raw_authors : field (list string);
  raw_abstract : field string;
  raw_publishYear : field Z
}.

Record RawRead := {
  raw_user : field string;
  raw_notes : field string
}.

(** [const { id, metadata, read } = req.body]; [metadata] and [read]
    are objects or absent.  The route does not validate [id]; here it
    is a JSON string, as the extension sends it. *)
Record MarkReadBody := {
  body_id : string;
  body_metadata : option RawMetadata;
  body_read : option RawRead
}.

(** [metadataSchema.validate(metadata).error]; an object schema that is
    not [required()] accepts [undefined]. *)
Definition metadataSchema (metadata : option RawMetadata) : option JoiError :=
  match metadata with
  | None => None
  | Some m =>
      Joi.first_error
        [ ("title", Joi.string_required (raw_title m));
          (Joi.items_label "authors" (raw_authors m),
           Joi.array_items_string_required (raw_authors m));
          ("abstract", Joi.string_required (raw_abstract m));
          ("publishYear", Joi.number_integer_min_required 1900 (raw_publishYear m)) ]
  end.

(** [readSchema.validate(read).error] *)
Definition readSchema (read : option RawRead) : option JoiError :=
  match read with
  | None => None
  | Some r =>
      Joi.first_error
        [ ("user", Joi.string_required (raw_user r));
          ("notes", Joi.string_required (raw_notes r)) ]
  end.

(** ** Mongoose schemas: casting and validation at save time *)

(** [{ type: String, required: true }] *)
Definition required_String (s : string) : bool := negb (s =? "")%string.

(** The plain object [newReadEntry] of the route. *)
Record NewReadEntry := {
  new_user : string;
  new_timestamp : Z;
  new_notes : field string
}.

(** ReadSchema: [user] and [notes] are required strings. *)
Definition ReadSchema (oid : ObjectId) (e : NewReadEntry) : option Read :=
  match new_notes e with
  | Val n =>
      if required_String (new_user e) && required_String n
      then Some {| read_id := oid; read_user := new_user e;
                   read_timestamp := new_timestamp e; read_notes := n |}
      else None
  | _ => None
  end.

(** PaperSchema.metadata: title and abstract required, publishYear a
    required integer with [min: 1900]; there is no [max]. *)
Definition PaperSchema_metadata (metadata : option RawMetadata) : option Metadata :=
  match metadata with
  | Some {| raw_title := Val t; raw_authors := Val a;
            raw_abstract := Val ab; raw_publishYear := Val y |} =>
      if required_String t && required_String ab && (1900 <=? y)
      then Some {| title := t; authors := a; abstract := ab; publishYear := y |}
      else None
  | _ => None
  end.

(** [new Paper({ id, metadata, reads: [newReadEntry] })] followed by the
    validation that [save] runs; [None] is a ValidationError. *)
Definition PaperSchema (oid : ObjectId) (id : string)
    (metadata : option RawMetadata) (e : NewReadEntry) : option Paper :=
  match PaperSchema_metadata metadata, ReadSchema oid e with
  | Some m, Some r =>
      if required_String id
      then Some {| paper_id := id; paper_metadata := m; paper_reads := [r] |}
      else None
  | _, _ => None
  end.

(** ** The process: database, shared config module, ObjectId counter *)

(** [shared/config.js] is a plain module object; the paper route reads
    its [preventDuplicateReads] property.  The module's source is not
    part of the development, so its content is a component of the
    state with no constraint on it. *)
Record State := {
  papers : list Paper;            (* collection of models/paper.js *)
  configs : list ConfigDoc;       (* collection of models/config.js *)
  sharedConfig : bool;            (* require('../../shared/config').preventDuplicateReads *)
  next_oid : ObjectId
}.

Definition set_papers (s : State) (ps : list Paper) : State :=
  {| papers := ps; configs := configs s;
     sharedConfig := sharedConfig s; next_oid := next_oid s |}.

Definition set_configs (s : State) (cs : list ConfigDoc) : State :=
  {| papers := papers s; configs := cs;
     sharedConfig := sharedConfig s; next_oid := next_oid s |}.

Definition bump_oid (s : State) : State :=
  {| papers := papers s; configs := configs s;
     sharedConfig := sharedConfig s; next_oid := N.succ (next_oid s) |}.

(** ** Collection operations *)

(** [Paper.findOne({ id })] *)
Definition Paper_findOne (id : string) (ps : list Paper) : option Paper :=
  find (fun p => (paper_id p =? id)%string) ps.

(** Update of the first document that satisfies [filter]. *)
Fixpoint updateOne (filter : Paper -> bool) (update : Paper -> Paper)
    (ps : list Paper) : list Paper :=
  match ps with
  | [] => []
  | p :: rest =>
      if filter p then update p :: rest
      else p :: updateOne filter update rest
  end.

(** [$push] of one entry on [reads]. *)
Definition push_read (r : Read) (p : Paper) : Paper :=
  {| paper_id := paper_id p; paper_metadata := paper_metadata p;
     paper_reads := paper_reads p ++ [r] |}.

(** Insertion under the unique index on [id]; [None] is E11000. *)
Definition insertOne (p : Paper) (ps : list Paper) : option (list Paper) :=
  match Paper_findOne (paper_id p) ps with
  | Some _ => None
  | None => Some (ps ++ [p])
  end.

(** ** POST /api/papers/mark-read

    The handler suspends twice: at [await Paper.findOne({ id })] and at
    [await paper.save()].  Each piece between two suspensions is one
    function, so that the same code serves the sequential handler
    [mark_read] and the interleaved executions of two requests. *)

(** [existingRead.notes === newReadEntry.notes] *)
Definition notes_strict_eq (existing : string) (candidate : field string) : bool :=
  match candidate with
  | Val n => (existing =? n)%string
  | _ => false
  end.

(** [paper.reads.some(existingRead => existingRead.user === newReadEntry.user
     && existingRead.notes === newReadEntry.notes)] *)
Definition isDuplicate (newReadEntry : NewReadEntry) (reads : list Read) : bool :=
  existsb (fun existingRead =>
             (read_user existingRead =? new_user newReadEntry)%string
             && notes_strict_eq (read_notes existingRead) (new_notes newReadEntry))
          reads.

(** What [paper.save()] is about to write. *)
Inductive PendingSave :=
| save_push (paper : Paper) (pushed : option Read)
    (* existing document after [paper.reads.push(newReadEntry)];
       [None] when the entry does not pass ReadSchema *)
| save_insert (created : option Paper).
    (* [new Paper({...})]; [None] when it does not pass PaperSchema *)

Inductive MarkReadTask :=
| AwaitFindOne (body : MarkReadBody) (newReadEntry : NewReadEntry)
| AwaitSave (w : PendingSave)
| Replied (res : Response Paper).

(** From the start of the handler to [await Paper.findOne]. *)
Definition mark_read_start (user_id : string) (now : Z) (body : MarkReadBody)
  : MarkReadTask :=
  match metadataSchema (body_metadata body), readSchema (body_read body) with
  | Some metadataError, _ => Replied (Status400 metadataError)
  | None, Some readError => Replied (Status400 readError)
  | None, None =>
      match body_read body with
      | None => Replied Status500       (* [read.notes] throws inside [try] *)
      | Some read =>
          AwaitFindOne body
            {| new_user := user_id; new_timestamp := now;
               new_notes := raw_notes read |}
      end
  end.

(** From the result of [findOne] to [await paper.save()]. *)
Definition mark_read_found (s : State) (body : MarkReadBody)
    (newReadEntry : NewReadEntry) : State * MarkReadTask :=
  match Paper_findOne (body_id body) (papers s) with
  | Some paper =>
      if sharedConfig s && isDuplicate newReadEntry (paper_reads paper)
      then (s, Replied Status409)
      else (bump_oid s,
            AwaitSave (save_push paper (ReadSchema (next_oid s) newReadEntry)))
  | None =>
      (bump_oid s,
       AwaitSave (save_insert
                    (PaperSchema (next_oid s) (body_id body)
                                 (body_metadata body) newReadEntry)))
  end.

(** [paper.save()] and the reply.  Saving a loaded document whose only
    change is a [push] sends that [$push] for the document. *)
Definition mark_read_save (s : State) (w : PendingSave)
  : State * Response Paper :=
  match w with
  | save_push paper (Some r) =>
      (set_papers s
         (updateOne (fun p => (paper_id p =? paper_id paper)%string)
                    (push_read r) (papers s)),
       Status200 (push_read r paper))
  | save_push _ None => (s, Status500)
  | save_insert (Some p) =>
      match insertOne p (papers s) with
      | Some ps => (set_papers s ps, Status200 p)
      | None => (s, Status500)
      end
  | save_insert None => (s, Status500)
  end.

(** One step of a task against the current state. *)
Definition mark_read_step (s : State) (t : MarkReadTask) : State * MarkReadTask :=
  match t with
  | AwaitFindOne body e => mark_read_found s body e
  | AwaitSave w => let (s', res) := mark_read_save s w in (s', Replied res)
  | Replied res => (s, Replied res)
  end.

(** The handler run without any other request in between. *)
Definition mark_read (s : State) (user_id : string) (now : Z)
    (body : MarkReadBody) : State * Response Paper :=
  match mark_read_start user_id now body with
  | Replied res => (s, res)
  | t =>
      let (s1, t1) := mark_read_step s t in
      match t1 with
      | Replied res => (s1, res)
      | _ =>
          match mark_read_step s1 t1 with
          | (s2, Replied res) => (s2, res)
          | (s2, _) => (s2, Status500)
          end
      end
  end.

(** ** DELETE /api/papers/mark-read and DELETE /api/admin/mark-read *)

(** [Model.findOneAndUpdate(filter, update, { new: true })]: the first
    document that satisfies the filter is updated and returned as it is
    after the update; [None] is [null]. *)
Definition findOneAndUpdate (filter : Paper -> bool) (update : Paper -> Paper)
    (ps : list Paper) : list Paper * option Paper :=
  match find filter ps with
  | Some p => (updateOne filter update ps, Some (update p))
  | None => (ps, None)
  end.

(** [{ $pull: { reads: cond } }] removes every element that satisfies
    all of [cond]. *)
Definition pull_reads (cond : Read -> bool) (p : Paper) : Paper :=
  {| paper_id := paper_id p; paper_metadata := paper_metadata p;
     paper_reads := filter (fun r => negb (cond r)) (paper_reads p) |}.

(** A filter key ['reads.k': v] on an array of subdocuments holds when
    some element has [k] equal to [v]; two such keys may be satisfied
    by two different elements. *)
Definition reads_id_is (readEntryId : ObjectId) (p : Paper) : bool :=
  existsb (fun r => (read_id r =? readEntryId)%N) (paper_reads p).

Definition reads_user_is (userId : string) (p : Paper) : bool :=
  existsb (fun r => (read_user r =? userId)%string) (paper_reads p).

(** [readEntryId] of a DELETE body is a JSON string.  The schema
    refuses the empty one.  The others reach the filter
    ['reads._id': readEntryId], where Mongoose casts them to ObjectId:
    a string that writes an ObjectId becomes that ObjectId, on any
    other string the cast throws a CastError. *)
Inductive EntryIdString :=
| ObjectId_string (oid : ObjectId)     (* the hexadecimal form of [oid] *)
| empty_string                        (* the string of length 0 *)
| uncastable_string.                  (* any other string *)

(** Body of both DELETE routes. *)
Record DeleteBody := {
  del_id : field string;               (* [id], or [paperId] for the admin *)
  del_readEntryId : field EntryIdString
}.

(** [Joi.object({ id: Joi.string().required(),
                  readEntryId: Joi.string().required() })] *)
Definition deleteSchema (key : string) (body : DeleteBody) : option JoiError :=
  Joi.first_error
    [ (key, Joi.string_required (del_id body));
      ("readEntryId",
       match del_readEntryId body with
       | Undefined => Some any_required
       | Null => Some string_base
       | Val empty_string => Some string_empty
       | Val _ => None
       end) ].

(** The [try] block of the user route: filter
    [{ id, 'reads._id': readEntryId, 'reads.user': userId }], update
    [{ $pull: { reads: { _id: readEntryId, user: userId } } }]. *)
Definition pull_own_read (s : State) (userId id : string) (readEntryId : ObjectId)
  : State * Response Paper :=
  match findOneAndUpdate
          (fun p => (paper_id p =? id)%string
                    && reads_id_is readEntryId p && reads_user_is userId p)
          (pull_reads (fun r => (read_id r =? readEntryId)%N
                                && (read_user r =? userId)%string))
          (papers s) with
  | (ps, Some paper) => (set_papers s ps, Status200 paper)
  | (_, None) => (s, Status404)
  end.

(** [router.delete('/mark-read', authenticateUser, ...)] of the paper
    routes.  The CastError of an entry id that writes no ObjectId is
    thrown by [findOneAndUpdate] inside [try] and answered 500. *)
Definition delete_mark_read (s : State) (userId : string) (body : DeleteBody)
  : State * Response Paper :=
  match deleteSchema "id" body, del_id body, del_readEntryId body with
  | Some error, _, _ => (s, Status400 error)
  | None, Val id, Val (ObjectId_string readEntryId) =>
      pull_own_read s userId id readEntryId
  | None, _, _ => (s, Status500)
  end.

(** [router.delete('/mark-read', authenticateAdmin, ...)] of the admin
    routes: no condition on the user; the same cast of the entry id. *)
Definition admin_delete_mark_read (s : State) (body : DeleteBody)
  : State * Response Paper :=
  match deleteSchema "paperId" body, del_id body, del_readEntryId body with
  | Some error, _, _ => (s, Status400 error)
  | None, Val paperId, Val (ObjectId_string readEntryId) =>
      match findOneAndUpdate
              (fun p => (paper_id p =? paperId)%string && reads_id_is readEntryId p)
              (pull_reads (fun r => (read_id r =? readEntryId)%N))
              (papers s) with
      | (ps, Some paper) => (set_papers s ps, Status200 paper)
      | (_, None) => (s, Status404)
      end
  | None, _, _ => (s, Status500)
  end.

(** ** GET and POST /api/admin/config *)

(** [Config.findOne({})], then [config ? config.preventDuplicateReads : false] *)
Definition get_config (s : State) : Response bool :=
  match configs s with
  | config :: _ => Status200 (preventDuplicateReads config)
  | [] => Status200 false
  end.

(** [configUpdateSchema.validate(req.body).error]:
    [preventDuplicateReads: Joi.boolean().required()] *)
Definition configUpdateSchema (value : field bool) : option JoiError :=
  Joi.first_error
    [ ("preventDuplicateReads",
       match value with
       | Undefined => Some any_required
       | Null => Some boolean_base
       | Val _ => None
       end) ].

(** [Config.findOneAndUpdate({}, { preventDuplicateReads },
     { new: true, upsert: true })], replying with the value of the
    returned document. *)
Definition post_config (s : State) (value : field bool) : State * Response bool :=
  match configUpdateSchema value, value with
  | Some error, _ => (s, Status400 error)
  | None, Val b =>
      let config := {| preventDuplicateReads := b |} in
      match configs s with
      | _ :: rest => (set_configs s (config :: rest), Status200 (preventDuplicateReads config))
      | [] => (set_configs s [config], Status200 (preventDuplicateReads config))
      end
  | None, _ => (s, Status500)
  end.

(** ** GET /api/papers/search-papers *)

(** [String.prototype.trim], which Joi's [trim()] calls, strips white
    space and line terminators: TAB, LF, VT, FF, CR, SPACE and
    NO-BREAK SPACE (U+00A0) among the code units below 256. *)
Definition is_space (c : ascii) : bool :=
  match nat_of_ascii c with
  | 9%nat | 10%nat | 11%nat | 12%nat | 13%nat | 32%nat | 160%nat => true
  | _ => false
  end.

Fixpoint trimStart (s : string) : string :=
  match s with
  | String c rest => if is_space c then trimStart rest else s
  | EmptyString => EmptyString
  end.

Definition reverse (s : string) : string :=
  string_of_list_ascii (rev (list_ascii_of_string s)).

Definition trim (s : string) : string :=
  reverse (trimStart (reverse (trimStart s))).

(** [req.query], with the numeric parameters already read as integers. *)
Record RawQuery := {
  raw_keyword : option string;
  raw_q_user : option string;
  raw_q_publishYear : option Z;
  raw_page : option Z;
  raw_limit : option Z
}.

(** [value] of the schema: trimmed strings, defaults filled in. *)
Record Query := {
  keyword : option string;
  user : option string;
  q_publishYear : option Z;
  page : Z;
  limit : Z
}.

Module SearchSchema.

(** [Joi.string().trim().optional()] *)
Definition string_trim_optional (v : option string) : option JoiRule * option string :=
  match v with
  | None => (None, None)
  | Some s =>
      let t := trim s in
      if (t =? "")%string then (Some string_empty, None) else (None, Some t)
  end.

(** [Joi.number().integer().min(1900).optional()] *)
Definition year_optional (v : option Z) : option JoiRule :=
  match v with
  | None => None
  | Some z => Joi.number_integer_min_required 1900 (Val z)
  end.

(** [Joi.number().integer().min(1).default(1)] *)
Definition page_rule (v : option Z) : option JoiRule * Z :=
  match v with
  | None => (None, 1)
  | Some z => (Joi.number_integer_min_required 1 (Val z), z)
  end.

(** [Joi.number().integer().min(1).max(50).default(10)] *)
Definition limit_rule (v : option Z) : option JoiRule * Z :=
  match v with
  | None => (None, 10)
  | Some z =>
      (match Joi.number_integer_min_required 1 (Val z) with
       | Some r => Some r
       | None => Joi.max 50 z
       end, z)
  end.

(** [schema.validate(req.query)]: the error, or the value. *)
Definition validate (q : RawQuery) : JoiError + Query :=
  let (e_keyword, v_keyword) := string_trim_optional (raw_keyword q) in
  let (e_user, v_user) := string_trim_optional (raw_q_user q) in
  let (e_page, v_page) := page_rule (raw_page q) in
  let (e_limit, v_limit) := limit_rule (raw_limit q) in
  match Joi.first_error
          [ ("keyword", e_keyword); ("user", e_user);
            ("publishYear", year_optional (raw_q_publishYear q));
            ("page", e_page); ("limit", e_limit) ] with
  | Some error => inl error
  | None =>
      inr {| keyword := v_keyword; user := v_user;
             q_publishYear := raw_q_publishYear q;
             page := v_page; limit := v_limit |}
  end.

End SearchSchema.

(** The body of a successful search. *)
Record SearchResult := {
  totalCount : Z;
  res_page : Z;
  res_limit : Z;
  res_papers : list Paper
}.

(** JavaScript truthiness of the values tested by [if (keyword)],
    [if (user)] and [if (publishYear)]. *)
Definition truthy_string (v : option string) : option string :=
  match v with
  | Some s => if (s =? "")%string then None else Some s
  | None => None
  end.

Definition truthy_number (v : option Z) : option Z :=
  match v with
  | Some z => if z =? 0 then None else Some z
  | None => None
  end.

Section Aggregation.

(** [new RegExp(keyword, 'i')] as the pipeline uses it: [None] when
    the pattern is rejected (the constructor, or the aggregation,
    throws inside [try]), otherwise whether the pattern, with flag
    [i], matches somewhere in a string.  The regular expression engine
    is the platform's. *)
Variable RegExp_i : string -> option (string -> bool).

(** [matchConditions]: the keys that the handler may set. *)
Record MatchConditions := {
  cond_or : option (string -> bool);
    (* $or: [{ 'metadata.title': re }, { 'metadata.authors': re },
              { 'metadata.abstract': re }] *)
  cond_reads_user : option string;         (* 'reads.user' *)
  cond_publishYear : option Z              (* 'metadata.publishYear' *)
}.

Inductive Stage :=
| stage_match (c : MatchConditions)
| stage_project                 (* { _id: 0, id: 1, metadata: 1, reads: 1 } *)
| stage_skip (n : Z)
| stage_limit (n : Z).

(** The pipeline of the handler ends with
    [$facet: { metadata: [{ $count: 'totalCount' }], data: [...] }]. *)
Record Pipeline := {
  stages : list Stage;
  facet_data : list Stage
}.

(** The single document a [$facet] stage outputs. *)
Record FacetResult := {
  facet_metadata : list Z;      (* [{ totalCount }], or [] *)
  data : list Paper
}.

(** A regular expression on a string field, or on an array of
    strings, where one element has to match. *)
Definition or_conditions (re : string -> bool) (p : Paper) : bool :=
  re (title (paper_metadata p))
  || existsb re (authors (paper_metadata p))
  || re (abstract (paper_metadata p)).

(** All keys of a [$match] document have to hold. *)
Definition matches (c : MatchConditions) (p : Paper) : bool :=
  match cond_or c with
  | Some re => or_conditions re p
  | None => true
  end
  && match cond_reads_user c with
     | Some u => reads_user_is u p
     | None => true
     end
  && match cond_publishYear c with
     | Some y => publishYear (paper_metadata p) =? y
     | None => true
     end.

Definition run_stage (st : Stage) (docs : list Paper) : list Paper :=
  match st with
  | stage_match c => filter (matches c) docs
  | stage_project => docs
  | stage_skip n => skipn (Z.to_nat n) docs
  | stage_limit n => firstn (Z.to_nat n) docs
  end.

Definition run_stages (sts : list Stage) (docs : list Paper) : list Paper :=
  fold_left (fun acc st => run_stage st acc) sts docs.

(** [{ $count: 'totalCount' }] outputs no document on no input. *)
Definition count_stage (docs : list Paper) : list Z :=
  match docs with
  | [] => []
  | _ => [Z.of_nat (List.length docs)]
  end.

(** [Paper.aggregate(pipeline)] on the documents in the order in
    which the collection scan yields them. *)
Definition aggregate (scan : list Paper) (pipeline : Pipeline) : list FacetResult :=
  let docs := run_stages (stages pipeline) scan in
  [ {| facet_metadata := count_stage docs;
       data := run_stages (facet_data pipeline) docs |} ].

Definition nonempty_conditions (c : MatchConditions) : bool :=
  match cond_or c, cond_reads_user c, cond_publishYear c with
  | None, None, None => false
  | _, _, _ => true
  end.

(** [matchConditions] as the handler fills it from the validated
    query; [None] when [new RegExp] throws. *)
Definition build_conditions (q : Query) : option MatchConditions :=
  let rest (or_ : option (string -> bool)) :=
    {| cond_or := or_;
       cond_reads_user := truthy_string (user q);
       cond_publishYear := truthy_number (q_publishYear q) |} in
  match truthy_string (keyword q) with
  | Some k =>
      match RegExp_i k with
      | Some searchRegex => Some (rest (Some searchRegex))
      | None => None
      end
  | None => Some (rest None)
  end.

(** The pipeline: [$match] when a condition was set, [$project],
    [$facet].  No stage sorts. *)
Definition build_pipeline (q : Query) : option Pipeline :=
  match build_conditions q with
  | None => None
  | Some matchConditions =>
      Some {| stages :=
                (if nonempty_conditions matchConditions
                 then [stage_match matchConditions] else [])
                ++ [stage_project];
              facet_data :=
                [stage_skip ((page q - 1) * limit q); stage_limit (limit q)] |}
  end.

(** The handler: validation, pipeline, aggregation, reply. *)
Definition search_papers (scan : list Paper) (raw : RawQuery)
  : Response SearchResult :=
  match SearchSchema.validate raw with
  | inl error => Status400 error
  | inr value =>
      match build_pipeline value with
      | None => Status500
      | Some pipeline =>
          match aggregate scan pipeline with
          | result0 :: _ =>
              Status200
                {| totalCount := match facet_metadata result0 with
                                 | n :: _ => n
                                 | [] => 0
                                 end;
                   res_page := page value;
                   res_limit := limit value;
                   res_papers := data result0 |}
          | [] => Status500
          end
      end
  end.

End Aggregation.

(** ** Two mark-read requests in flight

    Node runs one handler at a time and switches between requests only
    where a handler awaits.  A schedule says which of the two requests
    runs its next piece. *)

Inductive Turn := first_request | second_request.

Record InFlight := {
  server : State;
  task1 : MarkReadTask;
  task2 : MarkReadTask
}.

Definition resume (w : InFlight) (t : Turn) : InFlight :=
  match t with
  | first_request =>
      let (s, t1) := mark_read_step (server w) (task1 w) in
      {| server := s; task1 := t1; task2 := task2 w |}
  | second_request =>
      let (s, t2) := mark_read_step (server w) (task2 w) in
      {| server := s; task1 := task1 w; task2 := t2 |}
  end.

Definition run_schedule (schedule : list Turn) (w : InFlight) : InFlight :=
  fold_left resume schedule w.

(** Both requests arrive and run up to their first [await]. *)
Definition arrive (s : State) (user1 : string) (now1 : Z) (body1 : MarkReadBody)
    (user2 : string) (now2 : Z) (body2 : MarkReadBody) : InFlight :=
  {| server := s;
     task1 := mark_read_start user1 now1 body1;
     task2 := mark_read_start user2 now2 body2 |}.

(** ** shared/utils.js: fuzzyMatch *)

(** [String.prototype.toLowerCase] on one code unit below 256: the
    letters A to Z (65 to 90) and the capital letters of Latin-1
    (U+00C0 to U+00DE without the sign U+00D7) have their small letter
    32 further on; no other code unit changes. *)
Definition toLowerCase_char (c : ascii) : ascii :=
  let n := nat_of_ascii c in
  if ((65 <=? n)%nat && (n <=? 90)%nat)
     || ((192 <=? n)%nat && (n <=? 222)%nat && negb (n =? 215)%nat)
  then ascii_of_nat (n + 32) else c.

Fixpoint toLowerCase (s : string) : string :=
  match s with
  | String c rest => String (toLowerCase_char c) (toLowerCase rest)
  | EmptyString => EmptyString
  end.

(** [text.includes(query)] *)
Fixpoint includes (text query : string) : bool :=
  prefix query text
  || match text with
     | String _ rest => includes rest query
     | EmptyString => false
     end.

Definition fuzzyMatch (text query : string) : bool :=
  if (query =? "")%string then true
  else includes (toLowerCase text) (toLowerCase query).

(** ** The pattern of a keyword without syntax characters *)

(** The characters that have a meaning in a pattern. *)
Definition SyntaxCharacter (c : ascii) : bool :=
  existsb (Ascii.eqb c) (list_ascii_of_string "^$\.*+?()[]{}|").

(** A keyword none of whose characters is a syntax character: as a
    pattern it is the sequence of its characters. *)
Definition literal_pattern (keyword : string) : bool :=
  forallb (fun c => negb (SyntaxCharacter c)) (list_ascii_of_string keyword).

(** [keyword] stands in [text] up to the case of letters: a stretch
    of [text] has the characters of [keyword], each in either case. *)
Definition occurs_ignoring_case (text keyword : string) : Prop :=
  exists a m b,
    text = String.append a (String.append m b)
    /\ toLowerCase m = toLowerCase keyword.


(** An engine for the keywords without syntax characters, where the
    pattern is the keyword read character by character, flag [i]
    folding the case as [fuzzyMatch] does.  The examples use it at
    such keywords only; a keyword with a syntax character is outside
    it and answered [None], which the constructor does for some of
    them (a lone plus sign) and not for all (a dot). *)
Definition literal_RegExp_i (keyword : string) : option (string -> bool) :=
  if literal_pattern keyword
  then Some (fun text => fuzzyMatch text keyword)
  else None.

(** ** Sample documents and requests *)

Module Sample.

Definition metadata_2020 : RawMetadata :=
  {| raw_title := Val "Neural Nets"; raw_authors := Val ["Doe"];
     raw_abstract := Val "On nets"; raw_publishYear := Val 2020 |}.

Definition metadata_2021 : RawMetadata :=
  {| raw_title := Val "Other Title"; raw_authors := Val ["Roe"; "Poe"];
     raw_abstract := Val "Something else"; raw_publishYear := Val 2021 |}.

Definition stored_2020 : Metadata :=
  {| title := "Neural Nets"; authors := ["Doe"];
     abstract := "On nets"; publishYear := 2020 |}.

Definition stored_2021 : Metadata :=
  {| title := "Neural Nets"; authors := ["Roe"];
     abstract := "More nets"; publishYear := 2021 |}.

Definition r1 : Read :=
  {| read_id := 1%N; read_user := "A"; read_timestamp := 100; read_notes := "x" |}.

Definition r2 : Read :=
  {| read_id := 2%N; read_user := "B"; read_timestamp := 200; read_notes := "y" |}.

Definition paper_P : Paper :=
  {| paper_id := "P"; paper_metadata := stored_2020; paper_reads := [r1; r2] |}.

Definition paper_Q : Paper :=
  {| paper_id := "Q"; paper_metadata := stored_2021; paper_reads := [r2] |}.

Definition paper_R : Paper :=
  {| paper_id := "R"; paper_metadata := stored_2021; paper_reads := [] |}.

(** A process whose shared config module says [false]. *)
Definition duplicates_allowed : State :=
  {| papers := [paper_P]; configs := [{| preventDuplicateReads := false |}];
     sharedConfig := false; next_oid := 10%N |}.

(** A process whose shared config module says [true]. *)
Definition duplicates_prevented : State :=
  {| papers := [paper_P]; configs := [{| preventDuplicateReads := true |}];
     sharedConfig := true; next_oid := 10%N |}.

Definition empty_store : State :=
  {| papers := []; configs := []; sharedConfig := false; next_oid := 1%N |}.

Definition mark (id : string) (metadata : RawMetadata) (u notes : string)
  : MarkReadBody :=
  {| body_id := id; body_metadata := Some metadata;
     body_read := Some {| raw_user := Val u; raw_notes := Val notes |} |}.

Definition metadata_of_year (y : field Z) : RawMetadata :=
  {| raw_title := Val "Neural Nets"; raw_authors := Val ["Doe"];
     raw_abstract := Val "On nets"; raw_publishYear := y |}.

Definition mark_with_notes (id : string) (notes : field string) : MarkReadBody :=
  {| body_id := id; body_metadata := Some metadata_2020;
     body_read := Some {| raw_user := Val "A"; raw_notes := notes |} |}.

Definition delete_r1 : DeleteBody :=
  {| del_id := Val "P"; del_readEntryId := Val (ObjectId_string 1%N) |}.

(** Two requests by C for paper P with the same notes. *)
Definition two_requests : InFlight :=
  arrive duplicates_prevented
         "C" 5 (mark "P" metadata_2020 "C" "z")
         "C" 6 (mark "P" metadata_2020 "C" "z").

Definition no_filter : RawQuery :=
  {| raw_keyword := None; raw_q_user := None; raw_q_publishYear := None;
     raw_page := None; raw_limit := None |}.

Definition page_of (p l : Z) : RawQuery :=
  {| raw_keyword := None; raw_q_user := None; raw_q_publishYear := None;
     raw_page := Some p; raw_limit := Some l |}.




Definition first_of_one (p : Paper) : SearchResult :=
  {| totalCount := 2; res_page := 1; res_limit := 1; res_papers := [p] |}.

End Sample.

(** ** The search criteria as the specification words them *)

Section Criteria.

Variable RegExp_i : string -> option (string -> bool).

(** keyword: the pattern matches the title, or one of the authors,
    or the abstract. *)
Definition keyword_criterion (q : Query) (p : Paper) : Prop :=
  forall k, keyword q = Some k ->
    exists re, RegExp_i k = Some re /\
      (re (title (paper_metadata p)) = true
       \/ (exists a, In a (authors (paper_metadata p)) /\ re a = true)
       \/ re (abstract (paper_metadata p)) = true).

(** user: at least one read entry of the paper is by that user. *)
Definition user_criterion (q : Query) (p : Paper) : Prop :=
  forall u, user q = Some u ->
    exists r, In r (paper_reads p) /\ read_user r = u.

(** publishYear: the paper's year is that integer. *)
Definition year_criterion (q : Query) (p : Paper) : Prop :=
  forall y, q_publishYear q = Some y -> publishYear (paper_metadata p) = y.

(** Every criterion that is given holds. *)
Definition satisfies (q : Query) (p : Paper) : Prop :=
  keyword_criterion q p /\ user_criterion q p /\ year_criterion q p.

End Criteria.

(** The page of a list of matches. *)
Definition page_slice (q : Query) (matched : list Paper) : list Paper :=
  firstn (Z.to_nat (limit q)) (skipn (Z.to_nat ((page q - 1) * limit q)) matched).

(** The same query asked for another page and page size. *)
Definition at_page (raw : RawQuery) (p l : Z) : RawQuery :=
  {| raw_keyword := raw_keyword raw; raw_q_user := raw_q_user raw;
     raw_q_publishYear := raw_q_publishYear raw;
     raw_page := Some p; raw_limit := Some l |}.

(** The duplicate test as the specification words it: an existing
    entry with the same user and the same notes. *)
Definition same_user_and_notes (u notes : string) (reads : list Read) : Prop :=
  exists r, In r reads /\ read_user r = u /\ read_notes r = notes.

(** What a validated query is known to satisfy. *)
Record valid_query (q : Query) : Prop := {
  vq_keyword : forall k, keyword q = Some k -> k <> "";
  vq_user : forall u, user q = Some u -> u <> "";
  vq_year : forall y, q_publishYear q = Some y -> 1900 <= y;
  vq_page : 1 <= page q;
  vq_limit : 1 <= limit q <= 50
}.

(** * The rest of the backend and its callers *)

(** ** GET /api/papers/check-paper *)

Inductive ReadStatus := status_read | status_unread.

(** [req.query] of check-paper, [details] already read as a boolean. *)
Record CheckQuery := {
  chk_id : option string;
  chk_details : option bool
}.

(** The body of a successful check: [reads] is set only under
    [if (details)]. *)
Record CheckResult := {
  chk_paper_id : string;
  chk_readStatus : ReadStatus;
  chk_metadata : Metadata;
  chk_reads : option (list Read)
}.

(** [Joi.object({ id: Joi.string().required(),
                  details: Joi.boolean().optional() })] *)
Definition checkSchema (q : CheckQuery) : option JoiError :=
  Joi.first_error
    [ ("id", match chk_id q with
             | None => Some any_required
             | Some id => Joi.string_required (Val id)
             end) ].

(** [router.get('/check-paper', authenticateUser, ...)] *)
Definition check_paper (s : State) (userId : string) (q : CheckQuery)
  : Response CheckResult :=
  match checkSchema q, chk_id q with
  | Some error, _ => Status400 error
  | None, Some id =>
      match Paper_findOne id (papers s) with
      | None => Status404
      | Some paper =>
          let readByUser :=
            existsb (fun read => (read_user read =? userId)%string)
                    (paper_reads paper) in
          Status200
            {| chk_paper_id := paper_id paper;
               chk_readStatus := if readByUser then status_read else status_unread;
               chk_metadata := paper_metadata paper;
               chk_reads := match chk_details q with
                            | Some true => Some (paper_reads paper)
                            | _ => None
                            end |}
      end
  | None, None => Status500
  end.

(** ** server.js: the default config at start-up *)

(** [const configCount = await Config.countDocuments();
     if (configCount === 0) await Config.create({ preventDuplicateReads: false })] *)
Definition ensure_default_config (s : State) : State :=
  if (List.length (configs s) =? 0)%nat
  then set_configs s (configs s ++ [{| preventDuplicateReads := false |}])
  else s.

(** ** Requests that change the state, one after the other *)

Inductive Request :=
| req_startup
| req_mark_read (user_id : string) (now : Z) (body : MarkReadBody)
| req_delete_mark_read (user_id : string) (body : DeleteBody)
| req_admin_delete_mark_read (body : DeleteBody)
| req_post_config (value : field bool).

Definition handle (s : State) (r : Request) : State :=
  match r with
  | req_startup => ensure_default_config s
  | req_mark_read u now body => fst (mark_read s u now body)
  | req_delete_mark_read u body => fst (delete_mark_read s u body)
  | req_admin_delete_mark_read body => fst (admin_delete_mark_read s body)
  | req_post_config value => fst (post_config s value)
  end.

Definition run (s : State) (requests : list Request) : State :=
  fold_left handle requests s.

(** A process that starts on an empty paper collection. *)
Definition no_papers (cs : list ConfigDoc) (flag : bool) (oid : ObjectId) : State :=
  {| papers := []; configs := cs; sharedConfig := flag; next_oid := oid |}.

(** What the schemas of models/paper.js ask of a stored document. *)
Definition valid_read (r : Read) : Prop :=
  read_user r <> "" /\ read_notes r <> "".

Definition valid_paper (p : Paper) : Prop :=
  paper_id p <> ""
  /\ title (paper_metadata p) <> ""
  /\ abstract (paper_metadata p) <> ""
  /\ 1900 <= publishYear (paper_metadata p)
  /\ Forall valid_read (paper_reads p).

(** The entry ids of a paper are pairwise different and older than the
    counter. *)
Definition fresh_read_ids (next : ObjectId) (p : Paper) : Prop :=
  NoDup (map read_id (paper_reads p))
  /\ Forall (fun r => (read_id r < next)%N) (paper_reads p).

(** ** shared/paper.js: validatePaper *)

(** A read entry and a paper as plain objects.  [timestamp] is a Date
    or the string JSON makes of it, which is truthy when present. *)
Record ReadObject := {
  ro_user : field string;
  ro_timestamp : field Z;
  ro_notes : field string
}.

Record PaperObject := {
  po_id : field string;
  po_title : field string;
  po_authors : field (list string);      (* [Val] is an array *)
  po_abstract : field string;
  po_publishYear : field Z;              (* [Val] is a number *)
  po_reads : field (list ReadObject)     (* [Val] is an array *)
}.

(** [{ isValid: true }] or [{ isValid: false, message }] *)
Inductive Validation :=
| isValid
| notValid (message : string).

(** [!x] on a string field. *)
Definition falsy_string (f : field string) : bool :=
  match f with
  | Val s => (s =? "")%string
  | _ => true
  end.

Definition falsy_number (f : field Z) : bool :=
  match f with
  | Val z => z =? 0
  | _ => true
  end.

Definition falsy_date (f : field Z) : bool :=
  match f with
  | Val _ => false
  | _ => true
  end.

(** [!read.user || !read.timestamp || !read.notes] *)
Definition read_incomplete (read : ReadObject) : bool :=
  falsy_string (ro_user read) || falsy_date (ro_timestamp read)
  || falsy_string (ro_notes read).

Definition validatePaper (paper : PaperObject) : Validation :=
  if falsy_string (po_id paper) then notValid "Paper ID is required."
  else if falsy_string (po_title paper) then notValid "Paper title is required."
  else if match po_authors paper with
          | Val a => (List.length a =? 0)%nat
          | _ => true
          end
  then notValid "At least one author is required."
  else if falsy_string (po_abstract paper) then notValid "Paper abstract is required."
  else if falsy_number (po_publishYear paper)
  then notValid "Paper publish year is required and must be a number."
  else match po_reads paper with
       | Val reads =>
           if existsb read_incomplete reads
           then notValid "Each read entry requires a user, timestamp, and notes."
           else isValid
       | _ => notValid "Paper reads must be an array."
       end.

(** A stored paper as the object the API sends. *)
Definition object_of_read (r : Read) : ReadObject :=
  {| ro_user := Val (read_user r); ro_timestamp := Val (read_timestamp r);
     ro_notes := Val (read_notes r) |}.

Definition object_of_paper (p : Paper) : PaperObject :=
  {| po_id := Val (paper_id p);
     po_title := Val (title (paper_metadata p));
     po_authors := Val (authors (paper_metadata p));
     po_abstract := Val (abstract (paper_metadata p));
     po_publishYear := Val (publishYear (paper_metadata p));
     po_reads := Val (map object_of_read (paper_reads p)) |}.

(** ** shared/utils.js: hashID *)

(** [x | 0], and the result of [<<]: the 32-bit two's complement
    reading of an integer. *)
Definition ToInt32 (z : Z) : Z := (z + 2 ^ 31) mod 2 ^ 32 - 2 ^ 31.

(** [hash = (hash << 5) - hash + char; hash |= 0] *)
Definition hashID_step (hash char : Z) : Z :=
  ToInt32 (ToInt32 (Z.shiftl hash 5) - hash + char).

(** [str.charCodeAt(i)] for [i] from 0 to [str.length - 1]. *)
Definition charCodes (str : string) : list Z :=
  map (fun c => Z.of_nat (nat_of_ascii c)) (list_ascii_of_string str).

Definition hashID_loop (codes : list Z) : Z :=
  fold_left hashID_step codes 0.

Definition hex_digit (d : Z) : ascii :=
  nth (Z.to_nat d) (list_ascii_of_string "0123456789abcdef") "0"%char.

(** [n.toString(16)] for an integer [n >= 0]; the fuel is the number
    of binary digits of [n], more than its hexadecimal digits. *)
Fixpoint toString16_digits (fuel : nat) (n : Z) : string :=
  match fuel with
  | O => EmptyString
  | S fuel' =>
      if n <? 16 then String (hex_digit n) EmptyString
      else String.append (toString16_digits fuel' (n / 16))
                         (String (hex_digit (n mod 16)) EmptyString)
  end.

Definition toString16 (n : Z) : string :=
  toString16_digits (S (Z.to_nat (Z.log2 n))) n.

(** [return Math.abs(hash).toString(16)] *)
Definition hashID (str : string) : string :=
  toString16 (Z.abs (hashID_loop (charCodes str))).

(** The hash without the 32-bit wrap: Horner's rule with base 31. *)
Definition horner31 (codes : list Z) : Z :=
  fold_left (fun h c => 31 * h + c) codes 0.

(** A string of hexadecimal digits read as a number. *)
Definition hex_value (c : ascii) : option Z :=
  let n := Z.of_nat (nat_of_ascii c) in
  if (48 <=? n) && (n <=? 57) then Some (n - 48)
  else if (97 <=? n) && (n <=? 102) then Some (n - 87)
  else None.

Fixpoint parse16_from (acc : Z) (s : string) : option Z :=
  match s with
  | EmptyString => Some acc
  | String c rest =>
      match hex_value c with
      | Some d => parse16_from (16 * acc + d) rest
      | None => None
      end
  end.

(** ** The dashboards: relative time *)

(** [Math.round(a / b)] for integers [a] and [b > 0]: the nearest
    integer, a tie going up. *)
Definition Math_round_div (a b : Z) : Z := (2 * a + b) / (2 * b).

(** [`${n}`] for an integer. *)
Definition show (n : Z) : string := NilZero.string_of_int (Z.to_int n).

(** [getRelativeTime(timestamp)] of the dashboards and [formatTimeAgo]
    of the content script, with [now.getTime()] and [past.getTime()]
    as arguments. *)
Definition getRelativeTime (now past : Z) : string :=
  let seconds := Math_round_div (now - past) 1000 in
  let minutes := Math_round_div seconds 60 in
  let hours := Math_round_div minutes 60 in
  let days := Math_round_div hours 24 in
  if seconds <? 60 then String.append (show seconds) " seconds ago"
  else if minutes <? 60 then String.append (show minutes) " minutes ago"
  else if hours <? 24 then String.append (show hours) " hours ago"
  else String.append (show days) " days ago".

(** ** The extension dashboard, queries and the export *)

(** The extension's dashboard shows its button under
    [data.totalCount > (currentPage * currentLimit)]. *)
Definition loadMoreButton_shown (data : SearchResult) (currentPage currentLimit : Z)
  : bool :=
  totalCount data >? currentPage * currentLimit.

(** [search-papers?user=...]: the query whose only parameter is the
    user. *)
Definition user_query (u : string) : RawQuery :=
  {| raw_keyword := None; raw_q_user := Some u; raw_q_publishYear := None;
     raw_page := None; raw_limit := None |}.

(** [response.data.papers] of a reply, nothing for a refusal. *)
Definition papers_of (response : Response SearchResult) : list Paper :=
  match response with
  | Status200 data => res_papers data
  | _ => []
  end.

(** [q2] asks for everything [q1] asks for, and maybe for more. *)
Definition narrows (q2 q1 : Query) : Prop :=
  (forall k, keyword q1 = Some k -> keyword q2 = Some k)
  /\ (forall u, user q1 = Some u -> user q2 = Some u)
  /\ (forall y, q_publishYear q1 = Some y -> q_publishYear q2 = Some y).

(** The value of the last POST /config that passed validation, [v]
    when there was none. *)
Definition last_posted (requests : list Request) (v : bool) : bool :=
  fold_left (fun v r => match r with
                        | req_post_config (Val b) => b
                        | _ => v
                        end) requests v.

(** [handleExportCsv] asks for [search-papers?limit=10000]. *)
Definition export_query : RawQuery :=
  {| raw_keyword := None; raw_q_user := None; raw_q_publishYear := None;
     raw_page := None; raw_limit := Some 10000 |}.

(** * Properties *)

(** ** Store lemmas *)

Lemma findOne_id : forall id ps p,
  Paper_findOne id ps = Some p -> paper_id p = id.
Proof.
  unfold Paper_findOne. intros id ps p H.
  apply find_some in H. destruct H as [_ H].
  now apply String.eqb_eq.
Qed.

Lemma findOne_In : forall id ps p,
  Paper_findOne id ps = Some p -> In p ps.
Proof.
  unfold Paper_findOne. intros id ps p H.
  now apply find_some in H.
Qed.

Lemma updateOne_length : forall f g ps,
  List.length (updateOne f g ps) = List.length ps.
Proof.
  induction ps as [|p ps IH]; simpl; [reflexivity|].
  destruct (f p); simpl; congruence.
Qed.

(** The document that [findOne] returns is the one [updateOne] rewrites. *)
Lemma findOne_updateOne : forall id g ps p,
  (forall x, paper_id (g x) = paper_id x) ->
  Paper_findOne id ps = Some p ->
  Paper_findOne id (updateOne (fun x => (paper_id x =? id)%string) g ps)
  = Some (g p).
Proof.
  unfold Paper_findOne. intros id g ps p Hg.
  induction ps as [|x ps IH]; simpl; [discriminate|].
  destruct (paper_id x =? id)%string eqn:E; simpl.
  - intros H. injection H as <-. now rewrite Hg, E.
  - rewrite E. exact IH.
Qed.

(** Documents with another id are not touched by the update. *)
Lemma findOne_updateOne_other : forall id id' g ps,
  (forall x, paper_id (g x) = paper_id x) ->
  id' <> id ->
  Paper_findOne id' (updateOne (fun x => (paper_id x =? id)%string) g ps)
  = Paper_findOne id' ps.
Proof.
  unfold Paper_findOne. intros id id' g ps Hg Hne.
  induction ps as [|x ps IH]; simpl; [reflexivity|].
  destruct (paper_id x =? id)%string eqn:E; simpl.
  - rewrite Hg. apply String.eqb_eq in E.
    assert ((paper_id x =? id')%string = false) as ->; [|reflexivity].
    apply String.eqb_neq. congruence.
  - now rewrite IH.
Qed.

Lemma findOne_app_new : forall id ps p,
  Paper_findOne id ps = None -> paper_id p = id ->
  Paper_findOne id (ps ++ [p]) = Some p.
Proof.
  unfold Paper_findOne. intros id ps p Hnone Hid.
  induction ps as [|x ps IH]; simpl in *.
  - now rewrite Hid, String.eqb_refl.
  - destruct (paper_id x =? id)%string; [discriminate | now apply IH].
Qed.

Lemma findOne_app_keep : forall id ps qs p,
  Paper_findOne id ps = Some p -> Paper_findOne id (ps ++ qs) = Some p.
Proof.
  unfold Paper_findOne. intros id ps qs p.
  induction ps as [|x ps IH]; simpl; [discriminate|].
  destruct (paper_id x =? id)%string; auto.
Qed.

Lemma required_String_true : forall s, s <> "" -> required_String s = true.
Proof.
  intros s H. unfold required_String.
  now apply negb_true_iff, String.eqb_neq.
Qed.

Lemma string_required_ok : forall s,
  s <> "" -> Joi.string_required (Val s) = None.
Proof.
  intros s H. simpl. apply String.eqb_neq in H. now rewrite H.
Qed.

(** ** The duplicate test *)

Lemma isDuplicate_iff : forall u now notes reads,
  isDuplicate {| new_user := u; new_timestamp := now; new_notes := Val notes |} reads = true
  <-> same_user_and_notes u notes reads.
Proof.
  intros u now notes reads. unfold isDuplicate, same_user_and_notes.
  rewrite existsb_exists. simpl.
  split; intros [r [Hin H]]; exists r; (split; [exact Hin|]).
  - apply andb_true_iff in H. destruct H as [Hu Hn].
    apply String.eqb_eq in Hu. apply String.eqb_eq in Hn. now split.
  - destruct H as [Hu Hn]. apply andb_true_iff.
    split; now apply String.eqb_eq.
Qed.

(** ** The sequential handler, case by case *)

Lemma mark_read_invalid_metadata : forall s u now body e,
  metadataSchema (body_metadata body) = Some e ->
  mark_read s u now body = (s, Status400 e).
Proof.
  intros s u now body e H. unfold mark_read, mark_read_start.
  now rewrite H.
Qed.

Lemma mark_read_invalid_read : forall s u now body e,
  metadataSchema (body_metadata body) = None ->
  readSchema (body_read body) = Some e ->
  mark_read s u now body = (s, Status400 e).
Proof.
  intros s u now body e Hm H. unfold mark_read, mark_read_start.
  now rewrite Hm, H.
Qed.

(** An existing paper: duplicate check, then push and save. *)
Lemma mark_read_existing : forall s u now body read paper,
  metadataSchema (body_metadata body) = None ->
  body_read body = Some read ->
  readSchema (Some read) = None ->
  Paper_findOne (body_id body) (papers s) = Some paper ->
  mark_read s u now body =
  let newReadEntry :=
    {| new_user := u; new_timestamp := now; new_notes := raw_notes read |} in
  if sharedConfig s && isDuplicate newReadEntry (paper_reads paper)
  then (s, Status409)
  else match ReadSchema (next_oid s) newReadEntry with
       | Some r =>
           (set_papers (bump_oid s)
              (updateOne (fun p => (paper_id p =? body_id body)%string)
                         (push_read r) (papers s)),
            Status200 (push_read r paper))
       | None => (bump_oid s, Status500)
       end.
Proof.
  intros s u now body read paper Hm Hr Hrs Hfind.
  unfold mark_read, mark_read_start.
  rewrite Hm, Hr, Hrs. cbn [mark_read_step]. unfold mark_read_found.
  rewrite Hfind. cbv zeta.
  destruct (sharedConfig s && isDuplicate _ _); [reflexivity|].
  cbn [mark_read_step].
  destruct (ReadSchema (next_oid s) _) as [r|]; cbn [mark_read_save]; [|reflexivity].
  now rewrite (findOne_id _ _ _ Hfind).
Qed.

(** A new paper: create and save. *)
Lemma mark_read_unseen : forall s u now body read,
  metadataSchema (body_metadata body) = None ->
  body_read body = Some read ->
  readSchema (Some read) = None ->
  Paper_findOne (body_id body) (papers s) = None ->
  mark_read s u now body =
  match PaperSchema (next_oid s) (body_id body) (body_metadata body)
          {| new_user := u; new_timestamp := now; new_notes := raw_notes read |} with
  | Some p => (set_papers (bump_oid s) (papers s ++ [p]), Status200 p)
  | None => (bump_oid s, Status500)
  end.
Proof.
  intros s u now body read Hm Hr Hrs Hfind.
  unfold mark_read, mark_read_start.
  rewrite Hm, Hr, Hrs. cbn [mark_read_step]. unfold mark_read_found.
  rewrite Hfind. cbn [mark_read_step].
  destruct (PaperSchema _ _ _ _) as [p|] eqn:Hp; cbn [mark_read_save]; [|reflexivity].
  unfold insertOne.
  assert (paper_id p = body_id body) as ->.
  { unfold PaperSchema in Hp.
    destruct (PaperSchema_metadata _); [|discriminate].
    destruct (ReadSchema _ _); [|discriminate].
    destruct (required_String _); [|discriminate].
    now injection Hp as <-. }
  cbn [papers bump_oid]. now rewrite Hfind.
Qed.

(** Whatever the request, [mark_read] leaves every stored paper's id and
    metadata as they are, keeps the number of papers or adds one, and
    changes the reads of a paper only by appending one entry. *)
Lemma mark_read_frame : forall s u now body id paper,
  Paper_findOne id (papers s) = Some paper ->
  exists paper',
    Paper_findOne id (papers (fst (mark_read s u now body))) = Some paper'
    /\ paper_metadata paper' = paper_metadata paper
    /\ (paper_reads paper' = paper_reads paper
        \/ (id = body_id body
            /\ exists r, paper_reads paper' = paper_reads paper ++ [r]
                         /\ snd (mark_read s u now body) = Status200 paper')).
Proof.
  intros s u now body id paper Hfind.
  destruct (metadataSchema (body_metadata body)) as [e|] eqn:Hm.
  { rewrite (mark_read_invalid_metadata s u now body _ Hm). simpl. eauto. }
  destruct (readSchema (body_read body)) as [e|] eqn:Hrs.
  { rewrite (mark_read_invalid_read s u now body _ Hm Hrs). simpl. eauto. }
  destruct (body_read body) as [read|] eqn:Hr.
  2:{ unfold mark_read, mark_read_start. rewrite Hm, Hr. simpl. eauto. }
  destruct (Paper_findOne (body_id body) (papers s)) as [found|] eqn:Hf.
  - rewrite (mark_read_existing s u now body _ _ Hm Hr Hrs Hf). cbv zeta.
    destruct (sharedConfig s && isDuplicate _ _); [simpl; eauto|].
    destruct (ReadSchema _ _) as [r|]; [|simpl; eauto].
    cbn [fst snd set_papers papers].
    destruct (String.eqb_spec id (body_id body)) as [->|Hne].
    + rewrite Hfind in Hf. injection Hf as <-.
      rewrite (findOne_updateOne (body_id body) (push_read r) (papers s) _
                 (fun x => eq_refl) Hfind).
      exists (push_read r paper). split; [reflexivity|]. split; [reflexivity|].
      right. split; [reflexivity|]. exists r. now split.
    + rewrite findOne_updateOne_other by (auto; intros; reflexivity).
      eauto.
  - rewrite (mark_read_unseen s u now body _ Hm Hr Hrs Hf).
    assert (Hkeep : forall p, Paper_findOne id (papers s ++ [p]) = Some paper).
    { intros p. now apply findOne_app_keep. }
    destruct (PaperSchema _ _ _ _) as [p|]; cbn [fst set_papers bump_oid papers].
    + rewrite Hkeep. eauto.
    + eauto.
Qed.

(** Metadata that passes the Joi schema also passes PaperSchema. *)
Lemma metadataSchema_PaperSchema : forall m,
  metadataSchema (Some m) = None ->
  exists t a ab y,
    m = {| raw_title := Val t; raw_authors := Val a;
           raw_abstract := Val ab; raw_publishYear := Val y |}
    /\ 1900 <= y
    /\ PaperSchema_metadata (Some m)
       = Some {| title := t; authors := a; abstract := ab; publishYear := y |}.
Proof.
  intros [[| |t] [| |a] [| |ab] [| |y]]; simpl; try discriminate;
    try (destruct (_ =? "")%string; discriminate).
  all: try (destruct (t =? "")%string; [discriminate|];
            destruct (find _ a); discriminate).
  all: try (destruct (t =? "")%string; [discriminate|];
            destruct (find _ a); [discriminate|];
            destruct (ab =? "")%string; discriminate).
  unfold required_String.
  destruct (t =? "")%string; [discriminate|].
  destruct (find _ a); [discriminate|].
  destruct (ab =? "")%string; [discriminate|].
  unfold Joi.number_integer, Joi.min.
  destruct (Z.abs y <=? Joi.MAX_SAFE_INTEGER); [|discriminate].
  destruct (1900 <=? y) eqn:Hy; [|discriminate].
  intros _. exists t, a, ab, y. simpl.
  split; [reflexivity|]. split; [now apply Z.leb_le|reflexivity].
Qed.

Lemma readSchema_ok : forall sent_user notes,
  sent_user <> "" -> notes <> "" ->
  readSchema (Some {| raw_user := Val sent_user; raw_notes := Val notes |}) = None.
Proof.
  intros sent_user notes Hu Hn. unfold readSchema. simpl.
  apply String.eqb_neq in Hu. apply String.eqb_neq in Hn.
  now rewrite Hu, Hn.
Qed.

Lemma readSchema_ok_inv : forall sent_user notes,
  readSchema (Some {| raw_user := sent_user; raw_notes := Val notes |}) = None ->
  notes <> "".
Proof.
  intros sent_user notes. unfold readSchema. simpl.
  destruct (Joi.string_required sent_user); [discriminate|].
  destruct (notes =? "")%string eqn:E; [discriminate|].
  intros _. now apply String.eqb_neq.
Qed.

Lemma ReadSchema_ok : forall oid u now notes,
  u <> "" -> notes <> "" ->
  ReadSchema oid {| new_user := u; new_timestamp := now; new_notes := Val notes |}
  = Some {| read_id := oid; read_user := u;
            read_timestamp := now; read_notes := notes |}.
Proof.
  intros oid u now notes Hu Hn. unfold ReadSchema. simpl.
  now rewrite (required_String_true _ Hu), (required_String_true _ Hn).
Qed.

(** A mark-read on an existing paper does not change the number of
    papers. *)
Lemma mark_read_existing_length : forall s u now body paper,
  Paper_findOne (body_id body) (papers s) = Some paper ->
  List.length (papers (fst (mark_read s u now body))) = List.length (papers s).
Proof.
  intros s u now body paper Hf.
  destruct (metadataSchema (body_metadata body)) as [e|] eqn:Hm.
  { now rewrite (mark_read_invalid_metadata s u now body _ Hm). }
  destruct (readSchema (body_read body)) as [e|] eqn:Hrs.
  { now rewrite (mark_read_invalid_read s u now body _ Hm Hrs). }
  destruct (body_read body) as [read|] eqn:Hr.
  2:{ unfold mark_read, mark_read_start. now rewrite Hm, Hr. }
  rewrite (mark_read_existing s u now body _ _ Hm Hr Hrs Hf). cbv zeta.
  destruct (sharedConfig s && isDuplicate _ _); [reflexivity|].
  destruct (ReadSchema _ _); [|reflexivity].
  cbn [fst set_papers papers]. apply updateOne_length.
Qed.

(** ** C2: the duplicate policy *)

(** C2.  Let paper P hold a read by user A with notes x, and let A send
    a valid mark-read for P with notes x.  When preventDuplicateReads
    is true the answer is 409 (duplicate) and the state is left as it
    is.  When it is false the answer is 200 and the stored paper is P
    with one more read entry at the end, by A with notes x: the length
    of the reads grows by exactly one.  The duplicate test is equality
    of the user and of the notes, character by character. *)
Theorem mark_read_duplicate_policy :
  forall (s : State) (P : Paper) (A x sent_user : string) (now : Z)
         (body : MarkReadBody),
    Paper_findOne (body_id body) (papers s) = Some P ->
    same_user_and_notes A x (paper_reads P) ->
    metadataSchema (body_metadata body) = None ->
    body_read body = Some {| raw_user := Val sent_user; raw_notes := Val x |} ->
    A <> "" -> x <> "" -> sent_user <> "" ->
    (sharedConfig s = true -> mark_read s A now body = (s, Status409))
    /\ (sharedConfig s = false ->
        exists r,
          read_user r = A /\ read_notes r = x
          /\ snd (mark_read s A now body) = Status200 (push_read r P)
          /\ Paper_findOne (body_id body) (papers (fst (mark_read s A now body)))
             = Some (push_read r P)
          /\ paper_reads (push_read r P) = paper_reads P ++ [r]
          /\ List.length (paper_reads (push_read r P))
             = S (List.length (paper_reads P)))
    /\ (forall u notes reads,
          isDuplicate {| new_user := u; new_timestamp := now;
                         new_notes := Val notes |} reads = true
          <-> same_user_and_notes u notes reads).
Proof.
  intros s P A x sent_user now body Hfind Hdup Hm Hr HA Hx Hsent.
  pose proof (readSchema_ok _ _ Hsent Hx) as Hrs.
  pose proof (mark_read_existing s A now body _ _ Hm Hr Hrs Hfind) as Heq.
  cbv zeta in Heq. cbn [raw_notes] in Heq.
  split; [|split].
  - intros Hon. rewrite Heq, Hon.
    apply (isDuplicate_iff A now x) in Hdup. now rewrite Hdup.
  - intros Hoff. rewrite Heq, Hoff. cbn [andb].
    rewrite (ReadSchema_ok (next_oid s) _ now _ HA Hx).
    exists {| read_id := next_oid s; read_user := A;
              read_timestamp := now; read_notes := x |}.
    cbn [fst snd set_papers papers].
    split; [reflexivity|]. split; [reflexivity|]. split; [reflexivity|].
    split.
    + apply (findOne_updateOne (body_id body) (push_read _) (papers s) _
               (fun p => eq_refl) Hfind).
    + split; [reflexivity|]. simpl. rewrite length_app. simpl. lia.
  - intros u notes reads. apply isDuplicate_iff.
Qed.

Lemma mark_read_duplicate_policy_witness :
  (mark_read Sample.duplicates_prevented "A" 7
     (Sample.mark "P" Sample.metadata_2021 "A" "x")
   = (Sample.duplicates_prevented, Status409))
  /\ (exists r,
        read_user r = "A" /\ read_notes r = "x"
        /\ snd (mark_read Sample.duplicates_allowed "A" 7
                  (Sample.mark "P" Sample.metadata_2021 "A" "x"))
           = Status200 (push_read r Sample.paper_P)).
Proof.
  assert (Hdup : same_user_and_notes "A" "x" (paper_reads Sample.paper_P)).
  { exists Sample.r1. simpl. auto. }
  split.
  - apply (mark_read_duplicate_policy Sample.duplicates_prevented Sample.paper_P
             "A" "x" "A" 7 (Sample.mark "P" Sample.metadata_2021 "A" "x"));
      try reflexivity; try discriminate; exact Hdup.
  - destruct (mark_read_duplicate_policy Sample.duplicates_allowed Sample.paper_P
                "A" "x" "A" 7 (Sample.mark "P" Sample.metadata_2021 "A" "x"))
      as [_ [H _]]; try reflexivity; try discriminate; try exact Hdup.
    destruct (H eq_refl) as [r [Hu [Hn [Hres _]]]].
    exists r. auto.
Defined.

(** ** C4: the first write establishes the metadata *)

(** C4.  A valid mark-read on an id that no stored paper has is
    answered 200 and adds exactly one paper, at the end of the
    collection, with the metadata sent and a reads list of one entry.
    After that, whatever a second mark-read on the same id sends, the
    collection keeps its size, the paper keeps the metadata of the
    first call, and its reads are either unchanged or followed by one
    new entry; a valid second call that is not rejected as a duplicate
    is answered 200 with the entry appended. *)
Theorem mark_read_first_write_wins :
  forall (s : State) (u : string) (now : Z) (id : string)
         (t : string) (a : list string) (ab : string) (y : Z)
         (sent_user notes : string),
    let metadata := {| raw_title := Val t; raw_authors := Val a;
                       raw_abstract := Val ab; raw_publishYear := Val y |} in
    let body := {| body_id := id; body_metadata := Some metadata;
                   body_read := Some {| raw_user := Val sent_user;
                                        raw_notes := Val notes |} |} in
    Paper_findOne id (papers s) = None ->
    id <> "" -> u <> "" ->
    metadataSchema (Some metadata) = None ->
    readSchema (body_read body) = None ->
    exists (r : Read) (s1 : State),
      let P1 := {| paper_id := id;
                   paper_metadata := {| title := t; authors := a;
                                        abstract := ab; publishYear := y |};
                   paper_reads := [r] |} in
      read_user r = u /\ read_notes r = notes /\ read_timestamp r = now
      /\ mark_read s u now body = (s1, Status200 P1)
      /\ papers s1 = papers s ++ [P1]
      /\ forall (u2 : string) (now2 : Z) (body2 : MarkReadBody),
           body_id body2 = id ->
           let s2 := fst (mark_read s1 u2 now2 body2) in
           List.length (papers s2) = List.length (papers s1)
           /\ exists P2,
                Paper_findOne id (papers s2) = Some P2
                /\ paper_metadata P2 = paper_metadata P1
                /\ (paper_reads P2 = [r]
                    \/ exists r2, paper_reads P2 = [r; r2]
                                  /\ snd (mark_read s1 u2 now2 body2) = Status200 P2)
                /\ (forall sent2 notes2,
                      metadataSchema (body_metadata body2) = None ->
                      body_read body2 = Some {| raw_user := Val sent2;
                                                raw_notes := Val notes2 |} ->
                      sent2 <> "" -> notes2 <> "" -> u2 <> "" ->
                      sharedConfig s = false \/ u2 <> u \/ notes2 <> notes ->
                      exists r2, read_user r2 = u2 /\ read_notes r2 = notes2
                                 /\ paper_reads P2 = [r; r2]
                                 /\ snd (mark_read s1 u2 now2 body2) = Status200 P2).
Proof.
  intros s u now id t a ab y sent_user notes metadata body Hnone Hid Hu Hm Hrs.
  pose proof (readSchema_ok_inv _ _ Hrs) as Hnotes.
  destruct (metadataSchema_PaperSchema _ Hm) as [t' [a' [ab' [y' [Heq [_ Hcast]]]]]].
  injection Heq as <- <- <- <-.
  set (r := {| read_id := next_oid s; read_user := u;
               read_timestamp := now; read_notes := notes |}).
  set (P1 := {| paper_id := id;
                paper_metadata := {| title := t; authors := a;
                                     abstract := ab; publishYear := y |};
                paper_reads := [r] |}).
  set (s1 := set_papers (bump_oid s) (papers s ++ [P1])).
  assert (Hfirst : mark_read s u now body = (s1, Status200 P1)).
  { rewrite (mark_read_unseen s u now body
               {| raw_user := Val sent_user; raw_notes := Val notes |}
               Hm eq_refl Hrs Hnone).
    unfold PaperSchema. cbn [body_metadata body body_id raw_notes].
    fold metadata. rewrite Hcast.
    rewrite (ReadSchema_ok (next_oid s) _ now _ Hu Hnotes).
    now rewrite (required_String_true _ Hid). }
  assert (Hf1 : Paper_findOne id (papers s1) = Some P1).
  { apply findOne_app_new; [exact Hnone | reflexivity]. }
  exists r, s1. cbv zeta. fold P1.
  split; [reflexivity|]. split; [reflexivity|]. split; [reflexivity|].
  split; [exact Hfirst|]. split; [reflexivity|].
  intros u2 now2 body2 Hid2.
  assert (Hf2 : Paper_findOne (body_id body2) (papers s1) = Some P1)
    by now rewrite Hid2.
  split; [apply (mark_read_existing_length s1 u2 now2 body2 _ Hf2)|].
  destruct (mark_read_frame s1 u2 now2 body2 _ _ Hf1) as [P2 [HP2 [Hmeta Hreads]]].
  exists P2. split; [exact HP2|]. split; [exact Hmeta|]. split.
  - destruct Hreads as [H|[_ [r2 [H Hres]]]]; [now left|].
    right. exists r2. now split.
  - intros sent2 notes2 Hm2 Hr2 Hsent2 Hnotes2 Hu2 Hnodup.
    pose proof (readSchema_ok _ _ Hsent2 Hnotes2) as Hrs2.
    pose proof (mark_read_existing s1 u2 now2 body2 _ _ Hm2 Hr2 Hrs2 Hf2) as E.
    cbv zeta in E. cbn [raw_notes] in E.
    assert (Hgate : sharedConfig s1
                    && isDuplicate {| new_user := u2; new_timestamp := now2;
                                      new_notes := Val notes2 |} (paper_reads P1)
                    = false).
    { destruct (sharedConfig s1) eqn:Hc; [|reflexivity]. cbn [andb].
      destruct (isDuplicate _ _) eqn:Hd; [|reflexivity].
      apply isDuplicate_iff in Hd. destruct Hd as [r' [Hin [Hru Hrn]]].
      simpl in Hin. destruct Hin as [<-|[]]. simpl in Hru, Hrn.
      destruct Hnodup as [Hoff|[Hne|Hne]];
        [simpl in Hc; congruence | congruence | congruence]. }
    rewrite Hgate, (ReadSchema_ok (next_oid s1) _ now2 _ Hu2 Hnotes2) in E.
    rewrite E in HP2. cbn [fst set_papers papers] in HP2.
    rewrite <- Hid2 in HP2.
    rewrite (findOne_updateOne (body_id body2) (push_read _) (papers s1) _
               (fun p => eq_refl) Hf2) in HP2.
    injection HP2 as <-.
    eexists. rewrite E. cbn [snd].
    split; [|split; [|split; reflexivity]]; reflexivity.
Qed.

Lemma mark_read_first_write_wins_witness :
  exists (r : Read) (s1 : State),
    mark_read Sample.empty_store "A" 5 (Sample.mark "P" Sample.metadata_2020 "A" "x")
    = (s1, Status200 {| paper_id := "P"; paper_metadata := Sample.stored_2020;
                        paper_reads := [r] |})
    /\ exists P2,
         Paper_findOne "P"
           (papers (fst (mark_read s1 "B" 6
                           (Sample.mark "P" Sample.metadata_2021 "B" "y"))))
         = Some P2
         /\ paper_metadata P2 = Sample.stored_2020.
Proof.
  destruct (mark_read_first_write_wins Sample.empty_store "A" 5 "P"
              "Neural Nets" ["Doe"] "On nets" 2020 "A" "x")
    as [r [s1 [_ [_ [_ [Hfirst [_ Hsecond]]]]]]];
    try reflexivity; try discriminate.
  exists r, s1. split; [exact Hfirst|].
  destruct (Hsecond "B" 6 (Sample.mark "P" Sample.metadata_2021 "B" "y") eq_refl)
    as [_ [P2 [HP2 [Hmeta _]]]].
  exists P2. split; [exact HP2 | exact Hmeta].
Defined.

(** ** C1: the config route and the flag that mark-read tests *)

(** POST /config writes the Config collection and nothing else. *)
Lemma post_config_writes_collection_only : forall s value,
  exists cs,
    post_config s (Val value) = (set_configs s cs, Status200 value)
    /\ get_config (set_configs s cs) = Status200 value
    /\ sharedConfig (set_configs s cs) = sharedConfig s.
Proof.
  intros s value. unfold post_config. simpl.
  destruct (configs s) as [|c rest]; eexists; repeat split.
Qed.

(** mark-read never reads the Config collection. *)
Lemma mark_read_ignores_config_collection : forall s cs u now body,
  mark_read (set_configs s cs) u now body
  = (set_configs (fst (mark_read s u now body)) cs,
     snd (mark_read s u now body)).
Proof.
  intros s cs u now body. unfold mark_read.
  destruct (mark_read_start u now body) as [b e|w|res]; cbn [mark_read_step].
  - unfold mark_read_found. cbn [set_configs papers sharedConfig next_oid].
    destruct (Paper_findOne (body_id b) (papers s)) as [paper|].
    + destruct (sharedConfig s && isDuplicate e (paper_reads paper));
        [destruct s; reflexivity|].
      cbn [mark_read_step mark_read_save].
      destruct (ReadSchema (next_oid s) e); destruct s; reflexivity.
    + cbn [mark_read_step mark_read_save].
      destruct (PaperSchema _ _ _ _) as [p|]; [|destruct s; reflexivity].
      cbn [bump_oid set_configs papers].
      destruct (insertOne p (papers s)); destruct s; reflexivity.
  - destruct w as [paper [r|]|[p|]]; cbn [mark_read_save set_configs papers];
      try (destruct s; reflexivity).
    destruct (insertOne p (papers s)); destruct s; reflexivity.
  - destruct s; reflexivity.
Qed.

(** After any successful POST /config, mark-read answers what it would
    have answered before it. *)
Lemma mark_read_after_post_config : forall s value u now body,
  snd (mark_read (fst (post_config s (Val value))) u now body)
  = snd (mark_read s u now body).
Proof.
  intros s value u now body.
  destruct (post_config_writes_collection_only s value) as [cs [E _]].
  rewrite E. cbn [fst]. now rewrite mark_read_ignores_config_collection.
Qed.

(** C1 (evaluated on the code).  In a process whose shared config
    module says [false], POST /config with [true] is answered 200 with
    [true], and GET /config then answers [true]; yet the next mark-read
    of a read that paper P already holds (user A, notes x) is answered
    200 and appended.  Symmetrically, where the module says [true],
    POST /config with [false] succeeds and the same mark-read is still
    answered 409. *)
Theorem post_config_unseen_by_mark_read :
  (let s1 := fst (post_config Sample.duplicates_allowed (Val true)) in
   snd (post_config Sample.duplicates_allowed (Val true)) = Status200 true
   /\ get_config s1 = Status200 true
   /\ Paper_findOne "P" (papers s1) = Some Sample.paper_P
   /\ same_user_and_notes "A" "x" (paper_reads Sample.paper_P)
   /\ exists r,
        snd (mark_read s1 "A" 7 (Sample.mark "P" Sample.metadata_2020 "A" "x"))
        = Status200 (push_read r Sample.paper_P))
  /\ (let s1 := fst (post_config Sample.duplicates_prevented (Val false)) in
      snd (post_config Sample.duplicates_prevented (Val false)) = Status200 false
      /\ get_config s1 = Status200 false
      /\ snd (mark_read s1 "A" 7 (Sample.mark "P" Sample.metadata_2020 "A" "x"))
         = Status409).
Proof.
  split; cbv zeta.
  - split; [reflexivity|]. split; [reflexivity|]. split; [reflexivity|].
    split; [exists Sample.r1; simpl; auto|].
    eexists. vm_compute. reflexivity.
  - split; [reflexivity|]. split; reflexivity.
Qed.

(** ** C3: two requests in flight *)

(** The sequential handler is the schedule that runs one request to
    its end. *)
Lemma mark_read_is_uninterrupted_run : forall s u now body s' res,
  mark_read s u now body = (s', res) ->
  mark_read_start u now body = Replied res /\ s' = s
  \/ exists s1 t1,
       mark_read_step s (mark_read_start u now body) = (s1, t1)
       /\ (t1 = Replied res /\ s' = s1
           \/ mark_read_step s1 t1 = (s', Replied res)).
Proof.
  intros s u now body s' res. unfold mark_read.
  destruct (mark_read_start u now body) as [b e|w|r] eqn:E.
  - destruct (mark_read_step s (AwaitFindOne b e)) as [s1 t1] eqn:E1.
    intros H. right. exists s1, t1. split; [reflexivity|].
    destruct t1 as [b' e'|w'|r'].
    + cbn [mark_read_step] in E1. unfold mark_read_found in E1.
      destruct (Paper_findOne _ _); [destruct (_ && _)|]; discriminate.
    + right. cbn [mark_read_step] in *.
      destruct (mark_read_save s1 w'). now injection H as <- <-.
    + left. now injection H as <- <-.
  - destruct (mark_read_step s (AwaitSave w)) as [s1 t1] eqn:E1.
    intros H. right. exists s1, t1. split; [reflexivity|].
    cbn [mark_read_step] in E1. destruct (mark_read_save s w).
    injection E1 as <- <-. left. now injection H as <- <-.
  - intros H. left. now injection H as <- <-.
Qed.

Lemma resume_first : forall s t1 t2 s' t1',
  mark_read_step s t1 = (s', t1') ->
  resume {| server := s; task1 := t1; task2 := t2 |} first_request
  = {| server := s'; task1 := t1'; task2 := t2 |}.
Proof. intros s t1 t2 s' t1' H. unfold resume. cbn. now rewrite H. Qed.

Lemma resume_second : forall s t1 t2 s' t2',
  mark_read_step s t2 = (s', t2') ->
  resume {| server := s; task1 := t1; task2 := t2 |} second_request
  = {| server := s'; task1 := t1; task2 := t2' |}.
Proof. intros s t1 t2 s' t2' H. unfold resume. cbn. now rewrite H. Qed.

(** A request that finds its paper without the candidate read goes on
    to save. *)
Lemma step_found_fresh : forall s body e paper,
  Paper_findOne (body_id body) (papers s) = Some paper ->
  isDuplicate e (paper_reads paper) = false ->
  mark_read_step s (AwaitFindOne body e)
  = (bump_oid s, AwaitSave (save_push paper (ReadSchema (next_oid s) e))).
Proof.
  intros s body e paper Hfind Hfresh. cbn [mark_read_step].
  unfold mark_read_found. now rewrite Hfind, Hfresh, andb_false_r.
Qed.

(** Whenever both requests have a valid body for a stored paper and
    neither read is on the paper yet, the schedule in which both
    [findOne] run before the saves ends with two answers 200, also
    when the two reads are the same and the flag is set. *)
Lemma racing_mark_reads_both_accepted :
  forall s paper id u now1 now2 metadata1 metadata2 sent1 sent2 notes,
    Paper_findOne id (papers s) = Some paper ->
    ~ same_user_and_notes u notes (paper_reads paper) ->
    metadataSchema metadata1 = None -> metadataSchema metadata2 = None ->
    u <> "" -> notes <> "" -> sent1 <> "" -> sent2 <> "" ->
    let body1 := {| body_id := id; body_metadata := metadata1;
                    body_read := Some {| raw_user := Val sent1;
                                         raw_notes := Val notes |} |} in
    let body2 := {| body_id := id; body_metadata := metadata2;
                    body_read := Some {| raw_user := Val sent2;
                                         raw_notes := Val notes |} |} in
    let w := run_schedule [first_request; second_request;
                           first_request; second_request]
                          (arrive s u now1 body1 u now2 body2) in
    exists r1 r2,
      task1 w = Replied (Status200 (push_read r1 paper))
      /\ task2 w = Replied (Status200 (push_read r2 paper))
      /\ read_user r1 = u /\ read_user r2 = u
      /\ read_notes r1 = notes /\ read_notes r2 = notes.
Proof.
  intros s paper id u now1 now2 metadata1 metadata2 sent1 sent2 notes
         Hfind Hfresh Hm1 Hm2 Hu Hn Hs1 Hs2 body1 body2 w.
  assert (Hnodup : forall now,
             isDuplicate {| new_user := u; new_timestamp := now;
                            new_notes := Val notes |} (paper_reads paper) = false).
  { intros now. destruct (isDuplicate _ _) eqn:E; [|reflexivity].
    apply isDuplicate_iff in E. contradiction. }
  exists {| read_id := next_oid s; read_user := u;
            read_timestamp := now1; read_notes := notes |},
         {| read_id := N.succ (next_oid s); read_user := u;
            read_timestamp := now2; read_notes := notes |}.
  subst w body1 body2. unfold arrive, mark_read_start.
  cbn [body_metadata body_read].
  rewrite Hm1, Hm2, (readSchema_ok _ _ Hs1 Hn), (readSchema_ok _ _ Hs2 Hn).
  unfold run_schedule. cbn [fold_left raw_notes].
  erewrite resume_first by (apply step_found_fresh; [exact Hfind | apply Hnodup]).
  erewrite resume_second by (apply step_found_fresh; [exact Hfind | apply Hnodup]).
  cbn [bump_oid next_oid].
  rewrite !(ReadSchema_ok _ _ _ _ Hu Hn).
  unfold resume. cbn [server task1 task2 mark_read_step mark_read_save].
  repeat split.
Qed.

(** C3 (evaluated on the code).  The shared config module says [true]
    and paper P has no read by C.  Two requests by C for P with the
    same notes arrive together.  When both finish [findOne] before
    either saves, both are answered 200 and P ends with both entries;
    when the first request runs to its end before the second resumes,
    the answers are 200 and 409. *)
Theorem concurrent_mark_read_both_accepted :
  (let w := run_schedule [first_request; second_request;
                          first_request; second_request]
                         Sample.two_requests in
   exists p1 p2,
     task1 w = Replied (Status200 p1) /\ task2 w = Replied (Status200 p2)
     /\ exists p, Paper_findOne "P" (papers (server w)) = Some p
                  /\ List.length (paper_reads p)
                     = S (S (List.length (paper_reads Sample.paper_P))))
  /\ (let w := run_schedule [first_request; first_request;
                             second_request; second_request]
                            Sample.two_requests in
      exists p1, task1 w = Replied (Status200 p1)
                 /\ task2 w = Replied Status409).
Proof.
  split; cbv zeta.
  - eexists. eexists. split; [vm_compute; reflexivity|].
    split; [vm_compute; reflexivity|].
    eexists. split; vm_compute; reflexivity.
  - eexists. split; vm_compute; reflexivity.
Qed.

(** ** C5: self-service removal *)

(** The filter of the route holds as soon as one entry has the id and
    one entry, the same or another, has the user. *)
Lemma delete_filter_any_combination : forall id readEntryId userId p,
  (paper_id p =? id)%string && reads_id_is readEntryId p && reads_user_is userId p = true
  <-> paper_id p = id
      /\ (exists r, In r (paper_reads p) /\ read_id r = readEntryId)
      /\ (exists r, In r (paper_reads p) /\ read_user r = userId).
Proof.
  intros id readEntryId userId p. unfold reads_id_is, reads_user_is.
  rewrite !andb_true_iff, !existsb_exists, String.eqb_eq.
  split.
  - intros [[Hid [r1 [H1 E1]]] [r2 [H2 E2]]].
    apply N.eqb_eq in E1. apply String.eqb_eq in E2. eauto 8.
  - intros [Hid [[r1 [H1 E1]] [r2 [H2 E2]]]].
    repeat split; auto.
    + exists r1. split; [auto | now apply N.eqb_eq].
    + exists r2. split; [auto | now apply String.eqb_eq].
Qed.

(** What [$pull] leaves: the entries that are not both of that id and
    of that user, in their order. *)
Lemma pull_reads_keeps : forall readEntryId userId p r,
  In r (paper_reads (pull_reads (fun r => (read_id r =? readEntryId)%N
                                          && (read_user r =? userId)%string) p))
  <-> In r (paper_reads p)
      /\ ~ (read_id r = readEntryId /\ read_user r = userId).
Proof.
  intros readEntryId userId p r. unfold pull_reads. cbn [paper_reads].
  rewrite filter_In, negb_true_iff, andb_false_iff, N.eqb_neq.
  split; intros [Hin H]; (split; [exact Hin|]).
  - intros [E1 E2]. destruct H as [H|H]; [auto|].
    apply String.eqb_neq in H. auto.
  - destruct (N.eq_dec (read_id r) readEntryId) as [E|E]; [|now left].
    right. apply String.eqb_neq. intros E2. apply H. now split.
Qed.

(** When no entry has both the id and the user, [$pull] removes
    nothing. *)
Lemma pull_reads_nothing : forall readEntryId userId p,
  (forall r, In r (paper_reads p) ->
             ~ (read_id r = readEntryId /\ read_user r = userId)) ->
  pull_reads (fun r => (read_id r =? readEntryId)%N
                       && (read_user r =? userId)%string) p = p.
Proof.
  intros readEntryId userId [id md reads] H. unfold pull_reads. simpl in *.
  f_equal. induction reads as [|r reads IH]; simpl; [reflexivity|].
  assert ((read_id r =? readEntryId)%N && (read_user r =? userId)%string = false)
    as ->.
  { apply andb_false_iff.
    destruct (N.eq_dec (read_id r) readEntryId) as [E|E];
      [right | left; now apply N.eqb_neq].
    apply String.eqb_neq. intros E2. apply (H r); [now left | now split]. }
  simpl. f_equal. apply IH. intros r' Hin. apply H. now right.
Qed.

Lemma updateOne_same : forall f g ps,
  (forall p, In p ps -> f p = true -> g p = p) -> updateOne f g ps = ps.
Proof.
  intros f g ps H. induction ps as [|p ps IH]; simpl; [reflexivity|].
  destruct (f p) eqn:E.
  - f_equal. apply H; [now left | exact E].
  - f_equal. apply IH. intros q Hq. apply H. now right.
Qed.

(** The answer is 200 whenever some paper passes the filter, also when
    no entry of it has both the id and the user; the store is then
    left as it is. *)
Lemma delete_mark_read_200_without_removal : forall s userId id readEntryId paper,
  id <> "" ->
  find (fun p => (paper_id p =? id)%string
                 && reads_id_is readEntryId p
                 && reads_user_is userId p) (papers s) = Some paper ->
  (forall p r, In p (papers s) -> In r (paper_reads p) ->
               ~ (read_id r = readEntryId /\ read_user r = userId)) ->
  delete_mark_read s userId {| del_id := Val id; del_readEntryId := Val (ObjectId_string readEntryId) |}
  = (s, Status200 paper).
Proof.
  intros s userId id readEntryId paper Hid Hfind Hnone.
  unfold delete_mark_read, deleteSchema.
  cbn [del_id del_readEntryId Joi.first_error].
  rewrite (string_required_ok _ Hid).
  unfold pull_own_read, findOneAndUpdate. rewrite Hfind.
  rewrite updateOne_same.
  - rewrite pull_reads_nothing.
    + destruct s; reflexivity.
    + intros r. apply Hnone. now apply find_some in Hfind.
  - intros p Hp _. apply pull_reads_nothing. intros r. now apply Hnone.
Qed.

(** The answers 400 and 404 leave the state as it is. *)
Lemma delete_mark_read_refused_unchanged : forall s userId body s' res,
  delete_mark_read s userId body = (s', res) ->
  (forall paper, res <> Status200 paper) -> s' = s.
Proof.
  intros s userId body s' res. unfold delete_mark_read.
  destruct (deleteSchema "id" body).
  { intros H _. now injection H as <- _. }
  destruct (del_id body) as [| |id]; try (intros H _; now injection H as <- _).
  destruct (del_readEntryId body) as [| |[e| |]]; try (intros H _; now injection H as <- _).
  unfold pull_own_read, findOneAndUpdate.
  destruct (find _ (papers s)) as [p|].
  - intros H Hres. injection H as _ <-. exfalso. eapply Hres. reflexivity.
  - intros H _. now injection H as <- _.
Qed.

(** C5 (evaluated on the code).  Paper P holds the entries r1 of user A
    and r2 of user B.  DELETE /mark-read for r1 by B is answered 200,
    as a removal, although r1 is not B's entry; both entries stay.
    By A the same request is answered 200 and only r2 is left; by a
    user with no entry on P, or on an unknown paper, the answer is
    404. *)
Theorem delete_mark_read_wrong_owner_answers_200 :
  delete_mark_read Sample.duplicates_allowed "B" Sample.delete_r1
  = (Sample.duplicates_allowed, Status200 Sample.paper_P)
  /\ paper_reads Sample.paper_P = [Sample.r1; Sample.r2]
  /\ (exists s' p,
        delete_mark_read Sample.duplicates_allowed "A" Sample.delete_r1
        = (s', Status200 p)
        /\ paper_reads p = [Sample.r2]
        /\ Paper_findOne "P" (papers s') = Some p)
  /\ delete_mark_read Sample.duplicates_allowed "C" Sample.delete_r1
     = (Sample.duplicates_allowed, Status404)
  /\ delete_mark_read Sample.empty_store "A" Sample.delete_r1
     = (Sample.empty_store, Status404).
Proof.
  split; [reflexivity|]. split; [reflexivity|]. split.
  - eexists. eexists. split; [vm_compute; reflexivity|]. split; reflexivity.
  - split; reflexivity.
Qed.

(** ** C9: the year of publication *)

(** The Joi schema accepts exactly the integer years from 1900 up to
    the largest safe integer, whatever the current year is. *)
Lemma metadataSchema_year_range : forall y,
  metadataSchema (Some (Sample.metadata_of_year (Val y))) = None
  <-> 1900 <= y <= Joi.MAX_SAFE_INTEGER.
Proof.
  intros y. unfold metadataSchema, Sample.metadata_of_year. simpl.
  unfold Joi.number_integer, Joi.min, Joi.MAX_SAFE_INTEGER.
  destruct (Z.abs y <=? 9007199254740991) eqn:E1;
    destruct (1900 <=? y) eqn:E2; simpl;
    try apply Z.leb_le in E1; try apply Z.leb_gt in E1;
    try apply Z.leb_le in E2; try apply Z.leb_gt in E2;
    split; intros H; try discriminate; try reflexivity; lia.
Qed.

(** C9 (evaluated on the code).  A mark-read whose metadata carry the
    year 3000 is answered 200 and the paper is stored with that year:
    neither the Joi schema nor PaperSchema has an upper bound.  A year
    below 1900 is answered 400, and so is a [null] year. *)
Theorem publishYear_future_accepted_null_rejected :
  (exists s' p,
     mark_read Sample.empty_store "A" 5
       {| body_id := "P";
          body_metadata := Some (Sample.metadata_of_year (Val 3000));
          body_read := Some {| raw_user := Val "A"; raw_notes := Val "x" |} |}
     = (s', Status200 p)
     /\ publishYear (paper_metadata p) = 3000
     /\ Paper_findOne "P" (papers s') = Some p)
  /\ (forall s u now id read,
        mark_read s u now
          {| body_id := id;
             body_metadata := Some (Sample.metadata_of_year (Val 1899));
             body_read := read |}
        = (s, Status400 {| err_key := "publishYear"; err_rule := number_min |}))
  /\ (forall s u now id read,
        mark_read s u now
          {| body_id := id;
             body_metadata := Some (Sample.metadata_of_year Null);
             body_read := read |}
        = (s, Status400 {| err_key := "publishYear"; err_rule := number_base |})).
Proof.
  split; [|split].
  - eexists. eexists. split; [vm_compute; reflexivity|]. split; reflexivity.
  - intros. now apply mark_read_invalid_metadata.
  - intros. now apply mark_read_invalid_metadata.
Qed.

(** ** C10: the notes of a read *)

(** C10 (evaluated on the code).  A mark-read with valid metadata is
    answered 400 when [notes] is the empty string and when [notes] is
    absent, in every state; ReadSchema refuses an entry with empty
    notes as well. *)
Theorem mark_read_requires_notes :
  forall (s : State) (u : string) (now : Z) (id : string),
    mark_read s u now (Sample.mark_with_notes id (Val ""))
    = (s, Status400 {| err_key := "notes"; err_rule := string_empty |})
    /\ mark_read s u now (Sample.mark_with_notes id Undefined)
       = (s, Status400 {| err_key := "notes"; err_rule := any_required |})
    /\ ReadSchema (next_oid s)
         {| new_user := "A"; new_timestamp := now; new_notes := Val "" |} = None.
Proof.
  intros s u now id. split; [|split].
  - now apply mark_read_invalid_read.
  - now apply mark_read_invalid_read.
  - reflexivity.
Qed.

(** ** Search: validation *)

Lemma string_trim_optional_ok : forall v t,
  SearchSchema.string_trim_optional v = (None, Some t) -> t <> "".
Proof.
  intros [s|] t; simpl; [|discriminate].
  destruct (trim s =? "")%string eqn:E; [discriminate|].
  intros H. injection H as <-. now apply String.eqb_neq.
Qed.

Lemma number_min_ok : forall m z,
  Joi.number_integer_min_required m (Val z) = None ->
  m <= z <= Joi.MAX_SAFE_INTEGER.
Proof.
  intros m z. simpl. unfold Joi.number_integer, Joi.min.
  destruct (Z.abs z <=? Joi.MAX_SAFE_INTEGER) eqn:E1; [|discriminate].
  destruct (m <=? z) eqn:E2; [|discriminate].
  apply Z.leb_le in E1, E2. lia.
Qed.

Lemma number_min_ok_iff : forall m z,
  m <= z <= Joi.MAX_SAFE_INTEGER -> 0 <= m ->
  Joi.number_integer_min_required m (Val z) = None.
Proof.
  intros m z H Hm. simpl. unfold Joi.number_integer, Joi.min.
  assert ((Z.abs z <=? Joi.MAX_SAFE_INTEGER) = true) as -> by (apply Z.leb_le; lia).
  assert ((m <=? z) = true) as -> by (apply Z.leb_le; lia).
  reflexivity.
Qed.

Lemma validate_valid : forall raw q,
  SearchSchema.validate raw = inr q -> valid_query q.
Proof.
  intros raw q. unfold SearchSchema.validate.
  destruct (SearchSchema.string_trim_optional (raw_keyword raw)) as [ek vk] eqn:Ek.
  destruct (SearchSchema.string_trim_optional (raw_q_user raw)) as [eu vu] eqn:Eu.
  destruct (SearchSchema.page_rule (raw_page raw)) as [ep vp] eqn:Ep.
  destruct (SearchSchema.limit_rule (raw_limit raw)) as [el vl] eqn:El.
  cbn [Joi.first_error].
  destruct ek; [discriminate|]. destruct eu; [discriminate|].
  destruct (SearchSchema.year_optional (raw_q_publishYear raw)) eqn:Ey; [discriminate|].
  destruct ep; [discriminate|]. destruct el; [discriminate|].
  intros H. injection H as <-. constructor; cbn.
  - intros k ->. exact (string_trim_optional_ok _ _ Ek).
  - intros u ->. exact (string_trim_optional_ok _ _ Eu).
  - intros y Hy. rewrite Hy in Ey. cbn [SearchSchema.year_optional] in Ey.
    now apply number_min_ok in Ey.
  - unfold SearchSchema.page_rule in Ep. destruct (raw_page raw) as [z|].
    + injection Ep as Ep <-. now apply number_min_ok in Ep.
    + injection Ep as <-. lia.
  - unfold SearchSchema.limit_rule in El. destruct (raw_limit raw) as [z|].
    + injection El as El <-.
      unfold Joi.number_integer, Joi.min, Joi.max in El.
      destruct (Z.abs z <=? Joi.MAX_SAFE_INTEGER); [|discriminate].
      destruct (1 <=? z) eqn:E1; [|discriminate].
      destruct (z <=? 50) eqn:E2; [|discriminate].
      apply Z.leb_le in E1, E2. lia.
    + injection El as <-. lia.
Qed.

(** Asking for another valid page of a valid query is valid, and only
    [page] and [limit] change. *)
Lemma validate_at_page : forall raw q p l,
  SearchSchema.validate raw = inr q ->
  1 <= p <= Joi.MAX_SAFE_INTEGER -> 1 <= l <= 50 ->
  SearchSchema.validate (at_page raw p l)
  = inr {| keyword := keyword q; user := user q;
           q_publishYear := q_publishYear q; page := p; limit := l |}.
Proof.
  intros raw q p l. unfold SearchSchema.validate, at_page.
  cbn [raw_keyword raw_q_user raw_q_publishYear raw_page raw_limit].
  destruct (SearchSchema.string_trim_optional (raw_keyword raw)) as [ek vk].
  destruct (SearchSchema.string_trim_optional (raw_q_user raw)) as [eu vu].
  destruct (SearchSchema.page_rule (raw_page raw)) as [ep vp].
  destruct (SearchSchema.limit_rule (raw_limit raw)) as [el vl].
  cbn [Joi.first_error].
  destruct ek; [discriminate|]. destruct eu; [discriminate|].
  destruct (SearchSchema.year_optional (raw_q_publishYear raw)); [discriminate|].
  destruct ep; [discriminate|]. destruct el; [discriminate|].
  intros H Hp Hl. injection H as <-.
  unfold SearchSchema.page_rule, SearchSchema.limit_rule.
  rewrite (number_min_ok_iff 1 p) by lia.
  rewrite (number_min_ok_iff 1 l) by (unfold Joi.MAX_SAFE_INTEGER; lia).
  unfold Joi.max. assert ((l <=? 50) = true) as -> by (apply Z.leb_le; lia).
  reflexivity.
Qed.

Lemma filter_all : forall (f : Paper -> bool) l,
  (forall p, f p = true) -> filter f l = l.
Proof.
  intros f l H. induction l as [|x l IH]; simpl; [reflexivity|].
  now rewrite H, IH.
Qed.

Lemma filter_length_Permutation : forall (f : Paper -> bool) l1 l2,
  Permutation l1 l2 ->
  List.length (filter f l1) = List.length (filter f l2).
Proof.
  intros f l1 l2 H. induction H; simpl.
  - reflexivity.
  - destruct (f x); simpl; congruence.
  - destruct (f x), (f y); reflexivity.
  - congruence.
Qed.

(** ** Search: what the handler computes *)

Section SearchProperties.

Variable RegExp_i : string -> option (string -> bool).

Lemma truthy_valid : forall q,
  valid_query q ->
  truthy_string (keyword q) = keyword q
  /\ truthy_string (user q) = user q
  /\ truthy_number (q_publishYear q) = q_publishYear q.
Proof.
  intros q [Hk Hu Hy _ _]. unfold truthy_string, truthy_number.
  repeat split.
  - destruct (keyword q) as [k|]; [|reflexivity].
    specialize (Hk k eq_refl). apply String.eqb_neq in Hk. now rewrite Hk.
  - destruct (user q) as [u|]; [|reflexivity].
    specialize (Hu u eq_refl). apply String.eqb_neq in Hu. now rewrite Hu.
  - destruct (q_publishYear q) as [y|]; [|reflexivity].
    specialize (Hy y eq_refl).
    assert ((y =? 0) = false) as -> by (apply Z.eqb_neq; lia). reflexivity.
Qed.

Lemma or_conditions_iff : forall re p,
  or_conditions re p = true
  <-> re (title (paper_metadata p)) = true
      \/ (exists a, In a (authors (paper_metadata p)) /\ re a = true)
      \/ re (abstract (paper_metadata p)) = true.
Proof.
  intros re p. unfold or_conditions.
  rewrite !orb_true_iff, existsb_exists. tauto.
Qed.

Lemma reads_user_is_iff : forall u p,
  reads_user_is u p = true
  <-> exists r, In r (paper_reads p) /\ read_user r = u.
Proof.
  intros u p. unfold reads_user_is. rewrite existsb_exists.
  split; intros [r [Hin H]]; exists r; split; auto; now apply String.eqb_eq.
Qed.

(** The [$match] document of a validated query accepts the papers
    that satisfy every criterion given, and no other. *)
Lemma matches_satisfies : forall q c p,
  valid_query q ->
  build_conditions RegExp_i q = Some c ->
  matches c p = true <-> satisfies RegExp_i q p.
Proof.
  intros q c p Hv. destruct (truthy_valid q Hv) as [Tk [Tu Ty]].
  unfold build_conditions. rewrite Tk, Tu, Ty.
  unfold satisfies, keyword_criterion, user_criterion, year_criterion, matches.
  destruct (keyword q) as [k|].
  - destruct (RegExp_i k) as [re|] eqn:Ere; [|discriminate].
    intros H. injection H as <-. cbn [cond_or cond_reads_user cond_publishYear].
    rewrite !andb_true_iff, or_conditions_iff.
    split.
    + intros [[Hor Hu] Hy]. split; [|split].
      * intros k' E. injection E as <-. exists re. now split.
      * intros u E. rewrite E in Hu. now apply reads_user_is_iff.
      * intros y E. rewrite E in Hy. now apply Z.eqb_eq.
    + intros [Hk [Hu Hy]]. repeat split.
      * destruct (Hk k eq_refl) as [re' [E H]].
        rewrite Ere in E. now injection E as <-.
      * destruct (user q) as [u|]; [|reflexivity].
        now apply reads_user_is_iff, Hu.
      * destruct (q_publishYear q) as [y|]; [|reflexivity].
        now apply Z.eqb_eq, Hy.
  - intros H. injection H as <-. cbn [cond_or cond_reads_user cond_publishYear].
    rewrite !andb_true_iff.
    split.
    + intros [[_ Hu] Hy]. split; [|split].
      * intros k' E. discriminate.
      * intros u E. rewrite E in Hu. now apply reads_user_is_iff.
      * intros y E. rewrite E in Hy. now apply Z.eqb_eq.
    + intros [_ [Hu Hy]]. repeat split.
      * destruct (user q) as [u|]; [|reflexivity].
        now apply reads_user_is_iff, Hu.
      * destruct (q_publishYear q) as [y|]; [|reflexivity].
        now apply Z.eqb_eq, Hy.
Qed.

Lemma count_stage_length : forall docs,
  match count_stage docs with
  | n :: _ => n
  | [] => 0
  end = Z.of_nat (List.length docs).
Proof. intros [|p docs]; reflexivity. Qed.

(** The reply of the handler to a valid query. *)
Lemma search_papers_eq : forall scan raw q,
  SearchSchema.validate raw = inr q ->
  search_papers RegExp_i scan raw =
  match build_conditions RegExp_i q with
  | None => Status500
  | Some c =>
      Status200 {| totalCount := Z.of_nat (List.length (filter (matches c) scan));
                   res_page := page q;
                   res_limit := limit q;
                   res_papers := page_slice q (filter (matches c) scan) |}
  end.
Proof.
  intros scan raw q Hv. unfold search_papers, build_pipeline. rewrite Hv.
  destruct (build_conditions RegExp_i q) as [c|]; [|reflexivity].
  unfold aggregate. cbn [stages facet_data facet_metadata data].
  assert (Hdocs : run_stages
                    ((if nonempty_conditions c then [stage_match c] else [])
                     ++ [stage_project]) scan
                  = filter (matches c) scan).
  { destruct (nonempty_conditions c) eqn:E; [reflexivity|].
    symmetry. apply filter_all. intros p.
    unfold nonempty_conditions in E. unfold matches.
    destruct (cond_or c); [discriminate|].
    destruct (cond_reads_user c); [discriminate|].
    destruct (cond_publishYear c); [discriminate|]. reflexivity. }
  rewrite Hdocs, count_stage_length. reflexivity.
Qed.

(** The conditions depend on the criteria, not on the page. *)
Lemma build_conditions_at_page : forall q p l,
  build_conditions RegExp_i
    {| keyword := keyword q; user := user q;
       q_publishYear := q_publishYear q; page := p; limit := l |}
  = build_conditions RegExp_i q.
Proof. reflexivity. Qed.

Lemma page_slice_length : forall q l,
  valid_query q ->
  Z.of_nat (List.length (page_slice q l)) <= limit q.
Proof.
  intros q l [_ _ _ _ Hl]. unfold page_slice.
  rewrite length_firstn. lia.
Qed.

Lemma page_slice_beyond : forall q l,
  Z.of_nat (List.length l) <= (page q - 1) * limit q ->
  page_slice q l = [].
Proof.
  intros q l H. unfold page_slice.
  rewrite skipn_all2 by lia. now rewrite firstn_nil.
Qed.


End SearchProperties.

(** ** Substrings and letter case *)

Lemma prefix_iff : forall q text,
  prefix q text = true <-> exists b, text = String.append q b.
Proof.
  induction q as [|c q IH]; intros text.
  - split; [intros _; now exists text | intros _; now destruct text].
  - destruct text as [|d text]; cbn.
    + split; [discriminate | intros [b H]; discriminate].
    + destruct (ascii_dec c d) as [->|Hne].
      * rewrite IH. split; intros [b H]; exists b; [now rewrite H | now injection H].
      * split; [discriminate|]. intros [b H]. injection H as H _. congruence.
Qed.

(** [text.includes(query)] holds exactly when [query] stands somewhere
    in [text]. *)
Lemma includes_iff : forall text q,
  includes text q = true
  <-> exists a b, text = String.append a (String.append q b).
Proof.
  induction text as [|c text IH]; intros q.
  - cbn [includes]. rewrite orb_false_r, prefix_iff. split.
    + intros [b H]. exists "", b. exact H.
    + intros [a [b H]]. destruct a as [|x a]; [now exists b | discriminate].
  - cbn [includes]. rewrite orb_true_iff, prefix_iff, IH. split.
    + intros [[b H]|[a [b H]]].
      * exists "", b. exact H.
      * exists (String c a), b. cbn. now rewrite H.
    + intros [a [b H]]. destruct a as [|x a].
      * left. now exists b.
      * right. cbn in H. injection H as _ H. now exists a, b.
Qed.

Lemma toLowerCase_append : forall s1 s2,
  toLowerCase (String.append s1 s2)
  = String.append (toLowerCase s1) (toLowerCase s2).
Proof.
  induction s1 as [|c s1 IH]; intros s2; cbn; [reflexivity | now rewrite IH].
Qed.

Lemma toLowerCase_empty : forall s, toLowerCase s = "" -> s = "".
Proof. intros [|c s]; [reflexivity | discriminate]. Qed.

Lemma toLowerCase_length : forall s,
  String.length (toLowerCase s) = String.length s.
Proof.
  induction s as [|c s IH]; cbn; [reflexivity | now rewrite IH].
Qed.

Lemma toLowerCase_char_idem : forall c,
  toLowerCase_char (toLowerCase_char c) = toLowerCase_char c.
Proof.
  intros c. destruct c as [[] [] [] [] [] [] [] []]; vm_compute; reflexivity.
Qed.

Lemma toLowerCase_idem : forall s,
  toLowerCase (toLowerCase s) = toLowerCase s.
Proof.
  induction s as [|c s IH]; cbn; [reflexivity|].
  now rewrite toLowerCase_char_idem, IH.
Qed.

Lemma toLowerCase_split : forall x y s,
  toLowerCase s = String.append x y ->
  exists s1 s2, s = String.append s1 s2
                /\ toLowerCase s1 = x /\ toLowerCase s2 = y.
Proof.
  induction x as [|c x IH]; intros y s H.
  - exists "", s. cbn. auto.
  - destruct s as [|d s]; [discriminate|].
    cbn in H. injection H as Hc H.
    destruct (IH y s H) as [s1 [s2 [-> [H1 H2]]]].
    exists (String d s1), s2. cbn. rewrite Hc, H1. auto.
Qed.

(** [fuzzyMatch] in terms of the text itself. *)
Lemma fuzzyMatch_occurs : forall text query,
  fuzzyMatch text query = true <-> occurs_ignoring_case text query.
Proof.
  intros text query. unfold fuzzyMatch, occurs_ignoring_case.
  destruct (String.eqb_spec query "") as [->|Hne].
  - split; [|reflexivity]. intros _. exists text, "", "".
    split; [|reflexivity]. cbn [String.append].
    clear. induction text as [|c text IH]; cbn; [reflexivity | now rewrite <- IH].
  - rewrite includes_iff. split.
    + intros [a' [b' H]].
      destruct (toLowerCase_split _ _ _ H) as [a [rest [-> [Ha Hrest]]]].
      destruct (toLowerCase_split _ _ _ Hrest) as [m [b [-> [Hm Hb]]]].
      exists a, m, b. split; [reflexivity | exact Hm].
    + intros [a [m [b [-> Hm]]]].
      exists (toLowerCase a), (toLowerCase b).
      now rewrite !toLowerCase_append, Hm.
Qed.


(** ** C6, C7, C8: filtering, counting, paging, order *)

Section SearchClaims.

Variable RegExp_i : string -> option (string -> bool).


(** C7.  For a validated query that is answered 200, [totalCount] is
    the number of all matching papers, the page holds the matches
    after the first [(page - 1) * limit] and at most [limit] of
    them; the same query for any other valid page and limit is also
    answered 200, with the same [totalCount], and with an empty list
    of papers when the page lies beyond the matches. *)
Theorem search_totalCount_before_pagination : forall scan raw q res,
  SearchSchema.validate raw = inr q ->
  search_papers RegExp_i scan raw = Status200 res ->
  exists accept : Paper -> bool,
    (forall p, accept p = true <-> satisfies RegExp_i q p)
    /\ totalCount res = Z.of_nat (List.length (filter accept scan))
    /\ res_papers res
       = firstn (Z.to_nat (limit q))
                (skipn (Z.to_nat ((page q - 1) * limit q)) (filter accept scan))
    /\ Z.of_nat (List.length (res_papers res)) <= limit q
    /\ forall p l,
         1 <= p <= Joi.MAX_SAFE_INTEGER -> 1 <= l <= 50 ->
         exists res',
           search_papers RegExp_i scan (at_page raw p l) = Status200 res'
           /\ totalCount res' = totalCount res
           /\ res_papers res'
              = firstn (Z.to_nat l)
                       (skipn (Z.to_nat ((p - 1) * l)) (filter accept scan))
           /\ (totalCount res <= (p - 1) * l -> res_papers res' = []).
Proof.
  intros scan raw q res Hv Hs.
  pose proof (validate_valid raw q Hv) as Hvalid.
  rewrite (search_papers_eq RegExp_i scan raw q Hv) in Hs.
  destruct (build_conditions RegExp_i q) as [c|] eqn:Hc; [|discriminate].
  injection Hs as <-. cbn [totalCount res_papers].
  exists (matches c).
  split; [exact (fun p => matches_satisfies RegExp_i q c p Hvalid Hc)|].
  split; [reflexivity|]. split; [reflexivity|].
  split; [now apply page_slice_length|].
  intros p l Hp Hl.
  rewrite (search_papers_eq RegExp_i scan _ _ (validate_at_page raw q p l Hv Hp Hl)).
  rewrite build_conditions_at_page, Hc.
  eexists. split; [reflexivity|]. cbn [totalCount res_papers].
  split; [reflexivity|]. split; [reflexivity|].
  intros Hbeyond. apply page_slice_beyond. exact Hbeyond.
Qed.

(** C8 (as amended).  The handler sorts nowhere: the page is the
    slice of the matching papers in the order in which the scan
    yields them.  When the same documents are scanned in another
    order the query is answered 200 again with the same
    [totalCount], and its page is the slice of that other order. *)
Theorem search_order_is_scan_order : forall scan1 scan2 raw q res1,
  Permutation scan1 scan2 ->
  SearchSchema.validate raw = inr q ->
  search_papers RegExp_i scan1 raw = Status200 res1 ->
  exists (accept : Paper -> bool) (res2 : SearchResult),
    search_papers RegExp_i scan2 raw = Status200 res2
    /\ (forall p, accept p = true <-> satisfies RegExp_i q p)
    /\ totalCount res2 = totalCount res1
    /\ res_papers res1 = page_slice q (filter accept scan1)
    /\ res_papers res2 = page_slice q (filter accept scan2).
Proof.
  intros scan1 scan2 raw q res1 Hperm Hv Hs.
  pose proof (validate_valid raw q Hv) as Hvalid.
  rewrite (search_papers_eq RegExp_i scan1 raw q Hv) in Hs.
  rewrite (search_papers_eq RegExp_i scan2 raw q Hv).
  destruct (build_conditions RegExp_i q) as [c|] eqn:Hc; [|discriminate].
  injection Hs as <-. cbn [totalCount res_papers].
  exists (matches c). eexists. split; [reflexivity|].
  cbn [totalCount res_papers].
  split; [exact (fun p => matches_satisfies RegExp_i q c p Hvalid Hc)|].
  split; [|split; reflexivity].
  f_equal. symmetry. now apply filter_length_Permutation.
Qed.

End SearchClaims.


Lemma search_totalCount_before_pagination_witness :
  exists res',
    search_papers literal_RegExp_i [Sample.paper_P; Sample.paper_Q; Sample.paper_R]
      (at_page Sample.no_filter 4 1) = Status200 res'
    /\ totalCount res' = 3
    /\ res_papers res' = [].
Proof.
  destruct (search_totalCount_before_pagination literal_RegExp_i
              [Sample.paper_P; Sample.paper_Q; Sample.paper_R]
              (Sample.page_of 1 1)
              {| keyword := None; user := None; q_publishYear := None;
                 page := 1; limit := 1 |}
              {| totalCount := 3; res_page := 1; res_limit := 1;
                 res_papers := [Sample.paper_P] |})
    as [accept [_ [_ [_ [_ Hpages]]]]].
  - vm_compute. reflexivity.
  - vm_compute. reflexivity.
  - destruct (Hpages 4 1) as [res' [Hs [Hc [_ Hempty]]]].
    + unfold Joi.MAX_SAFE_INTEGER. lia.
    + lia.
    + exists res'. split; [exact Hs|]. split; [exact Hc|].
      apply Hempty. simpl. lia.
Defined.

(** C8 (as stated) fails: the same two documents scanned in two orders
    give two different first pages, and the page that starts with Q is
    not in the order of the ids. *)
Lemma search_page_differs_between_scans :
  Permutation [Sample.paper_P; Sample.paper_Q] [Sample.paper_Q; Sample.paper_P]
  /\ search_papers literal_RegExp_i [Sample.paper_P; Sample.paper_Q]
       (Sample.page_of 1 1)
     = Status200 (Sample.first_of_one Sample.paper_P)
  /\ search_papers literal_RegExp_i [Sample.paper_Q; Sample.paper_P]
       (Sample.page_of 1 1)
     = Status200 (Sample.first_of_one Sample.paper_Q)
  /\ search_papers literal_RegExp_i [Sample.paper_P; Sample.paper_Q]
       (Sample.page_of 1 1)
     <> search_papers literal_RegExp_i [Sample.paper_Q; Sample.paper_P]
          (Sample.page_of 1 1).
Proof.
  split; [apply perm_swap|].
  split; [vm_compute; reflexivity|].
  split; [vm_compute; reflexivity|].
  vm_compute. discriminate.
Qed.

Lemma search_order_is_scan_order_witness :
  exists (accept : Paper -> bool) (res2 : SearchResult),
    search_papers literal_RegExp_i [Sample.paper_Q; Sample.paper_P]
      (Sample.page_of 1 1) = Status200 res2
    /\ totalCount res2 = 2
    /\ res_papers res2
       = page_slice {| keyword := None; user := None; q_publishYear := None;
                       page := 1; limit := 1 |}
                    (filter accept [Sample.paper_Q; Sample.paper_P]).
Proof.
  destruct (search_order_is_scan_order literal_RegExp_i
              [Sample.paper_P; Sample.paper_Q] [Sample.paper_Q; Sample.paper_P]
              (Sample.page_of 1 1)
              {| keyword := None; user := None; q_publishYear := None;
                 page := 1; limit := 1 |}
              (Sample.first_of_one Sample.paper_P))
    as [accept [res2 [Hs [_ [Hc [_ Hp]]]]]].
  - apply perm_swap.
  - vm_compute. reflexivity.
  - vm_compute. reflexivity.
  - exists accept, res2. split; [exact Hs|]. split; [exact Hc | exact Hp].
Defined.


(** * Properties of the rest of the code *)

(** ** Updates of the paper collection *)

Lemma updateOne_ids : forall f g ps,
  (forall p, paper_id (g p) = paper_id p) ->
  map paper_id (updateOne f g ps) = map paper_id ps.
Proof.
  intros f g ps Hg. induction ps as [|p ps IH]; simpl; [reflexivity|].
  destruct (f p); simpl; [now rewrite Hg | now rewrite IH].
Qed.

Lemma updateOne_Forall : forall (P : Paper -> Prop) f g ps,
  (forall p, P p -> P (g p)) ->
  Forall P ps -> Forall P (updateOne f g ps).
Proof.
  intros P f g ps Hg H. induction H as [|p ps Hp H IH]; simpl; [constructor|].
  destruct (f p); constructor; auto.
Qed.

Lemma findOne_None_not_In : forall id ps,
  Paper_findOne id ps = None -> ~ In id (map paper_id ps).
Proof.
  unfold Paper_findOne. intros id ps H Hin.
  apply in_map_iff in Hin. destruct Hin as [p [Hid Hp]].
  apply (find_none _ _ H) in Hp. apply String.eqb_neq in Hp. contradiction.
Qed.

(** What a mark-read that is answered 200 has stored. *)
Lemma mark_read_200 : forall s u now body s' p,
  mark_read s u now body = (s', Status200 p) ->
  exists older r,
    paper_reads p = older ++ [r]
    /\ read_id r = next_oid s /\ read_user r = u
    /\ read_timestamp r = now /\ valid_read r
    /\ paper_id p = body_id body
    /\ next_oid s' = N.succ (next_oid s)
    /\ Paper_findOne (body_id body) (papers s') = Some p
    /\ ((exists paper,
           Paper_findOne (body_id body) (papers s) = Some paper
           /\ older = paper_reads paper /\ p = push_read r paper
           /\ papers s'
              = updateOne (fun x => (paper_id x =? body_id body)%string)
                          (push_read r) (papers s))
        \/ (Paper_findOne (body_id body) (papers s) = None
            /\ older = [] /\ valid_paper p
            /\ papers s' = papers s ++ [p])).
Proof.
  intros s u now body s' p.
  destruct (metadataSchema (body_metadata body)) as [e|] eqn:Hm.
  { rewrite (mark_read_invalid_metadata s u now body _ Hm). discriminate. }
  destruct (readSchema (body_read body)) as [e|] eqn:Hrs.
  { rewrite (mark_read_invalid_read s u now body _ Hm Hrs). discriminate. }
  destruct (body_read body) as [read|] eqn:Hr.
  2:{ unfold mark_read, mark_read_start. rewrite Hm, Hr. simpl. discriminate. }
  assert (Hcast : forall oid r,
             ReadSchema oid {| new_user := u; new_timestamp := now;
                               new_notes := raw_notes read |} = Some r ->
             read_id r = oid /\ read_user r = u /\ read_timestamp r = now
             /\ valid_read r).
  { intros oid r. unfold ReadSchema. cbn [new_notes new_user new_timestamp].
    destruct (raw_notes read) as [| |n]; try discriminate.
    unfold required_String.
    destruct (u =? "")%string eqn:Eu; [discriminate|].
    destruct (n =? "")%string eqn:En; [discriminate|].
    cbn [negb andb]. intros H. injection H as <-. cbn.
    apply String.eqb_neq in Eu, En. repeat split; assumption. }
  destruct (Paper_findOne (body_id body) (papers s)) as [paper|] eqn:Hf.
  - rewrite (mark_read_existing s u now body _ _ Hm Hr Hrs Hf). cbv zeta.
    destruct (sharedConfig s && isDuplicate _ _); [discriminate|].
    destruct (ReadSchema _ _) as [r|] eqn:Hc; [|discriminate].
    intros H. injection H as <- <-.
    destruct (Hcast _ _ Hc) as [Hid [Hu [Ht Hv]]].
    exists (paper_reads paper), r. cbn [paper_reads push_read paper_id].
    split; [reflexivity|]. split; [exact Hid|]. split; [exact Hu|].
    split; [exact Ht|]. split; [exact Hv|].
    split; [now apply findOne_id in Hf|]. split; [reflexivity|]. split.
    + apply (findOne_updateOne (body_id body) (push_read r) (papers s) _
               (fun x => eq_refl) Hf).
    + left. exists paper. repeat split.
  - rewrite (mark_read_unseen s u now body _ Hm Hr Hrs Hf).
    destruct (PaperSchema _ _ _ _) as [q|] eqn:Hp; [|discriminate].
    intros H. injection H as <- <-.
    unfold PaperSchema in Hp.
    destruct (PaperSchema_metadata (body_metadata body)) as [m|] eqn:Hmeta;
      [|discriminate].
    destruct (ReadSchema _ _) as [r|] eqn:Hc; [|discriminate].
    destruct (required_String (body_id body)) eqn:Hid; [|discriminate].
    injection Hp as <-.
    destruct (Hcast _ _ Hc) as [Hrid [Hu [Ht Hv]]].
    assert (Hvalid : valid_paper {| paper_id := body_id body;
                                    paper_metadata := m; paper_reads := [r] |}).
    { unfold valid_paper. cbn [paper_id paper_metadata paper_reads].
      unfold PaperSchema_metadata in Hmeta.
      destruct (body_metadata body) as [[[| |t] [| |a] [| |ab] [| |y]]|];
        try discriminate.
      unfold required_String in Hmeta, Hid.
      destruct (t =? "")%string eqn:Et; [discriminate|].
      destruct (ab =? "")%string eqn:Eab; [discriminate|].
      destruct (1900 <=? y) eqn:Ey; [|discriminate].
      injection Hmeta as <-. cbn.
      apply String.eqb_neq in Et, Eab. apply Z.leb_le in Ey.
      apply negb_true_iff, String.eqb_neq in Hid.
      repeat split; try assumption. constructor; [exact Hv | constructor]. }
    exists [], r. cbn [paper_reads paper_id app set_papers bump_oid papers next_oid].
    split; [reflexivity|]. split; [exact Hrid|]. split; [exact Hu|].
    split; [exact Ht|]. split; [exact Hv|].
    split; [reflexivity|]. split; [reflexivity|]. split.
    + apply findOne_app_new; [exact Hf | reflexivity].
    + right. split; [reflexivity|]. split; [reflexivity|]. split; [exact Hvalid|].
      reflexivity.
Qed.

(** A mark-read that is not answered 200 leaves the papers alone. *)
Lemma mark_read_refused : forall s u now body s' res,
  mark_read s u now body = (s', res) ->
  (forall p, res <> Status200 p) ->
  papers s' = papers s /\ (next_oid s <= next_oid s')%N.
Proof.
  intros s u now body s' res.
  destruct (metadataSchema (body_metadata body)) as [e|] eqn:Hm.
  { rewrite (mark_read_invalid_metadata s u now body _ Hm).
    intros H _. injection H as <- _. split; [reflexivity | lia]. }
  destruct (readSchema (body_read body)) as [e|] eqn:Hrs.
  { rewrite (mark_read_invalid_read s u now body _ Hm Hrs).
    intros H _. injection H as <- _. split; [reflexivity | lia]. }
  destruct (body_read body) as [read|] eqn:Hr.
  2:{ unfold mark_read, mark_read_start. rewrite Hm, Hr. simpl.
      intros H _. injection H as <- _. split; [reflexivity | lia]. }
  destruct (Paper_findOne (body_id body) (papers s)) as [paper|] eqn:Hf.
  - rewrite (mark_read_existing s u now body _ _ Hm Hr Hrs Hf). cbv zeta.
    destruct (sharedConfig s && isDuplicate _ _).
    { intros H _. injection H as <- _. split; [reflexivity | lia]. }
    destruct (ReadSchema _ _) as [r|].
    + intros H Hres. injection H as _ <-. exfalso. eapply Hres. reflexivity.
    + intros H _. injection H as <- _. cbn. split; [reflexivity | lia].
  - rewrite (mark_read_unseen s u now body _ Hm Hr Hrs Hf).
    destruct (PaperSchema _ _ _ _) as [q|].
    + intros H Hres. injection H as _ <-. exfalso. eapply Hres. reflexivity.
    + intros H _. injection H as <- _. cbn. split; [reflexivity | lia].
Qed.

Lemma updateOne_Forall_change : forall (P Q : Paper -> Prop) f g ps,
  (forall p, P p -> Q p) ->
  (forall p, P p -> Q (g p)) ->
  Forall P ps -> Forall Q (updateOne f g ps).
Proof.
  intros P Q f g ps HPQ Hg H. induction H as [|p ps Hp H IH]; simpl; [constructor|].
  destruct (f p); constructor; auto.
  eapply Forall_impl; [exact HPQ | exact H].
Qed.

(** Every state-changing request leaves the papers as they are, pulls
    entries from one paper, pushes one valid entry with the next id to
    one paper, or appends one valid paper with a new id. *)
Lemma handle_cases : forall s r,
  (next_oid s <= next_oid (handle s r))%N
  /\ (papers (handle s r) = papers s
      \/ (exists f cond,
            papers (handle s r) = updateOne f (pull_reads cond) (papers s))
      \/ (exists id rd,
            valid_read rd /\ read_id rd = next_oid s
            /\ (next_oid s < next_oid (handle s r))%N
            /\ papers (handle s r)
               = updateOne (fun x => (paper_id x =? id)%string)
                           (push_read rd) (papers s))
      \/ (exists p rd,
            Paper_findOne (paper_id p) (papers s) = None
            /\ valid_paper p /\ paper_reads p = [rd]
            /\ read_id rd = next_oid s
            /\ (next_oid s < next_oid (handle s r))%N
            /\ papers (handle s r) = papers s ++ [p])).
Proof.
  intros s [|u now body|u body|body|value]; cbn [handle].
  - unfold ensure_default_config.
    destruct (List.length (configs s) =? 0)%nat; cbn; split; try lia; now left.
  - destruct (mark_read s u now body) as [s' res] eqn:E. cbn [fst].
    destruct res as [p| | | |];
      try (destruct (mark_read_refused _ _ _ _ _ _ E) as [Hp Hn];
           [intros q; discriminate | split; [exact Hn | now left]]).
    destruct (mark_read_200 _ _ _ _ _ _ E)
      as [older [r [Hreads [Hid [Hu [Ht [Hv [Hpid [Hn [_ Hcase]]]]]]]]]].
    split; [lia|]. right. right.
    destruct Hcase as [[paper [_ [_ [_ Hps]]]]|[Hnone [Hold [Hvp Hps]]]].
    + left. exists (body_id body), r.
      split; [exact Hv|]. split; [exact Hid|]. split; [lia | exact Hps].
    + right. exists p, r. subst older. rewrite Hpid.
      split; [exact Hnone|]. split; [exact Hvp|]. split; [exact Hreads|].
      split; [exact Hid|]. split; [lia | exact Hps].
  - unfold delete_mark_read.
    destruct (deleteSchema "id" body); [cbn; split; [lia | now left]|].
    destruct (del_id body) as [| |id]; try (cbn; split; [lia | now left]).
    destruct (del_readEntryId body) as [| |[e| |]]; try (cbn; split; [lia | now left]).
    unfold pull_own_read, findOneAndUpdate.
    destruct (find _ (papers s)); cbn; (split; [lia|]); [|now left].
    right. left. eexists. eexists. reflexivity.
  - unfold admin_delete_mark_read.
    destruct (deleteSchema "paperId" body); [cbn; split; [lia | now left]|].
    destruct (del_id body) as [| |id]; try (cbn; split; [lia | now left]).
    destruct (del_readEntryId body) as [| |[e| |]]; try (cbn; split; [lia | now left]).
    unfold findOneAndUpdate.
    destruct (find _ (papers s)); cbn; (split; [lia|]); [|now left].
    right. left. eexists. eexists. reflexivity.
  - unfold post_config.
    destruct (configUpdateSchema value); [cbn; split; [lia | now left]|].
    destruct value as [| |b]; try (cbn; split; [lia | now left]).
    destruct (configs s); cbn; split; try lia; now left.
Qed.

Lemma handle_ids_unique : forall s r,
  NoDup (map paper_id (papers s)) ->
  NoDup (map paper_id (papers (handle s r))).
Proof.
  intros s r H.
  destruct (handle_cases s r) as [_ [E|[[f [c E]]|[[id [rd [_ [_ [_ E]]]]]|
                                   [p [rd [Hnone [_ [_ [_ [_ E]]]]]]]]]]];
    rewrite E.
  - exact H.
  - now rewrite updateOne_ids.
  - now rewrite updateOne_ids.
  - rewrite map_app. apply NoDup_app; [exact H | | ].
    + constructor; [intros [] | constructor].
    + intros a Ha [<-|[]]. now apply findOne_None_not_In in Hnone.
Qed.

Lemma pull_reads_valid : forall cond p, valid_paper p -> valid_paper (pull_reads cond p).
Proof.
  intros cond p [H1 [H2 [H3 [H4 H5]]]]. unfold valid_paper, pull_reads. cbn.
  repeat (split; [assumption|]).
  apply Forall_forall. intros r Hr. apply filter_In in Hr.
  rewrite Forall_forall in H5. now apply H5.
Qed.

Lemma push_read_valid : forall r p,
  valid_read r -> valid_paper p -> valid_paper (push_read r p).
Proof.
  intros r p Hr [H1 [H2 [H3 [H4 H5]]]]. unfold valid_paper, push_read. cbn.
  repeat (split; [assumption|]).
  apply Forall_app. split; [exact H5 | constructor; [exact Hr | constructor]].
Qed.

Lemma handle_valid : forall s r,
  Forall valid_paper (papers s) -> Forall valid_paper (papers (handle s r)).
Proof.
  intros s r H.
  destruct (handle_cases s r) as [_ [E|[[f [c E]]|[[id [rd [Hv [_ [_ E]]]]]|
                                   [p [rd [_ [Hp [_ [_ [_ E]]]]]]]]]]];
    rewrite E.
  - exact H.
  - apply updateOne_Forall; [apply pull_reads_valid | exact H].
  - apply updateOne_Forall; [intros p; now apply push_read_valid | exact H].
  - apply Forall_app. split; [exact H | constructor; [exact Hp | constructor]].
Qed.

Lemma fresh_read_ids_later : forall n m p,
  (n <= m)%N -> fresh_read_ids n p -> fresh_read_ids m p.
Proof.
  intros n m p Hnm [H1 H2]. split; [exact H1|].
  eapply Forall_impl; [|exact H2]. intros r Hr. cbn in Hr. lia.
Qed.

Lemma NoDup_map_filter : forall (f : Read -> bool) l,
  NoDup (map read_id l) -> NoDup (map read_id (filter f l)).
Proof.
  intros f l. induction l as [|r l IH]; simpl; [auto|].
  intros H. inversion H as [|x xs Hnot Hnd]; subst.
  destruct (f r); simpl; [|now apply IH].
  constructor; [|now apply IH].
  intros Hin. apply Hnot. apply in_map_iff in Hin.
  destruct Hin as [y [Hy Hin]]. apply filter_In in Hin.
  apply in_map_iff. exists y. tauto.
Qed.

Lemma pull_reads_fresh : forall n cond p,
  fresh_read_ids n p -> fresh_read_ids n (pull_reads cond p).
Proof.
  intros n cond p [H1 H2]. unfold fresh_read_ids, pull_reads. cbn. split.
  - now apply NoDup_map_filter.
  - apply Forall_forall. intros r Hr. apply filter_In in Hr.
    rewrite Forall_forall in H2. now apply H2.
Qed.

Lemma push_read_fresh : forall n m r p,
  read_id r = n -> (n < m)%N ->
  fresh_read_ids n p -> fresh_read_ids m (push_read r p).
Proof.
  intros n m r p Hid Hnm [H1 H2]. unfold fresh_read_ids, push_read. cbn.
  rewrite Forall_forall in H2. split.
  - rewrite map_app. apply NoDup_app; [exact H1 | | ].
    + constructor; [intros [] | constructor].
    + intros a Ha [<-|[]]. apply in_map_iff in Ha.
      destruct Ha as [y [Hy Hin]]. specialize (H2 y Hin). cbn in H2. lia.
  - apply Forall_app. split.
    + apply Forall_forall. intros y Hy. specialize (H2 y Hy). cbn in *. lia.
    + constructor; [lia | constructor].
Qed.

Lemma handle_fresh : forall s r,
  Forall (fresh_read_ids (next_oid s)) (papers s) ->
  Forall (fresh_read_ids (next_oid (handle s r))) (papers (handle s r)).
Proof.
  intros s r H.
  destruct (handle_cases s r) as [Hn [E|[[f [c E]]|[[id [rd [_ [Hid [Hlt E]]]]]|
                                   [p [rd [_ [_ [Hreads [Hid [Hlt E]]]]]]]]]]];
    rewrite E.
  - eapply Forall_impl; [|exact H]. intros p. now apply fresh_read_ids_later.
  - eapply updateOne_Forall_change; [| |exact H].
    + intros p. now apply fresh_read_ids_later.
    + intros p Hp. apply pull_reads_fresh. now apply (fresh_read_ids_later _ _ _ Hn).
  - eapply updateOne_Forall_change; [| |exact H].
    + intros p. now apply fresh_read_ids_later.
    + intros p Hp. now apply (push_read_fresh (next_oid s)).
  - apply Forall_app. split.
    + eapply Forall_impl; [|exact H]. intros q. now apply fresh_read_ids_later.
    + constructor; [|constructor]. unfold fresh_read_ids. rewrite Hreads. cbn.
      split; [constructor; [intros [] | constructor]|].
      constructor; [lia | constructor].
Qed.

(** The three invariants hold after every run from an empty paper
    collection. *)
Lemma run_invariants : forall requests s,
  NoDup (map paper_id (papers s))
  /\ Forall valid_paper (papers s)
  /\ Forall (fresh_read_ids (next_oid s)) (papers s) ->
  NoDup (map paper_id (papers (run s requests)))
  /\ Forall valid_paper (papers (run s requests))
  /\ Forall (fresh_read_ids (next_oid (run s requests))) (papers (run s requests)).
Proof.
  unfold run. induction requests as [|r rs IH]; intros s H; [exact H|].
  cbn [fold_left]. apply IH. destruct H as [H1 [H2 H3]].
  split; [now apply handle_ids_unique|].
  split; [now apply handle_valid | now apply handle_fresh].
Qed.

(** ** The unique id and the schemas, over any run *)

(** However many mark-read, remove-read, admin remove-read, config and
    start-up requests are handled one after the other from an empty
    paper collection, no two stored papers have the same [id]. *)
Theorem reachable_ids_unique : forall cs flag oid requests,
  NoDup (map paper_id (papers (run (no_papers cs flag oid) requests))).
Proof.
  intros cs flag oid requests.
  apply (run_invariants requests (no_papers cs flag oid)).
  cbn. split; [constructor|]. split; constructor.
Qed.

Lemma reachable_papers_valid_aux : forall cs flag oid requests,
  Forall valid_paper (papers (run (no_papers cs flag oid) requests)).
Proof.
  intros cs flag oid requests.
  apply (run_invariants requests (no_papers cs flag oid)).
  cbn. split; [constructor|]. split; constructor.
Qed.

(** After any such run every stored paper has a non-empty id, title
    and abstract and a year of 1900 or later, and every read entry has
    a non-empty user and non-empty notes. *)
Theorem reachable_papers_valid : forall cs flag oid requests,
  Forall valid_paper (papers (run (no_papers cs flag oid) requests)).
Proof.
  intros cs flag oid requests.
  apply (run_invariants requests (no_papers cs flag oid)).
  cbn. split; [constructor|]. split; constructor.
Qed.

(** After any such run the read entries of a paper have pairwise
    different ids, all older than the id counter. *)
Lemma reachable_read_ids_fresh : forall cs flag oid requests,
  let s := run (no_papers cs flag oid) requests in
  Forall (fresh_read_ids (next_oid s)) (papers s).
Proof.
  intros cs flag oid requests.
  apply (run_invariants requests (no_papers cs flag oid)).
  cbn. split; [constructor|]. split; constructor.
Qed.

(** ** check-paper after mark-read *)

(** An accepted mark-read is seen by check-paper: the paper is found
    under its id with the metadata of the reply, the caller's status
    is [read], any other user's status is [read] exactly when that
    user has an entry, and with [details] the reads are those of the
    reply, the new entry last. *)
Theorem mark_read_then_check_paper : forall s u now body s' p v details,
  body_id body <> "" ->
  mark_read s u now body = (s', Status200 p) ->
  check_paper s' v {| chk_id := Some (body_id body); chk_details := details |}
  = Status200
      {| chk_paper_id := body_id body;
         chk_readStatus := if reads_user_is v p then status_read else status_unread;
         chk_metadata := paper_metadata p;
         chk_reads := match details with
                      | Some true => Some (paper_reads p)
                      | _ => None
                      end |}
  /\ reads_user_is u p = true
  /\ exists older r,
       paper_reads p = older ++ [r] /\ read_user r = u /\ read_timestamp r = now.
Proof.
  intros s u now body s' p v details Hid H.
  destruct (mark_read_200 _ _ _ _ _ _ H)
    as [older [r [Hreads [_ [Hu [Ht [_ [Hpid [_ [Hfind _]]]]]]]]]].
  split; [|split].
  - unfold check_paper, checkSchema. cbn [chk_id chk_details Joi.first_error].
    rewrite (string_required_ok _ Hid), Hfind, Hpid. reflexivity.
  - unfold reads_user_is. rewrite Hreads, existsb_app. cbn.
    rewrite Hu, String.eqb_refl. now rewrite orb_true_r.
  - exists older, r. auto.
Qed.

Lemma mark_read_then_check_paper_witness :
  let s' := fst (mark_read Sample.duplicates_allowed "C" 9
                   (Sample.mark "P" Sample.metadata_2020 "C" "z")) in
  let p := push_read {| read_id := 10%N; read_user := "C";
                        read_timestamp := 9; read_notes := "z" |}
                     Sample.paper_P in
  check_paper s' "C" {| chk_id := Some "P"; chk_details := Some true |}
  = Status200 {| chk_paper_id := "P"; chk_readStatus := status_read;
                 chk_metadata := paper_metadata p;
                 chk_reads := Some (paper_reads p) |}.
Proof.
  intros s' p.
  assert (Hid : body_id (Sample.mark "P" Sample.metadata_2020 "C" "z") <> "")
    by (cbn; discriminate).
  assert (Hmark : mark_read Sample.duplicates_allowed "C" 9
                    (Sample.mark "P" Sample.metadata_2020 "C" "z")
                  = (s', Status200 p))
    by (vm_compute; reflexivity).
  exact (proj1 (mark_read_then_check_paper _ _ _ _ _ _ "C" (Some true) Hid Hmark)).
Defined.

(** ** search by user after mark-read *)

Lemma nth_error_page : forall (l : list Paper) i p,
  nth_error l i = Some p -> firstn 1 (skipn i l) = [p].
Proof.
  induction l as [|x l IH]; intros [|i] p H; simpl in *; try discriminate.
  - now injection H as <-.
  - now apply IH.
Qed.

(** After an accepted mark-read by a user whose name has no blank at
    either end, the search for that user counts at least one paper,
    and one of its pages of size 1 shows the paper of the reply. *)
Theorem mark_read_then_search_by_user :
  forall RegExp_i s u now body s' p,
    trim u = u ->
    Z.of_nat (List.length (papers s)) < Joi.MAX_SAFE_INTEGER ->
    mark_read s u now body = (s', Status200 p) ->
    exists k res,
      1 <= k
      /\ search_papers RegExp_i (papers s') (at_page (user_query u) k 1)
         = Status200 res
      /\ res_papers res = [p]
      /\ 1 <= totalCount res.
Proof.
  intros R s u now body s' p Htrim Hsize H.
  destruct (mark_read_200 _ _ _ _ _ _ H)
    as [older [r [Hreads [_ [Hu [_ [[Hne _] [_ [_ [Hfind Hcase]]]]]]]]]].
  rewrite Hu in Hne.
  assert (Hv : SearchSchema.validate (user_query u)
               = inr {| keyword := None; user := Some u; q_publishYear := None;
                        page := 1; limit := 10 |}).
  { unfold SearchSchema.validate, user_query. cbn. rewrite Htrim.
    apply String.eqb_neq in Hne. now rewrite Hne. }
  set (c := {| cond_or := None; cond_reads_user := Some u;
               cond_publishYear := None |}).
  assert (Hc : forall pg l,
             build_conditions R {| keyword := None; user := Some u;
                                   q_publishYear := None; page := pg; limit := l |}
             = Some c).
  { intros pg l. unfold build_conditions. cbn.
    apply String.eqb_neq in Hne. now rewrite Hne. }
  assert (Hmatch : matches c p = true).
  { unfold matches, c. cbn. rewrite andb_true_r.
    unfold reads_user_is. rewrite Hreads, existsb_app. cbn.
    rewrite Hu, String.eqb_refl. now rewrite orb_true_r. }
  assert (Hin : In p (filter (matches c) (papers s'))).
  { apply filter_In. split; [now apply findOne_In in Hfind | exact Hmatch]. }
  destruct (In_nth_error _ _ Hin) as [i Hi].
  assert (Hlen : (i < List.length (filter (matches c) (papers s')))%nat).
  { apply nth_error_Some. now rewrite Hi. }
  pose proof (filter_length_le (matches c) (papers s')) as Hle.
  assert (Hgrow : (List.length (papers s') <= S (List.length (papers s)))%nat).
  { destruct Hcase as [[paper [_ [_ [_ E]]]]|[_ [_ [_ E]]]]; rewrite E.
    - rewrite updateOne_length. lia.
    - rewrite length_app. cbn. lia. }
  exists (Z.of_nat i + 1). eexists.
  split; [lia|].
  rewrite (search_papers_eq R (papers s') _ _
             (validate_at_page (user_query u) _ (Z.of_nat i + 1) 1 Hv
                ltac:(lia) ltac:(lia))).
  cbn [keyword user q_publishYear]. rewrite Hc.
  split; [reflexivity|]. cbn [res_papers totalCount]. split.
  - unfold page_slice. cbn [page limit].
    replace (Z.to_nat ((Z.of_nat i + 1 - 1) * 1)) with i by lia.
    change (Z.to_nat 1) with 1%nat. now apply nth_error_page.
  - lia.
Qed.

Lemma mark_read_then_search_by_user_witness :
  exists k res,
    1 <= k
    /\ search_papers literal_RegExp_i
         (papers (fst (mark_read Sample.duplicates_allowed "C" 9
                         (Sample.mark "P" Sample.metadata_2020 "C" "z"))))
         (at_page (user_query "C") k 1) = Status200 res
    /\ 1 <= totalCount res.
Proof.
  destruct (mark_read_then_search_by_user literal_RegExp_i
              Sample.duplicates_allowed "C" 9
              (Sample.mark "P" Sample.metadata_2020 "C" "z")
              (fst (mark_read Sample.duplicates_allowed "C" 9
                      (Sample.mark "P" Sample.metadata_2020 "C" "z")))
              (push_read {| read_id := 10%N; read_user := "C";
                            read_timestamp := 9; read_notes := "z" |}
                         Sample.paper_P))
    as [k [res [Hk [Hs [_ Hc]]]]].
  - reflexivity.
  - vm_compute. reflexivity.
  - vm_compute. reflexivity.
  - exists k, res. auto.
Defined.

(** ** Removing a read entry *)

Lemma NoDup_read_id_inj : forall (l : list Read) x y,
  NoDup (map read_id l) -> In x l -> In y l -> read_id x = read_id y -> x = y.
Proof.
  induction l as [|a l IH]; intros x y Hnd Hx Hy E; [contradiction|].
  cbn in Hnd. inversion Hnd as [|? ? Hnot Hnd']; subst.
  destruct Hx as [<-|Hx], Hy as [<-|Hy]; auto.
  - exfalso. apply Hnot. rewrite E. now apply in_map.
  - exfalso. apply Hnot. rewrite <- E. now apply in_map.
Qed.

Lemma filter_all_reads : forall (f : Read -> bool) l,
  (forall x, In x l -> f x = true) -> filter f l = l.
Proof.
  intros f l H. induction l as [|x l IH]; simpl; [reflexivity|].
  rewrite (H x (or_introl eq_refl)). f_equal. apply IH.
  intros y Hy. apply H. now right.
Qed.

Lemma filter_other_ids_length : forall (l : list Read) r,
  NoDup (map read_id l) -> In r l ->
  S (List.length (filter (fun x => negb (read_id x =? read_id r)%N) l))
  = List.length l.
Proof.
  induction l as [|a l IH]; intros r Hnd Hin; [contradiction|].
  cbn in Hnd. inversion Hnd as [|? ? Hnot Hnd']; subst. cbn [filter].
  destruct Hin as [<-|Hin].
  - rewrite N.eqb_refl. cbn [negb List.length]. f_equal.
    rewrite filter_all_reads; [reflexivity|].
    intros x Hx. apply negb_true_iff, N.eqb_neq. intros E.
    apply Hnot. rewrite <- E. now apply in_map.
  - assert ((read_id a =? read_id r)%N = false) as ->.
    { apply N.eqb_neq. intros E. apply Hnot. rewrite E. now apply in_map. }
    cbn [negb List.length]. f_equal. now apply IH.
Qed.

(** The first paper with the id is the one the filter of a DELETE
    route selects, when it satisfies the rest of the filter. *)
Lemma find_with_id : forall id (rest : Paper -> bool) ps paper,
  Paper_findOne id ps = Some paper -> rest paper = true ->
  forall f, (forall x, f x = (paper_id x =? id)%string && rest x) ->
  find f ps = Some paper.
Proof.
  unfold Paper_findOne. intros id rest ps paper Hfind Hrest f Hf.
  induction ps as [|x ps IH]; simpl in *; [discriminate|].
  rewrite Hf. destruct (paper_id x =? id)%string; cbn.
  - injection Hfind as ->. now rewrite Hrest.
  - now apply IH.
Qed.

Lemma findOne_updateOne_filter : forall id f g ps paper,
  (forall x, paper_id (g x) = paper_id x) ->
  (forall x, f x = true -> paper_id x = id) ->
  Paper_findOne id ps = Some paper -> f paper = true ->
  Paper_findOne id (updateOne f g ps) = Some (g paper)
  /\ forall id', id' <> id ->
       Paper_findOne id' (updateOne f g ps) = Paper_findOne id' ps.
Proof.
  unfold Paper_findOne. intros id f g ps paper Hg Hf.
  induction ps as [|x ps IH]; simpl; [discriminate|].
  destruct (paper_id x =? id)%string eqn:E.
  - intros H Hfp. injection H as ->. rewrite Hfp. simpl.
    rewrite Hg, E. split; [reflexivity|].
    intros id' Hne. apply String.eqb_eq in E.
    assert ((paper_id paper =? id')%string = false) as ->; [|reflexivity].
    apply String.eqb_neq. congruence.
  - intros H Hfp. destruct (f x) eqn:Efx.
    { apply Hf in Efx. apply String.eqb_neq in E. contradiction. }
    simpl. rewrite E. destruct (IH H Hfp) as [IH1 IH2]. split; [exact IH1|].
    intros id' Hne. now rewrite IH2.
Qed.

(** The [try] block of the user route on an entry the user owns. *)
Lemma pull_own_read_exact : forall s u id e paper r,
  Paper_findOne id (papers s) = Some paper ->
  In r (paper_reads paper) -> read_id r = e -> read_user r = u ->
  NoDup (map read_id (paper_reads paper)) ->
  let paper' :=
    {| paper_id := paper_id paper; paper_metadata := paper_metadata paper;
       paper_reads := filter (fun x => negb (read_id x =? e)%N) (paper_reads paper) |} in
  exists s',
    pull_own_read s u id e = (s', Status200 paper')
    /\ Paper_findOne id (papers s') = Some paper'
    /\ (forall id', id' <> id ->
          Paper_findOne id' (papers s') = Paper_findOne id' (papers s))
    /\ List.length (papers s') = List.length (papers s)
    /\ next_oid s' = next_oid s /\ configs s' = configs s
    /\ sharedConfig s' = sharedConfig s.
Proof.
  intros s u id e paper r Hfind Hin He Hu Hnd paper'.
  set (f := fun p => (paper_id p =? id)%string
                     && reads_id_is e p && reads_user_is u p).
  set (cond := fun x => (read_id x =? e)%N && (read_user x =? u)%string).
  assert (Hf : find f (papers s) = Some paper).
  { apply (find_with_id id (fun p => reads_id_is e p && reads_user_is u p)
             _ _ Hfind).
    - apply andb_true_iff. split.
      + unfold reads_id_is. apply existsb_exists. exists r.
        split; [exact Hin | now apply N.eqb_eq].
      + unfold reads_user_is. apply existsb_exists. exists r.
        split; [exact Hin | now apply String.eqb_eq].
    - intros x. unfold f. now rewrite andb_assoc. }
  assert (Hpull : pull_reads cond paper = paper').
  { unfold pull_reads, paper'. f_equal. apply filter_ext_in. intros x Hx.
    unfold cond. destruct (read_id x =? e)%N eqn:E; [|reflexivity].
    apply N.eqb_eq in E. rewrite <- He in E.
    rewrite (NoDup_read_id_inj _ _ _ Hnd Hx Hin E), Hu, String.eqb_refl.
    reflexivity. }
  destruct (findOne_updateOne_filter id f (pull_reads cond) (papers s) paper)
    as [H1 H2]; try assumption; try reflexivity.
  { intros x Hx. unfold f in Hx. apply andb_true_iff in Hx.
    destruct Hx as [Hx _]. apply andb_true_iff in Hx.
    destruct Hx as [Hx _]. now apply String.eqb_eq. }
  { now apply find_some in Hf. }
  eexists. unfold pull_own_read, findOneAndUpdate. fold f. fold cond.
  rewrite Hf, Hpull. split; [reflexivity|].
  cbn [papers set_papers next_oid configs sharedConfig].
  rewrite <- Hpull.
  split; [exact H1|]. split; [exact H2|].
  split; [apply updateOne_length|]. repeat split.
Qed.

(** DELETE /mark-read by the owner of the entry: on a paper whose
    entries have pairwise different ids the answer is 200, the stored
    and returned paper has lost exactly that entry (one entry less,
    the others in their order, the metadata as before), and no other
    paper changes. *)
Theorem delete_mark_read_by_owner : forall s u id e paper r,
  id <> "" ->
  Paper_findOne id (papers s) = Some paper ->
  In r (paper_reads paper) -> read_id r = e -> read_user r = u ->
  NoDup (map read_id (paper_reads paper)) ->
  exists s' paper',
    delete_mark_read s u {| del_id := Val id; del_readEntryId := Val (ObjectId_string e) |}
    = (s', Status200 paper')
    /\ paper_reads paper'
       = filter (fun x => negb (read_id x =? e)%N) (paper_reads paper)
    /\ S (List.length (paper_reads paper')) = List.length (paper_reads paper)
    /\ (forall x, In x (paper_reads paper')
                  <-> In x (paper_reads paper) /\ x <> r)
    /\ paper_metadata paper' = paper_metadata paper
    /\ Paper_findOne id (papers s') = Some paper'
    /\ (forall id', id' <> id ->
          Paper_findOne id' (papers s') = Paper_findOne id' (papers s)).
Proof.
  intros s u id e paper r Hid Hfind Hin He Hu Hnd.
  destruct (pull_own_read_exact s u id e paper r Hfind Hin He Hu Hnd)
    as [s' [Hres [Hstored [Hothers _]]]].
  eexists. eexists. split.
  - unfold delete_mark_read, deleteSchema.
    cbn [del_id del_readEntryId Joi.first_error].
    rewrite (string_required_ok _ Hid). exact Hres.
  - cbn [paper_reads paper_metadata].
    split; [reflexivity|]. split.
    { rewrite <- He. now apply filter_other_ids_length. }
    split.
    { intros x. rewrite filter_In, negb_true_iff, N.eqb_neq. split.
      - intros [Hx Hne]. split; [exact Hx|]. intros ->. contradiction.
      - intros [Hx Hne]. split; [exact Hx|]. intros E. apply Hne.
        rewrite <- He in E. exact (NoDup_read_id_inj _ _ _ Hnd Hx Hin E). }
    split; [reflexivity|]. split; [exact Hstored | exact Hothers].
Qed.

Lemma delete_mark_read_by_owner_witness :
  exists s' paper',
    delete_mark_read Sample.duplicates_allowed "A" Sample.delete_r1
    = (s', Status200 paper')
    /\ paper_reads paper' = [Sample.r2].
Proof.
  destruct (delete_mark_read_by_owner Sample.duplicates_allowed "A" "P" 1%N
              Sample.paper_P Sample.r1)
    as [s' [paper' [H [Hreads _]]]].
  - discriminate.
  - reflexivity.
  - cbn. now left.
  - reflexivity.
  - reflexivity.
  - cbn. repeat constructor; cbn; intuition discriminate.
  - exists s', paper'. split; [exact H | exact Hreads].
Defined.

Lemma updateOne_undo : forall id f g1 g2 ps paper,
  (forall x, f x = true -> paper_id x = id) ->
  Paper_findOne id ps = Some paper ->
  f (g1 paper) = true -> g2 (g1 paper) = paper ->
  updateOne f g2 (updateOne (fun x => (paper_id x =? id)%string) g1 ps) = ps.
Proof.
  unfold Paper_findOne. intros id f g1 g2 ps paper Hf.
  induction ps as [|x ps IH]; simpl; [discriminate|].
  destruct (paper_id x =? id)%string eqn:E; simpl.
  - intros H Hfg Hg. injection H as ->. now rewrite Hfg, Hg.
  - intros H Hfg Hg. destruct (f x) eqn:Efx.
    { apply Hf in Efx. apply String.eqb_neq in E. contradiction. }
    f_equal. now apply IH.
Qed.

Lemma updateOne_none : forall f g ps,
  find f ps = None -> updateOne f g ps = ps.
Proof.
  intros f g ps. induction ps as [|x ps IH]; simpl; [reflexivity|].
  destruct (f x); [discriminate|]. intros H. f_equal. now apply IH.
Qed.

(** The papers after the [try] block of the user route. *)
Lemma pull_own_read_papers : forall s u id e,
  papers (fst (pull_own_read s u id e))
  = updateOne (fun p => (paper_id p =? id)%string
                        && reads_id_is e p && reads_user_is u p)
              (pull_reads (fun x => (read_id x =? e)%N
                                    && (read_user x =? u)%string))
              (papers s).
Proof.
  intros s u id e. unfold pull_own_read, findOneAndUpdate.
  destruct (find _ (papers s)) eqn:E; cbn; [reflexivity|].
  symmetry. now apply updateOne_none.
Qed.

Lemma pull_reads_own_entry : forall u e paper r,
  In r (paper_reads paper) -> read_id r = e -> read_user r = u ->
  NoDup (map read_id (paper_reads paper)) ->
  pull_reads (fun x => (read_id x =? e)%N && (read_user x =? u)%string) paper
  = {| paper_id := paper_id paper; paper_metadata := paper_metadata paper;
       paper_reads := filter (fun x => negb (read_id x =? e)%N)
                             (paper_reads paper) |}.
Proof.
  intros u e paper r Hin He Hu Hnd.
  unfold pull_reads. f_equal. apply filter_ext_in. intros x Hx.
  destruct (read_id x =? e)%N eqn:E; [|reflexivity].
  apply N.eqb_eq in E. rewrite <- He in E.
  rewrite (NoDup_read_id_inj _ _ _ Hnd Hx Hin E), Hu, String.eqb_refl.
  reflexivity.
Qed.

(** Marking and undoing: after an accepted mark-read on a stored paper,
    DELETE /mark-read by the same user for the new entry is answered
    200 with the paper as it was before the mark-read, and the paper
    collection is again what it was. *)
Theorem mark_read_then_delete_restores : forall s u now body s1 p paper,
  body_id body <> "" ->
  Paper_findOne (body_id body) (papers s) = Some paper ->
  fresh_read_ids (next_oid s) paper ->
  mark_read s u now body = (s1, Status200 p) ->
  exists s2,
    delete_mark_read s1 u {| del_id := Val (body_id body);
                             del_readEntryId := Val (ObjectId_string (next_oid s)) |}
    = (s2, Status200 paper)
    /\ papers s2 = papers s.
Proof.
  intros s u now body s1 p paper Hid Hfind [Hnd Hold] H.
  destruct (mark_read_200 _ _ _ _ _ _ H)
    as [older [r [Hreads [Hrid [Hu [_ [_ [_ [_ [Hfind1 Hcase]]]]]]]]]].
  destruct Hcase as [[paper0 [Hf0 [Holder [Hp Hps]]]]|[Hnone _]];
    [|rewrite Hfind in Hnone; discriminate].
  rewrite Hfind in Hf0. injection Hf0 as <-. subst older.
  assert (Hnew : forall x, In x (paper_reads paper) -> read_id x <> next_oid s).
  { intros x Hx. rewrite Forall_forall in Hold. specialize (Hold x Hx).
    cbn in Hold. lia. }
  assert (Hnd1 : NoDup (map read_id (paper_reads p))).
  { rewrite Hreads, map_app. apply NoDup_app; [exact Hnd | | ].
    - constructor; [intros [] | constructor].
    - intros a Ha [<-|[]]. apply in_map_iff in Ha.
      destruct Ha as [x [Hx Hin]]. apply (Hnew x Hin). now rewrite Hx. }
  assert (Hin : In r (paper_reads p)).
  { rewrite Hreads. apply in_or_app. right. now left. }
  destruct (pull_own_read_exact s1 u (body_id body) (next_oid s) p r
              Hfind1 Hin Hrid Hu Hnd1) as [s2 [Hres _]].
  assert (Hback : {| paper_id := paper_id p; paper_metadata := paper_metadata p;
                     paper_reads := filter (fun x => negb (read_id x =? next_oid s)%N)
                                           (paper_reads p) |} = paper).
  { rewrite Hreads, filter_app. cbn [filter]. rewrite Hrid, N.eqb_refl. cbn [negb].
    rewrite app_nil_r, filter_all_reads.
    - rewrite Hp. destruct paper; reflexivity.
    - intros x Hx. apply negb_true_iff, N.eqb_neq. now apply Hnew. }
  rewrite Hback in Hres.
  exists s2. split.
  - unfold delete_mark_read, deleteSchema.
    cbn [del_id del_readEntryId Joi.first_error].
    rewrite (string_required_ok _ Hid). exact Hres.
  - pose proof (pull_own_read_papers s1 u (body_id body) (next_oid s)) as Hpapers.
    rewrite Hres in Hpapers. cbn [fst] in Hpapers. rewrite Hpapers, Hps.
    apply (updateOne_undo (body_id body) _ (push_read r) _ (papers s) paper).
    + intros x Hx. apply andb_true_iff in Hx. destruct Hx as [Hx _].
      apply andb_true_iff in Hx. destruct Hx as [Hx _]. now apply String.eqb_eq.
    + exact Hfind.
    + rewrite <- Hp. rewrite !andb_true_iff. repeat split.
      * apply String.eqb_eq. now apply findOne_id in Hfind1.
      * unfold reads_id_is. apply existsb_exists. exists r.
        split; [exact Hin | now apply N.eqb_eq].
      * unfold reads_user_is. apply existsb_exists. exists r.
        split; [exact Hin | now apply String.eqb_eq].
    + rewrite <- Hp.
      rewrite (pull_reads_own_entry u (next_oid s) p r Hin Hrid Hu Hnd1).
      exact Hback.
Qed.

Lemma mark_read_then_delete_restores_witness :
  exists s2,
    delete_mark_read
      (fst (mark_read Sample.duplicates_allowed "C" 9
              (Sample.mark "P" Sample.metadata_2020 "C" "z")))
      "C" {| del_id := Val "P"; del_readEntryId := Val (ObjectId_string 10%N) |}
    = (s2, Status200 Sample.paper_P)
    /\ papers s2 = papers Sample.duplicates_allowed.
Proof.
  apply (mark_read_then_delete_restores Sample.duplicates_allowed "C" 9
           (Sample.mark "P" Sample.metadata_2020 "C" "z")
           (fst (mark_read Sample.duplicates_allowed "C" 9
                   (Sample.mark "P" Sample.metadata_2020 "C" "z")))
           (push_read {| read_id := 10%N; read_user := "C";
                         read_timestamp := 9; read_notes := "z" |}
                      Sample.paper_P)
           Sample.paper_P).
  - cbn. discriminate.
  - reflexivity.
  - split; cbn.
    + repeat constructor; cbn; intuition discriminate.
    + repeat constructor.
  - vm_compute. reflexivity.
Defined.

(** ** Removal by the administrator *)

(** DELETE /api/admin/mark-read does not look at the owner: when the
    paper with that id holds an entry with that entry id the answer
    is 200 and the stored and returned paper has no entry with that
    id left and every other entry still; when the entry id writes an
    ObjectId that no entry of a stored paper with that id has, the
    answer is 404; an entry id that writes no ObjectId is answered
    500 and an empty one 400; in these three cases nothing changes. *)
Theorem admin_delete_mark_read_any_owner : forall s id e,
  id <> "" ->
  (forall paper r,
     Paper_findOne id (papers s) = Some paper ->
     In r (paper_reads paper) -> read_id r = e ->
     exists s' paper',
       admin_delete_mark_read s {| del_id := Val id; del_readEntryId := Val (ObjectId_string e) |}
       = (s', Status200 paper')
       /\ (forall x, In x (paper_reads paper')
                     <-> In x (paper_reads paper) /\ read_id x <> e)
       /\ paper_metadata paper' = paper_metadata paper
       /\ Paper_findOne id (papers s') = Some paper')
  /\ ((forall paper r, In paper (papers s) -> paper_id paper = id ->
                       In r (paper_reads paper) -> read_id r <> e) ->
      admin_delete_mark_read s {| del_id := Val id; del_readEntryId := Val (ObjectId_string e) |}
      = (s, Status404))
  /\ admin_delete_mark_read s {| del_id := Val id;
                                 del_readEntryId := Val uncastable_string |}
     = (s, Status500)
  /\ admin_delete_mark_read s {| del_id := Val id;
                                 del_readEntryId := Val empty_string |}
     = (s, Status400 {| err_key := "readEntryId"; err_rule := string_empty |}).
Proof.
  intros s id e Hid.
  assert (Hschema : deleteSchema "paperId"
                      {| del_id := Val id; del_readEntryId := Val (ObjectId_string e) |} = None).
  { unfold deleteSchema. cbn [del_id del_readEntryId Joi.first_error].
    now rewrite (string_required_ok _ Hid). }
  split; [|split; [|split]].
  - intros paper r Hfind Hin He.
    set (f := fun p => (paper_id p =? id)%string && reads_id_is e p).
    set (cond := fun x : Read => (read_id x =? e)%N).
    assert (Hfp : f paper = true).
    { unfold f. apply andb_true_iff. split.
      - apply String.eqb_eq. now apply findOne_id in Hfind.
      - unfold reads_id_is. apply existsb_exists. exists r.
        split; [exact Hin | now apply N.eqb_eq]. }
    assert (Hf : find f (papers s) = Some paper).
    { apply (find_with_id id (reads_id_is e) _ _ Hfind).
      - apply andb_true_iff in Hfp. tauto.
      - reflexivity. }
    destruct (findOne_updateOne_filter id f (pull_reads cond) (papers s) paper)
      as [H1 _]; try assumption; try reflexivity.
    { intros x Hx. apply andb_true_iff in Hx. destruct Hx as [Hx _].
      now apply String.eqb_eq. }
    eexists. eexists. unfold admin_delete_mark_read. rewrite Hschema.
    cbn [del_id del_readEntryId]. unfold findOneAndUpdate. fold f. fold cond.
    rewrite Hf. split; [reflexivity|]. cbn [papers set_papers].
    split; [|split; [reflexivity | exact H1]].
    intros x. unfold pull_reads, cond. cbn [paper_reads].
    now rewrite filter_In, negb_true_iff, N.eqb_neq.
  - intros Hnone. unfold admin_delete_mark_read. rewrite Hschema.
    cbn [del_id del_readEntryId]. unfold findOneAndUpdate.
    destruct (find _ (papers s)) as [q|] eqn:Hq; [|reflexivity].
    exfalso. apply find_some in Hq. destruct Hq as [Hq1 Hq2].
    apply andb_true_iff in Hq2. destruct Hq2 as [Hq2 Hq3].
    apply String.eqb_eq in Hq2. unfold reads_id_is in Hq3.
    apply existsb_exists in Hq3. destruct Hq3 as [r [Hr Hre]].
    apply N.eqb_eq in Hre. exact (Hnone q r Hq1 Hq2 Hr Hre).
  - unfold admin_delete_mark_read, deleteSchema.
    cbn [del_id del_readEntryId Joi.first_error].
    now rewrite (string_required_ok _ Hid).
  - unfold admin_delete_mark_read, deleteSchema.
    cbn [del_id del_readEntryId Joi.first_error].
    now rewrite (string_required_ok _ Hid).
Qed.

Lemma admin_delete_mark_read_any_owner_witness :
  (exists s' paper',
     admin_delete_mark_read Sample.duplicates_allowed
       {| del_id := Val "P"; del_readEntryId := Val (ObjectId_string 2%N) |}
     = (s', Status200 paper')
     /\ Paper_findOne "P" (papers s') = Some paper')
  /\ admin_delete_mark_read Sample.empty_store
       {| del_id := Val "P"; del_readEntryId := Val (ObjectId_string 2%N) |}
     = (Sample.empty_store, Status404).
Proof.
  split.
  - destruct (admin_delete_mark_read_any_owner Sample.duplicates_allowed "P" 2%N)
      as [H _]; [discriminate|].
    destruct (H Sample.paper_P Sample.r2) as [s' [paper' [E [_ [_ F]]]]].
    + reflexivity.
    + cbn. auto.
    + reflexivity.
    + exists s', paper'. split; [exact E | exact F].
  - destruct (admin_delete_mark_read_any_owner Sample.empty_store "P" 2%N)
      as [_ [H _]]; [discriminate|].
    apply H. intros paper r [].
Defined.

(** ** Pages of a search *)

Lemma firstn_plus : forall (l : list Paper) a b,
  firstn (a + b) l = firstn a l ++ firstn b (skipn a l).
Proof.
  intros l a. revert l. induction a as [|a IH]; intros l b; [reflexivity|].
  destruct l as [|x l]; cbn; [now rewrite firstn_nil|]. now rewrite IH.
Qed.

Lemma pages_concat : forall (M : list Paper) n k,
  List.concat (map (fun i => firstn n (skipn ((i - 1) * n)%nat M)) (seq 1 k))
  = firstn (k * n)%nat M.
Proof.
  intros M n k. induction k as [|k IH]; [reflexivity|].
  rewrite seq_S, map_app, concat_app, IH. cbn [map List.concat].
  rewrite app_nil_r. replace (1 + k - 1)%nat with k by lia.
  replace (S k * n)%nat with (k * n + n)%nat by lia.
  now rewrite firstn_plus.
Qed.

Lemma filter_length_implied : forall (f g : Paper -> bool) l,
  (forall p, f p = true -> g p = true) ->
  (List.length (filter f l) <= List.length (filter g l))%nat.
Proof.
  intros f g l H. induction l as [|x l IH]; simpl; [lia|].
  destruct (f x) eqn:E.
  - rewrite (H x E). simpl. lia.
  - destruct (g x); simpl; lia.
Qed.

Section MoreSearch.

Variable RegExp_i : string -> option (string -> bool).

(** The reply to any valid page of a query whose first page is
    answered 200. *)
Lemma search_papers_page : forall scan raw q c p l,
  SearchSchema.validate raw = inr q ->
  build_conditions RegExp_i q = Some c ->
  1 <= p <= Joi.MAX_SAFE_INTEGER -> 1 <= l <= 50 ->
  search_papers RegExp_i scan (at_page raw p l)
  = Status200
      {| totalCount := Z.of_nat (List.length (filter (matches c) scan));
         res_page := p; res_limit := l;
         res_papers := firstn (Z.to_nat l)
                              (skipn (Z.to_nat ((p - 1) * l))
                                     (filter (matches c) scan)) |}.
Proof.
  intros scan raw q c p l Hv Hc Hp Hl.
  rewrite (search_papers_eq RegExp_i scan _ _ (validate_at_page raw q p l Hv Hp Hl)).
  now rewrite build_conditions_at_page, Hc.
Qed.

Lemma search_200_conditions : forall scan raw q res,
  SearchSchema.validate raw = inr q ->
  search_papers RegExp_i scan raw = Status200 res ->
  exists c,
    build_conditions RegExp_i q = Some c
    /\ res = {| totalCount := Z.of_nat (List.length (filter (matches c) scan));
                res_page := page q; res_limit := limit q;
                res_papers := page_slice q (filter (matches c) scan) |}.
Proof.
  intros scan raw q res Hv Hs.
  rewrite (search_papers_eq RegExp_i scan raw q Hv) in Hs.
  destruct (build_conditions RegExp_i q) as [c|]; [|discriminate].
  injection Hs as <-. now exists c.
Qed.

(** The pages of one query, read one after the other with the same
    page size over the same scan, are the matching papers from the
    first on, none left out and none twice: pages 1 to [k] of size [l]
    make up the first [k * l] matches. *)
Theorem search_pages_concat : forall scan raw q res l k,
  SearchSchema.validate raw = inr q ->
  search_papers RegExp_i scan raw = Status200 res ->
  1 <= l <= 50 -> Z.of_nat k <= Joi.MAX_SAFE_INTEGER ->
  exists accept : Paper -> bool,
    (forall p, accept p = true <-> satisfies RegExp_i q p)
    /\ totalCount res = Z.of_nat (List.length (filter accept scan))
    /\ List.concat (map (fun i => papers_of
                                    (search_papers RegExp_i scan
                                       (at_page raw (Z.of_nat i) l)))
                        (seq 1 k))
       = firstn (k * Z.to_nat l)%nat (filter accept scan).
Proof.
  intros scan raw q res l k Hv Hs Hl Hk.
  destruct (search_200_conditions scan raw q res Hv Hs) as [c [Hc ->]].
  exists (matches c).
  split; [exact (fun p => matches_satisfies RegExp_i q c p
                            (validate_valid raw q Hv) Hc)|].
  split; [reflexivity|].
  rewrite <- pages_concat. f_equal. apply map_ext_in. intros i Hi.
  apply in_seq in Hi.
  rewrite (search_papers_page scan raw q c (Z.of_nat i) l Hv Hc) by lia.
  cbn [papers_of res_papers]. f_equal. f_equal. nia.
Qed.

(** The extension's dashboard shows Load More exactly when the next
    page of the same query has a paper on it. *)
Theorem loadMoreButton_iff_next_page : forall scan raw q res,
  SearchSchema.validate raw = inr q ->
  search_papers RegExp_i scan raw = Status200 res ->
  page q < Joi.MAX_SAFE_INTEGER ->
  exists res',
    search_papers RegExp_i scan (at_page raw (page q + 1) (limit q))
    = Status200 res'
    /\ totalCount res' = totalCount res
    /\ (loadMoreButton_shown res (page q) (limit q) = true
        <-> res_papers res' <> []).
Proof.
  intros scan raw q res Hv Hs Hp.
  destruct (validate_valid raw q Hv) as [_ _ _ Hpage Hlimit].
  destruct (search_200_conditions scan raw q res Hv Hs) as [c [Hc ->]].
  rewrite (search_papers_page scan raw q c (page q + 1) (limit q) Hv Hc)
    by lia.
  eexists. split; [reflexivity|]. cbn [totalCount res_papers].
  split; [reflexivity|].
  unfold loadMoreButton_shown. cbn [totalCount].
  set (M := filter (matches c) scan).
  replace (page q + 1 - 1) with (page q) by lia.
  rewrite Z.gtb_lt. split.
  - intros Hlt Hnil.
    assert (Hlen : List.length (firstn (Z.to_nat (limit q))
                                  (skipn (Z.to_nat (page q * limit q)) M)) = 0%nat)
      by now rewrite Hnil.
    rewrite length_firstn, length_skipn in Hlen. nia.
  - intros Hne.
    destruct (Z_lt_le_dec (page q * limit q) (Z.of_nat (List.length M)))
      as [Hlt|Hge]; [exact Hlt|].
    exfalso. apply Hne. rewrite skipn_all2 by lia. apply firstn_nil.
Qed.

(** A query that asks for more counts no more papers. *)
Theorem search_narrower_counts_less : forall scan raw1 raw2 q1 q2 res1 res2,
  SearchSchema.validate raw1 = inr q1 ->
  SearchSchema.validate raw2 = inr q2 ->
  narrows q2 q1 ->
  search_papers RegExp_i scan raw1 = Status200 res1 ->
  search_papers RegExp_i scan raw2 = Status200 res2 ->
  totalCount res2 <= totalCount res1.
Proof.
  intros scan raw1 raw2 q1 q2 res1 res2 Hv1 Hv2 [Nk [Nu Ny]] Hs1 Hs2.
  destruct (search_200_conditions scan raw1 q1 res1 Hv1 Hs1) as [c1 [Hc1 ->]].
  destruct (search_200_conditions scan raw2 q2 res2 Hv2 Hs2) as [c2 [Hc2 ->]].
  cbn [totalCount]. apply inj_le. apply filter_length_implied. intros p Hp.
  apply (matches_satisfies RegExp_i q1 c1 p (validate_valid raw1 q1 Hv1) Hc1).
  apply (matches_satisfies RegExp_i q2 c2 p (validate_valid raw2 q2 Hv2) Hc2) in Hp.
  destruct Hp as [Hk [Hu Hy]]. split; [|split].
  - intros k E. apply Hk. now apply Nk.
  - intros u E. apply Hu. now apply Nu.
  - intros y E. apply Hy. now apply Ny.
Qed.

(** A keyword that is empty or blank is refused with 400 on the key
    [keyword], whatever the other parameters and the store are. *)
Theorem search_blank_keyword_refused : forall scan raw k,
  raw_keyword raw = Some k -> trim k = "" ->
  search_papers RegExp_i scan raw
  = Status400 {| err_key := "keyword"; err_rule := string_empty |}.
Proof.
  intros scan raw k Hk Hblank. unfold search_papers, SearchSchema.validate.
  rewrite Hk. cbn [SearchSchema.string_trim_optional]. rewrite Hblank. cbn.
  destruct (SearchSchema.string_trim_optional (raw_q_user raw)).
  destruct (SearchSchema.page_rule (raw_page raw)).
  destruct (SearchSchema.limit_rule (raw_limit raw)). reflexivity.
Qed.

(** A limit above 50 or below 1, or a page below 1, is refused with
    400, whatever the other parameters and the store are. *)
Theorem search_page_limit_out_of_range_refused : forall scan raw,
  (exists l, raw_limit raw = Some l /\ (l < 1 \/ 50 < l))
  \/ (exists p, raw_page raw = Some p /\ p < 1) ->
  exists error, search_papers RegExp_i scan raw = Status400 error.
Proof.
  intros scan raw H. unfold search_papers.
  destruct (SearchSchema.validate raw) as [e|q] eqn:Hv; [now exists e|].
  exfalso. pose proof (validate_valid raw q Hv) as [_ _ _ Hpage Hlimit].
  unfold SearchSchema.validate in Hv.
  destruct (SearchSchema.string_trim_optional (raw_keyword raw)) as [ek vk].
  destruct (SearchSchema.string_trim_optional (raw_q_user raw)) as [eu vu].
  destruct (SearchSchema.page_rule (raw_page raw)) as [ep vp] eqn:Ep.
  destruct (SearchSchema.limit_rule (raw_limit raw)) as [el vl] eqn:El.
  destruct (Joi.first_error _); [discriminate|].
  injection Hv as <-. cbn [page limit] in *.
  destruct H as [[l [Hl Hout]]|[p [Hp Hout]]].
  - rewrite Hl in El. cbn in El. injection El as _ <-. lia.
  - rewrite Hp in Ep. cbn in Ep. injection Ep as _ <-. lia.
Qed.

(** The request of the CSV export, [limit=10000], is refused with 400
    on the key [limit] for every store: the export gets no papers. *)
Theorem export_request_refused : forall scan,
  search_papers RegExp_i scan export_query
  = Status400 {| err_key := "limit"; err_rule := number_max |}.
Proof. intros scan. reflexivity. Qed.

End MoreSearch.

Lemma search_pages_concat_witness :
  exists accept : Paper -> bool,
    List.concat
      (map (fun i => papers_of
                       (search_papers literal_RegExp_i
                          [Sample.paper_P; Sample.paper_Q; Sample.paper_R]
                          (at_page Sample.no_filter (Z.of_nat i) 1)))
           (seq 1 2))
    = firstn (2 * Z.to_nat 1)%nat
             (filter accept [Sample.paper_P; Sample.paper_Q; Sample.paper_R]).
Proof.
  destruct (search_pages_concat literal_RegExp_i
              [Sample.paper_P; Sample.paper_Q; Sample.paper_R]
              Sample.no_filter
              {| keyword := None; user := None; q_publishYear := None;
                 page := 1; limit := 10 |}
              {| totalCount := 3; res_page := 1; res_limit := 10;
                 res_papers := [Sample.paper_P; Sample.paper_Q; Sample.paper_R] |}
              1 2)
    as [accept [_ [_ H]]].
  - vm_compute. reflexivity.
  - vm_compute. reflexivity.
  - lia.
  - vm_compute. discriminate.
  - exists accept. exact H.
Defined.

Lemma loadMoreButton_iff_next_page_witness :
  exists res',
    search_papers literal_RegExp_i
      [Sample.paper_P; Sample.paper_Q] (at_page (Sample.page_of 1 1) (1 + 1) 1)
    = Status200 res'
    /\ (loadMoreButton_shown (Sample.first_of_one Sample.paper_P) 1 1 = true
        <-> res_papers res' <> []).
Proof.
  destruct (loadMoreButton_iff_next_page literal_RegExp_i
              [Sample.paper_P; Sample.paper_Q] (Sample.page_of 1 1)
              {| keyword := None; user := None; q_publishYear := None;
                 page := 1; limit := 1 |}
              (Sample.first_of_one Sample.paper_P))
    as [res' [H1 [_ H2]]].
  - vm_compute. reflexivity.
  - vm_compute. reflexivity.
  - vm_compute. reflexivity.
  - exists res'. split; [exact H1 | exact H2].
Defined.

Lemma search_narrower_counts_less_witness :
  totalCount {| totalCount := 1; res_page := 1; res_limit := 10;
                res_papers := [Sample.paper_P] |}
  <= totalCount {| totalCount := 2; res_page := 1; res_limit := 10;
                   res_papers := [Sample.paper_P; Sample.paper_Q] |}.
Proof.
  apply (search_narrower_counts_less literal_RegExp_i
           [Sample.paper_P; Sample.paper_Q]
           Sample.no_filter (user_query "A")
           {| keyword := None; user := None; q_publishYear := None;
              page := 1; limit := 10 |}
           {| keyword := None; user := Some "A"; q_publishYear := None;
              page := 1; limit := 10 |}).
  - vm_compute. reflexivity.
  - vm_compute. reflexivity.
  - repeat split; cbn; intros; discriminate.
  - vm_compute. reflexivity.
  - vm_compute. reflexivity.
Defined.

Lemma search_blank_keyword_refused_witness :
  search_papers literal_RegExp_i [Sample.paper_P]
    {| raw_keyword := Some "  "; raw_q_user := Some "A";
       raw_q_publishYear := None; raw_page := None; raw_limit := None |}
  = Status400 {| err_key := "keyword"; err_rule := string_empty |}.
Proof.
  apply (search_blank_keyword_refused literal_RegExp_i [Sample.paper_P] _ "  ").
  - reflexivity.
  - vm_compute. reflexivity.
Defined.

Lemma search_page_limit_out_of_range_refused_witness :
  exists error,
    search_papers literal_RegExp_i [Sample.paper_P] export_query
    = Status400 error.
Proof.
  apply (search_page_limit_out_of_range_refused literal_RegExp_i
           [Sample.paper_P] export_query).
  left. exists 10000. split; [reflexivity | lia].
Defined.

(** ** The config document *)

Lemma mark_read_configs : forall s u now body,
  configs (fst (mark_read s u now body)) = configs s.
Proof.
  intros s u now body.
  pose proof (mark_read_ignores_config_collection s (configs s) u now body) as H.
  replace (set_configs s (configs s)) with s in H by (destruct s; reflexivity).
  rewrite H. reflexivity.
Qed.

(** Only POST /config and the start-up write the config collection;
    a POST replaces the value of its one document or creates it. *)
Lemma handle_config : forall s r c,
  configs s = [c] ->
  configs (handle s r)
  = [{| preventDuplicateReads := last_posted [r] (preventDuplicateReads c) |}].
Proof.
  intros s r c Hc. destruct c as [v].
  destruct r as [|u now body|u body|body|value]; cbn [handle last_posted fold_left].
  - unfold ensure_default_config. now rewrite Hc.
  - now rewrite mark_read_configs.
  - unfold delete_mark_read.
    destruct (deleteSchema "id" body); [exact Hc|].
    destruct (del_id body); try exact Hc.
    destruct (del_readEntryId body) as [| |[e| |]]; try exact Hc.
    unfold pull_own_read, findOneAndUpdate.
    destruct (find _ (papers s)); exact Hc.
  - unfold admin_delete_mark_read.
    destruct (deleteSchema "paperId" body); [exact Hc|].
    destruct (del_id body); try exact Hc.
    destruct (del_readEntryId body) as [| |[e| |]]; try exact Hc.
    unfold findOneAndUpdate.
    destruct (find _ (papers s)); exact Hc.
  - unfold post_config, configUpdateSchema. cbn [Joi.first_error].
    destruct value as [| |b]; cbn; try exact Hc.
    now rewrite Hc.
Qed.

(** Once the start-up has run on an empty config collection, whatever
    requests follow, there is exactly one config document, and it
    holds, and GET /config answers, the value of the last valid
    POST /config, [false] when there was none. *)
Theorem config_is_singleton_with_last_value : forall s0 requests,
  let s := run (set_configs s0 []) (req_startup :: requests) in
  configs s = [{| preventDuplicateReads := last_posted requests false |}]
  /\ get_config s = Status200 (last_posted requests false).
Proof.
  intros s0 requests.
  assert (H : forall rs s v,
             configs s = [{| preventDuplicateReads := v |}] ->
             configs (run s rs)
             = [{| preventDuplicateReads := last_posted rs v |}]).
  { unfold run, last_posted. induction rs as [|r rs IH]; intros s v Hs; [exact Hs|].
    cbn [fold_left]. apply IH. now rewrite (handle_config s r _ Hs). }
  cbv zeta. unfold run. cbn [fold_left handle].
  specialize (H requests (ensure_default_config (set_configs s0 [])) false eq_refl).
  unfold run in H. split; [exact H|].
  unfold get_config. now rewrite H.
Qed.

(** ** hashID *)

Lemma ToInt32_range : forall z, - 2 ^ 31 <= ToInt32 z < 2 ^ 31.
Proof.
  intros z. unfold ToInt32.
  pose proof (Z.mod_pos_bound (z + 2 ^ 31) (2 ^ 32) ltac:(lia)). lia.
Qed.

Lemma ToInt32_plus_multiple : forall z k, ToInt32 (z + k * 2 ^ 32) = ToInt32 z.
Proof.
  intros z k. unfold ToInt32.
  replace (z + k * 2 ^ 32 + 2 ^ 31) with (z + 2 ^ 31 + k * 2 ^ 32) by lia.
  now rewrite Z.mod_add by lia.
Qed.

Lemma ToInt32_multiple : forall z, exists k, ToInt32 z = z + k * 2 ^ 32.
Proof.
  intros z. exists (- ((z + 2 ^ 31) / 2 ^ 32)). unfold ToInt32.
  pose proof (Z.div_mod (z + 2 ^ 31) (2 ^ 32) ltac:(lia)). lia.
Qed.

Lemma ToInt32_small : forall z, - 2 ^ 31 <= z < 2 ^ 31 -> ToInt32 z = z.
Proof.
  intros z H. unfold ToInt32. rewrite Z.mod_small by lia. lia.
Qed.

(** One turn of the loop multiplies by 31 and adds the code, modulo
    [2 ^ 32]. *)
Lemma hashID_step_31 : forall hash char,
  hashID_step hash char = ToInt32 (31 * hash + char).
Proof.
  intros hash char. unfold hashID_step.
  rewrite Z.shiftl_mul_pow2 by lia.
  destruct (ToInt32_multiple (hash * 2 ^ 5)) as [k ->].
  replace (hash * 2 ^ 5 + k * 2 ^ 32 - hash + char)
    with (31 * hash + char + k * 2 ^ 32) by lia.
  apply ToInt32_plus_multiple.
Qed.

Lemma hashID_fold_horner : forall codes x,
  fold_left hashID_step codes (ToInt32 x)
  = ToInt32 (fold_left (fun h c => 31 * h + c) codes x).
Proof.
  induction codes as [|c codes IH]; intros x; [reflexivity|].
  cbn [fold_left]. rewrite hashID_step_31.
  destruct (ToInt32_multiple x) as [k ->].
  replace (31 * (x + k * 2 ^ 32) + c) with (31 * x + c + (31 * k) * 2 ^ 32) by lia.
  rewrite ToInt32_plus_multiple. apply IH.
Qed.

Lemma hashID_is_horner_mod_2_32_aux : forall str,
  hashID_loop (charCodes str) = ToInt32 (horner31 (charCodes str))
  /\ - 2 ^ 31 <= hashID_loop (charCodes str) < 2 ^ 31.
Proof.
  intros str.
  assert (H : hashID_loop (charCodes str) = ToInt32 (horner31 (charCodes str))).
  { unfold hashID_loop, horner31.
    rewrite <- (ToInt32_small 0) at 1 by lia. apply hashID_fold_horner. }
  split; [exact H|]. rewrite H. apply ToInt32_range.
Qed.

(** The loop of [hashID] computes the polynomial in 31 of the character
    codes (the first code with the highest power), reduced to the
    signed 32-bit range; the function returns the hexadecimal digits
    of its absolute value. *)
Theorem hashID_is_horner_mod_2_32 : forall str,
  hashID_loop (charCodes str) = ToInt32 (horner31 (charCodes str))
  /\ - 2 ^ 31 <= hashID_loop (charCodes str) < 2 ^ 31
  /\ hashID str = toString16 (Z.abs (ToInt32 (horner31 (charCodes str)))).
Proof.
  intros str. destruct (hashID_is_horner_mod_2_32_aux str) as [H1 H2].
  split; [exact H1|]. split; [exact H2|]. unfold hashID. now rewrite H1.
Qed.

Lemma list_ascii_of_string_append : forall s1 s2,
  list_ascii_of_string (String.append s1 s2)
  = list_ascii_of_string s1 ++ list_ascii_of_string s2.
Proof.
  induction s1 as [|c s1 IH]; intros s2; cbn; [reflexivity | now rewrite IH].
Qed.

Lemma charCodes_append : forall s1 s2,
  charCodes (String.append s1 s2) = charCodes s1 ++ charCodes s2.
Proof.
  intros s1 s2. unfold charCodes.
  now rewrite list_ascii_of_string_append, map_app.
Qed.

(** Different strings get the same id: wherever "Aa" stands in a
    string, putting "BB" there leaves [hashID] as it is. *)
Theorem hashID_collides_on_Aa_BB : forall before after,
  hashID (String.append before (String.append "Aa" after))
  = hashID (String.append before (String.append "BB" after)).
Proof.
  intros before after.
  unfold hashID.
  destruct (hashID_is_horner_mod_2_32_aux
              (String.append before (String.append "Aa" after))) as [-> _].
  destruct (hashID_is_horner_mod_2_32_aux
              (String.append before (String.append "BB" after))) as [-> _].
  do 3 f_equal. unfold horner31.
  rewrite !charCodes_append, !fold_left_app.
  f_equal.
  generalize (fold_left (fun h c => 31 * h + c) (charCodes before) 0).
  intros x.
  change (charCodes "Aa") with [65; 97].
  change (charCodes "BB") with [66; 66].
  cbn [fold_left]. lia.
Qed.

Lemma hex_value_digit : forall d,
  0 <= d < 16 -> hex_value (hex_digit d) = Some d.
Proof.
  intros d H.
  assert (E : d = 0 \/ d = 1 \/ d = 2 \/ d = 3 \/ d = 4 \/ d = 5 \/ d = 6
              \/ d = 7 \/ d = 8 \/ d = 9 \/ d = 10 \/ d = 11 \/ d = 12
              \/ d = 13 \/ d = 14 \/ d = 15) by lia.
  repeat (destruct E as [->|E]; [reflexivity|]). now subst.
Qed.

Lemma parse16_from_append : forall s1 s2 acc,
  parse16_from acc (String.append s1 s2)
  = match parse16_from acc s1 with
    | Some v => parse16_from v s2
    | None => None
    end.
Proof.
  induction s1 as [|c s1 IH]; intros s2 acc; cbn; [reflexivity|].
  destruct (hex_value c); [apply IH | reflexivity].
Qed.

Lemma string_length_append : forall s1 s2,
  String.length (String.append s1 s2)
  = (String.length s1 + String.length s2)%nat.
Proof.
  induction s1 as [|c s1 IH]; intros s2; cbn; [reflexivity | now rewrite IH].
Qed.

(** With enough fuel the digits read back as the number. *)
Lemma toString16_digits_parse : forall fuel n,
  0 <= n < 2 ^ Z.of_nat fuel ->
  parse16_from 0 (toString16_digits fuel n) = Some n.
Proof.
  induction fuel as [|fuel IH]; intros n Hn.
  - cbn in *. f_equal. lia.
  - cbn [toString16_digits]. destruct (n <? 16) eqn:E.
    + apply Z.ltb_lt in E. cbn [parse16_from].
      rewrite hex_value_digit by lia. cbn [parse16_from]. f_equal; lia.
    + apply Z.ltb_ge in E. rewrite parse16_from_append.
      rewrite IH.
      * cbn [parse16_from]. pose proof (Z.mod_pos_bound n 16 ltac:(lia)).
        rewrite hex_value_digit by lia. cbn [parse16_from].
        pose proof (Z.div_mod n 16 ltac:(lia)). f_equal; lia.
      * rewrite Nat2Z.inj_succ, Z.pow_succ_r in Hn by lia.
        split; [apply Z.div_pos; lia|].
        apply Z.div_lt_upper_bound; lia.
Qed.

Lemma toString16_digits_length : forall fuel n k,
  0 <= n < 16 ^ Z.of_nat (S k) ->
  (String.length (toString16_digits fuel n) <= S k)%nat.
Proof.
  induction fuel as [|fuel IH]; intros n k Hn; [cbn; lia|].
  cbn [toString16_digits]. destruct (n <? 16) eqn:E; [cbn; lia|].
  apply Z.ltb_ge in E. rewrite string_length_append. cbn [String.length].
  destruct k as [|k]; [cbn in Hn; lia|].
  assert (String.length (toString16_digits fuel (n / 16)) <= S k)%nat; [|lia].
  apply IH. rewrite (Nat2Z.inj_succ (S k)), Z.pow_succ_r in Hn by lia.
  split; [apply Z.div_pos; lia|]. apply Z.div_lt_upper_bound; lia.
Qed.

(** What [hashID] returns: between one and eight lower-case
    hexadecimal digits, which read back as the absolute value of the
    32-bit hash, a number from 0 to [2 ^ 31]. *)
Theorem hashID_is_short_hex : forall str,
  let h := Z.abs (hashID_loop (charCodes str)) in
  0 <= h <= 2 ^ 31
  /\ parse16_from 0 (hashID str) = Some h
  /\ (1 <= String.length (hashID str) <= 8)%nat.
Proof.
  intros str h.
  destruct (hashID_is_horner_mod_2_32_aux str) as [_ Hrange].
  assert (Hh : 0 <= h <= 2 ^ 31) by (unfold h; lia).
  split; [exact Hh|]. fold h. unfold hashID. fold h. unfold toString16. split.
  - apply toString16_digits_parse. split; [lia|].
    destruct (Z.eq_dec h 0) as [->|Hne]; [cbn; lia|].
    pose proof (Z.log2_spec h ltac:(lia)) as Hlog.
    pose proof (Z.log2_nonneg h).
    rewrite Nat2Z.inj_succ, Z2Nat.id by lia. lia.
  - split.
    + cbn [toString16_digits]. destruct (h <? 16); [cbn; lia|].
      rewrite string_length_append. cbn. lia.
    + apply toString16_digits_length. change (16 ^ Z.of_nat 8) with (2 ^ 32). lia.
Qed.

(** ** fuzzyMatch *)

(** [fuzzyMatch] is true exactly when a stretch of the text has the
    characters of the query, each in either case; so it is true for
    every text and the empty query, for every text that holds the
    query in any case, and never for a text shorter than the query. *)
Theorem fuzzyMatch_iff_substring : forall text query,
  (fuzzyMatch text query = true
   <-> exists a m b,
         text = String.append a (String.append m b)
         /\ toLowerCase m = toLowerCase query)
  /\ fuzzyMatch text "" = true
  /\ (forall a b, fuzzyMatch (String.append a (String.append query b))
                             (toLowerCase query) = true)
  /\ ((String.length text < String.length query)%nat ->
      fuzzyMatch text query = false).
Proof.
  intros text query.
  split; [exact (fuzzyMatch_occurs text query)|].
  split; [reflexivity|]. split.
  - intros a b. apply fuzzyMatch_occurs. exists a, query, b.
    split; [reflexivity|]. symmetry. apply toLowerCase_idem.
  - intros Hlen. apply not_true_is_false. intros H.
    apply fuzzyMatch_occurs in H. destruct H as [a [m [b [-> Hm]]]].
    apply (f_equal String.length) in Hm.
    rewrite !toLowerCase_length in Hm.
    rewrite !string_length_append in Hlen. lia.
Qed.

(** ** validatePaper *)

Lemma existsb_read_incomplete_stored : forall reads,
  Forall valid_read reads ->
  existsb read_incomplete (map object_of_read reads) = false.
Proof.
  intros reads H. induction H as [|r reads [Hu Hn] H IH]; [reflexivity|].
  cbn. unfold read_incomplete. cbn.
  apply String.eqb_neq in Hu, Hn. now rewrite Hu, Hn.
Qed.

(** Every paper the backend has stored after any run of requests
    passes [validatePaper] when it has an author, and fails it on the
    authors when it has none (the mark-read schema takes an empty
    authors array, [validatePaper] does not). *)
Theorem stored_paper_validatePaper : forall cs flag oid requests p,
  In p (papers (run (no_papers cs flag oid) requests)) ->
  validatePaper (object_of_paper p)
  = match authors (paper_metadata p) with
    | [] => notValid "At least one author is required."
    | _ :: _ => isValid
    end.
Proof.
  intros cs flag oid requests p Hin.
  pose proof (reachable_papers_valid_aux cs flag oid requests) as Hall.
  rewrite Forall_forall in Hall.
  destruct (Hall p Hin) as [Hid [Ht [Hab [Hy Hreads]]]].
  unfold validatePaper, object_of_paper. cbn.
  apply String.eqb_neq in Hid, Ht, Hab. rewrite Hid, Ht, Hab.
  destruct (authors (paper_metadata p)); [reflexivity|]. cbn.
  assert ((publishYear (paper_metadata p) =? 0) = false) as ->
    by (apply Z.eqb_neq; lia).
  now rewrite existsb_read_incomplete_stored.
Qed.

Lemma stored_paper_validatePaper_witness :
  validatePaper
    (object_of_paper
       {| paper_id := "P"; paper_metadata := Sample.stored_2020;
          paper_reads := [{| read_id := 1%N; read_user := "A";
                             read_timestamp := 5; read_notes := "x" |}] |})
  = isValid.
Proof.
  apply (stored_paper_validatePaper [] false 1%N
           [req_mark_read "A" 5 (Sample.mark "P" Sample.metadata_2020 "A" "x")]).
  vm_compute. now left.
Defined.

(** [validatePaper] answers valid exactly for an object with a
    non-empty id, title and abstract, at least one author, a year that
    is a number other than 0 (any other year, before 1900 too), and
    reads that each have a non-empty user, a timestamp and non-empty
    notes. *)
Theorem validatePaper_isValid_iff : forall paper,
  validatePaper paper = isValid
  <-> exists id t a ab y reads,
        paper = {| po_id := Val id; po_title := Val t; po_authors := Val a;
                   po_abstract := Val ab; po_publishYear := Val y;
                   po_reads := Val reads |}
        /\ id <> "" /\ t <> "" /\ a <> [] /\ ab <> "" /\ y <> 0
        /\ Forall (fun r => exists u ts n,
                             r = {| ro_user := Val u; ro_timestamp := Val ts;
                                    ro_notes := Val n |}
                             /\ u <> "" /\ n <> "") reads.
Proof.
  intros paper. split.
  - unfold validatePaper.
    destruct paper as [[| |id] [| |t] [| |a] [| |ab] [| |y] [| |reads]]; cbn;
      try discriminate;
      repeat match goal with
             | |- context [(?s =? "")%string] =>
                 let E := fresh "E" in
                 destruct (s =? "")%string eqn:E; try discriminate
             | |- context [(List.length ?l =? 0)%nat] =>
                 destruct l; cbn; try discriminate
             | |- context [?z =? 0] =>
                 let E := fresh "E" in
                 destruct (z =? 0) eqn:E; try discriminate
             end.
    destruct (existsb read_incomplete reads) eqn:Ex; [discriminate|].
    intros _. eexists _, _, _, _, _, _. split; [reflexivity|].
    repeat match goal with
           | H : (_ =? "")%string = false |- _ => apply String.eqb_neq in H
           | H : (_ =? 0) = false |- _ => apply Z.eqb_neq in H
           end.
    repeat (split; [assumption || discriminate|]).
    apply Forall_forall. intros r Hr.
    assert (Hc : read_incomplete r = false).
    { destruct (read_incomplete r) eqn:Eri; [|reflexivity].
      assert (existsb read_incomplete reads = true)
        by (apply existsb_exists; eauto). congruence. }
    unfold read_incomplete in Hc.
    destruct r as [[| |u] [| |ts] [| |n]]; cbn in Hc; try discriminate;
      try (rewrite orb_true_r in Hc; discriminate).
    apply orb_false_iff in Hc. destruct Hc as [Hc Hn].
    apply orb_false_iff in Hc. destruct Hc as [Hu _].
    apply String.eqb_neq in Hu, Hn. eexists _, _, _. eauto.
  - intros [id [t [a [ab [y [reads [-> [Hid [Ht [Ha [Hab [Hy Hreads]]]]]]]]]]]].
    unfold validatePaper. cbn.
    apply String.eqb_neq in Hid, Ht, Hab. apply Z.eqb_neq in Hy.
    rewrite Hid, Ht, Hab, Hy. destruct a; [contradiction|]. cbn.
    assert (existsb read_incomplete reads = false) as ->; [|reflexivity].
    induction Hreads as [|r reads [u [ts [n [-> [Hu Hn]]]]] H IH]; [reflexivity|].
    cbn. unfold read_incomplete at 1. cbn.
    apply String.eqb_neq in Hu, Hn. now rewrite Hu, Hn.
Qed.

(** ** Relative time *)

Lemma Math_round_div_bounds : forall a b r,
  0 < b ->
  (Math_round_div a b < r <-> 2 * a + b < 2 * b * r)
  /\ (r <= Math_round_div a b <-> 2 * b * r <= 2 * a + b).
Proof.
  intros a b r Hb. unfold Math_round_div.
  pose proof (Z.div_mod (2 * a + b) (2 * b) ltac:(lia)) as E.
  pose proof (Z.mod_pos_bound (2 * a + b) (2 * b) ltac:(lia)) as B.
  split; split; intros H; nia.
Qed.

(** Which unit [getRelativeTime] shows, by the age [now - past] in
    milliseconds: seconds below 59.5 s (a negative number for a
    timestamp more than half a second ahead), minutes from 1 to 59
    below 59 min 29.5 s, hours from 1 to 23 below 23 h 29 min 29.5 s,
    and days, at least 1, from there on. *)
Theorem getRelativeTime_units : forall now past,
  (now - past < 59500 ->
   getRelativeTime now past
   = String.append (show (Math_round_div (now - past) 1000)) " seconds ago"
   /\ Math_round_div (now - past) 1000 < 60
   /\ (now - past < - 500 -> Math_round_div (now - past) 1000 < 0))
  /\ (59500 <= now - past < 3569500 ->
      exists n, 1 <= n <= 59
                /\ getRelativeTime now past = String.append (show n) " minutes ago")
  /\ (3569500 <= now - past < 84569500 ->
      exists n, 1 <= n <= 23
                /\ getRelativeTime now past = String.append (show n) " hours ago")
  /\ (84569500 <= now - past ->
      exists n, 1 <= n
                /\ getRelativeTime now past = String.append (show n) " days ago").
Proof.
  intros now past. unfold getRelativeTime. cbv zeta.
  set (d := now - past).
  set (s := Math_round_div d 1000).
  set (m := Math_round_div s 60).
  set (h := Math_round_div m 60).
  set (dd := Math_round_div h 24).
  assert (Hs : forall r, (s < r <-> 2 * d + 1000 < 2000 * r)
                         /\ (r <= s <-> 2000 * r <= 2 * d + 1000)).
  { intros r. destruct (Math_round_div_bounds d 1000 r ltac:(lia)). split; lia. }
  assert (Hm : forall r, (m < r <-> 2 * s + 60 < 120 * r)
                         /\ (r <= m <-> 120 * r <= 2 * s + 60)).
  { intros r. destruct (Math_round_div_bounds s 60 r ltac:(lia)). split; lia. }
  assert (Hh : forall r, (h < r <-> 2 * m + 60 < 120 * r)
                         /\ (r <= h <-> 120 * r <= 2 * m + 60)).
  { intros r. destruct (Math_round_div_bounds m 60 r ltac:(lia)). split; lia. }
  assert (Hd : forall r, (dd < r <-> 2 * h + 24 < 48 * r)
                         /\ (r <= dd <-> 48 * r <= 2 * h + 24)).
  { intros r. destruct (Math_round_div_bounds h 24 r ltac:(lia)). split; lia. }
  split; [|split; [|split]].
  - intros H. assert (Hlt : s < 60) by (apply (Hs 60); lia).
    apply Z.ltb_lt in Hlt as Hb. rewrite Hb.
    split; [reflexivity|]. split; [exact Hlt|].
    intros Hneg. apply (Hs 0). lia.
  - intros H.
    assert (H1 : 60 <= s) by (apply (Hs 60); lia).
    assert (H2 : s < 3570) by (apply (Hs 3570); lia).
    assert (H3 : m < 60) by (apply (Hm 60); lia).
    assert (H4 : 1 <= m) by (apply (Hm 1); lia).
    apply Z.ltb_ge in H1. apply Z.ltb_lt in H3 as Hb. rewrite H1, Hb.
    exists m. split; [lia | reflexivity].
  - intros H.
    assert (H1 : 3570 <= s) by (apply (Hs 3570); lia).
    assert (H2 : s < 84570) by (apply (Hs 84570); lia).
    assert (H3 : 60 <= m) by (apply (Hm 60); lia).
    assert (H4 : m < 1410) by (apply (Hm 1410); lia).
    assert (H5 : h < 24) by (apply (Hh 24); lia).
    assert (H6 : 1 <= h) by (apply (Hh 1); lia).
    assert (H7 : 60 <= s) by lia.
    apply Z.ltb_ge in H7, H3. apply Z.ltb_lt in H5 as Hb. rewrite H7, H3, Hb.
    exists h. split; [lia | reflexivity].
  - intros H.
    assert (H1 : 84570 <= s) by (apply (Hs 84570); lia).
    assert (H3 : 1410 <= m) by (apply (Hm 1410); lia).
    assert (H5 : 24 <= h) by (apply (Hh 24); lia).
    assert (H6 : 1 <= dd) by (apply (Hd 1); lia).
    assert (H7 : 60 <= s) by lia. assert (H8 : 60 <= m) by lia.
    apply Z.ltb_ge in H7, H8, H5. rewrite H7, H8, H5.
    exists dd. split; [lia | reflexivity].
Qed.

Lemma getRelativeTime_units_witness :
  getRelativeTime 100000 41000 = "59 seconds ago"
  /\ (exists n, 1 <= n <= 59
                /\ getRelativeTime 3569499 0 = String.append (show n) " minutes ago")
  /\ (exists n, 1 <= n <= 23
                /\ getRelativeTime 3569500 0 = String.append (show n) " hours ago")
  /\ (exists n, 1 <= n
                /\ getRelativeTime 84569500 0 = String.append (show n) " days ago").
Proof.
  split; [|split; [|split]].
  - destruct (getRelativeTime_units 100000 41000) as [H _].
    destruct H as [H _]; [lia|]. rewrite H. reflexivity.
  - destruct (getRelativeTime_units 3569499 0) as [_ [H _]]. apply H. lia.
  - destruct (getRelativeTime_units 3569500 0) as [_ [_ [H _]]]. apply H. lia.
  - destruct (getRelativeTime_units 84569500 0) as [_ [_ [_ H]]]. apply H. lia.
Defined.

(** ** What mark-read leaves alone *)

Lemma findOne_app_other : forall id ps p,
  paper_id p <> id ->
  Paper_findOne id (ps ++ [p]) = Paper_findOne id ps.
Proof.
  unfold Paper_findOne. intros id ps p Hne.
  induction ps as [|x ps IH]; simpl.
  - apply String.eqb_neq in Hne. now rewrite Hne.
  - destruct (paper_id x =? id)%string; [reflexivity | exact IH].
Qed.

Lemma updateOne_split : forall id g ps paper,
  Paper_findOne id ps = Some paper ->
  exists pre post,
    ps = pre ++ paper :: post
    /\ ~ In id (map paper_id pre)
    /\ updateOne (fun x => (paper_id x =? id)%string) g ps
       = pre ++ g paper :: post.
Proof.
  unfold Paper_findOne. intros id g ps paper.
  induction ps as [|x ps IH]; cbn; [discriminate|].
  destruct (paper_id x =? id)%string eqn:E.
  - intros H. injection H as ->. exists [], ps. cbn. auto.
  - intros H. destruct (IH H) as [pre [post [-> [Hn Hu]]]].
    exists (x :: pre), post. cbn. rewrite Hu.
    split; [reflexivity|]. split; [|reflexivity].
    apply String.eqb_neq in E. intros [F|F]; [contradiction | now apply Hn].
Qed.

(** A mark-read with a string id changes the paper collection in one
    of three ways only: not at all; by one read entry of the caller,
    with the request time, put at the end of the reads of the first
    stored paper with that id; or, when no stored paper has the id,
    by one new paper with that id put at the end.  Every other stored
    paper stays where and as it was, so the paper found under any
    other id is the same before and after. *)
Theorem mark_read_other_papers_untouched : forall s u now body,
  (papers (fst (mark_read s u now body)) = papers s
   \/ (exists pre paper post r,
         papers s = pre ++ paper :: post
         /\ Paper_findOne (body_id body) (papers s) = Some paper
         /\ ~ In (body_id body) (map paper_id pre)
         /\ read_user r = u /\ read_timestamp r = now
         /\ papers (fst (mark_read s u now body))
            = pre ++ push_read r paper :: post)
   \/ (exists p,
         Paper_findOne (body_id body) (papers s) = None
         /\ paper_id p = body_id body
         /\ papers (fst (mark_read s u now body)) = papers s ++ [p]))
  /\ (forall id, id <> body_id body ->
        Paper_findOne id (papers (fst (mark_read s u now body)))
        = Paper_findOne id (papers s)).
Proof.
  intros s u now body.
  destruct (mark_read s u now body) as [s' res] eqn:E. cbn [fst].
  destruct res as [p| | | |];
    try (destruct (mark_read_refused _ _ _ _ _ _ E) as [-> _];
         [intros q; discriminate | split; [now left | reflexivity]]).
  destruct (mark_read_200 _ _ _ _ _ _ E)
    as [older [r [_ [_ [Hu [Ht [_ [Hpid [_ [_ Hcase]]]]]]]]]].
  destruct Hcase as [[paper [Hf [_ [_ ->]]]]|[Hf [_ [_ ->]]]].
  - split.
    + right. left.
      destruct (updateOne_split (body_id body) (push_read r) (papers s) paper Hf)
        as [pre [post [Hps [Hn Hup]]]].
      exists pre, paper, post, r. auto 10.
    + intros id Hne. apply findOne_updateOne_other; [reflexivity | exact Hne].
  - split.
    + right. right. exists p. auto.
    + intros id Hne. apply findOne_app_other. congruence.
Qed.

Lemma mark_read_other_papers_untouched_witness :
  Paper_findOne "P"
    (papers (fst (mark_read Sample.duplicates_allowed "C" 9
                    (Sample.mark "Q" Sample.metadata_2021 "C" "z"))))
  = Paper_findOne "P" (papers Sample.duplicates_allowed).
Proof.
  apply (proj2 (mark_read_other_papers_untouched Sample.duplicates_allowed "C" 9
                  (Sample.mark "Q" Sample.metadata_2021 "C" "z"))).
  cbn. discriminate.
Defined.

(** ** The duplicate policy over a run *)

(** With the flag set, an accepted mark-read on a stored paper has
    added an entry whose user and notes no entry of the paper had. *)
Lemma mark_read_200_not_duplicate : forall s u now body s' p paper,
  sharedConfig s = true ->
  Paper_findOne (body_id body) (papers s) = Some paper ->
  mark_read s u now body = (s', Status200 p) ->
  exists r,
    p = push_read r paper
    /\ ~ same_user_and_notes (read_user r) (read_notes r) (paper_reads paper).
Proof.
  intros s u now body s' p paper Hflag Hf.
  destruct (metadataSchema (body_metadata body)) as [e|] eqn:Hm.
  { rewrite (mark_read_invalid_metadata s u now body _ Hm). discriminate. }
  destruct (readSchema (body_read body)) as [e|] eqn:Hrs.
  { rewrite (mark_read_invalid_read s u now body _ Hm Hrs). discriminate. }
  destruct (body_read body) as [read|] eqn:Hr.
  2:{ unfold mark_read, mark_read_start. rewrite Hm, Hr. simpl. discriminate. }
  rewrite (mark_read_existing s u now body _ _ Hm Hr Hrs Hf). cbv zeta.
  rewrite Hflag. cbn [andb].
  destruct (isDuplicate _ (paper_reads paper)) eqn:Hd; [discriminate|].
  unfold ReadSchema. cbn [new_notes new_user new_timestamp].
  destruct (raw_notes read) as [| |n]; try discriminate.
  destruct (required_String u && required_String n); [|discriminate].
  intros H. injection H as _ <-. eexists. split; [reflexivity|]. cbn.
  intros Hdup. apply (isDuplicate_iff u now n) in Hdup. congruence.
Qed.

Lemma handle_sharedConfig : forall s r, sharedConfig (handle s r) = sharedConfig s.
Proof.
  intros s [|u now body|u body|body|value]; cbn [handle].
  - unfold ensure_default_config.
    destruct (List.length (configs s) =? 0)%nat; reflexivity.
  - pose proof (mark_read_ignores_config_collection s (configs s) u now body) as H.
    replace (set_configs s (configs s)) with s in H by (destruct s; reflexivity).
    unfold mark_read.
    destruct (mark_read_start u now body) as [b e|w|res]; cbn [mark_read_step fst];
      try reflexivity.
    + unfold mark_read_found.
      destruct (Paper_findOne (body_id b) (papers s)) as [paper|].
      * destruct (sharedConfig s && isDuplicate e (paper_reads paper)); [reflexivity|].
        cbn [mark_read_step mark_read_save].
        destruct (ReadSchema (next_oid s) e); reflexivity.
      * cbn [mark_read_step mark_read_save].
        destruct (PaperSchema _ _ _ _) as [q|]; [|reflexivity].
        destruct (insertOne q (papers (bump_oid s))); reflexivity.
    + destruct w as [paper [r|]|[q|]]; cbn [mark_read_save]; try reflexivity.
      destruct (insertOne q (papers s)); reflexivity.
  - unfold delete_mark_read.
    destruct (deleteSchema "id" body); [reflexivity|].
    destruct (del_id body); try reflexivity.
    destruct (del_readEntryId body) as [| |[e| |]]; try reflexivity.
    unfold pull_own_read, findOneAndUpdate.
    destruct (find _ (papers s)); reflexivity.
  - unfold admin_delete_mark_read.
    destruct (deleteSchema "paperId" body); [reflexivity|].
    destruct (del_id body); try reflexivity.
    destruct (del_readEntryId body) as [| |[e| |]]; try reflexivity.
    unfold findOneAndUpdate.
    destruct (find _ (papers s)); reflexivity.
  - unfold post_config.
    destruct (configUpdateSchema value); [reflexivity|].
    destruct value; try reflexivity. destruct (configs s); reflexivity.
Qed.

Lemma NoDup_pairs_filter : forall (f : Read -> bool) l,
  NoDup (map (fun r => (read_user r, read_notes r)) l) ->
  NoDup (map (fun r => (read_user r, read_notes r)) (filter f l)).
Proof.
  intros f l. induction l as [|r l IH]; simpl; [auto|].
  intros H. inversion H as [|x xs Hnot Hnd]; subst.
  destruct (f r); simpl; [|now apply IH].
  constructor; [|now apply IH].
  intros Hin. apply Hnot. apply in_map_iff in Hin.
  destruct Hin as [y [Hy Hin]]. apply filter_In in Hin.
  apply in_map_iff. exists y. tauto.
Qed.

Lemma handle_no_duplicates : forall s r,
  sharedConfig s = true ->
  Forall (fun p => NoDup (map (fun r => (read_user r, read_notes r))
                              (paper_reads p))) (papers s) ->
  Forall (fun p => NoDup (map (fun r => (read_user r, read_notes r))
                              (paper_reads p))) (papers (handle s r)).
Proof.
  intros s r Hflag H.
  destruct r as [|u now body|u body|body|value].
  - cbn [handle]. unfold ensure_default_config.
    destruct (List.length (configs s) =? 0)%nat; exact H.
  - cbn [handle]. destruct (mark_read s u now body) as [s' res] eqn:E. cbn [fst].
    destruct res as [p| | | |];
      try (destruct (mark_read_refused _ _ _ _ _ _ E) as [-> _];
           [intros q; discriminate | exact H]).
    destruct (mark_read_200 _ _ _ _ _ _ E)
      as [older [r [Hreads [_ [_ [_ [_ [_ [_ [_ Hcase]]]]]]]]]].
    destruct Hcase as [[paper [Hf [_ [_ Hps]]]]|[_ [-> [_ Hps]]]]; rewrite Hps.
    + destruct (mark_read_200_not_duplicate _ _ _ _ _ _ _ Hflag Hf E)
        as [r' [Hp Hfresh]].
      assert (r' = r).
      { rewrite Hp in Hreads. cbn in Hreads.
        apply app_inj_tail in Hreads. tauto. }
      subst r'.
      assert (Hpaper : NoDup (map (fun x => (read_user x, read_notes x))
                                  (paper_reads paper))).
      { rewrite Forall_forall in H. apply H. now apply findOne_In in Hf. }
      clear Hps. induction H as [|x ps Hx H IH]; simpl; [constructor|].
      unfold Paper_findOne in Hf. simpl in Hf.
      destruct (paper_id x =? body_id body)%string.
      * injection Hf as ->. constructor; [|exact H].
        cbn. rewrite map_app. apply NoDup_app; [exact Hpaper | | ].
        -- constructor; [intros [] | constructor].
        -- intros a Ha [<-|[]]. apply in_map_iff in Ha.
           destruct Ha as [y [Hy Hin]]. injection Hy as Hy1 Hy2.
           apply Hfresh. exists y. auto.
      * constructor; [exact Hx | now apply IH].
    + apply Forall_app. split; [exact H|].
      constructor; [|constructor]. rewrite Hreads. cbn.
      constructor; [intros [] | constructor].
  - cbn [handle]. unfold delete_mark_read.
    destruct (deleteSchema "id" body); [exact H|].
    destruct (del_id body); try exact H.
    destruct (del_readEntryId body) as [| |[e| |]]; try exact H.
    unfold pull_own_read, findOneAndUpdate.
    destruct (find _ (papers s)); [|exact H]. cbn.
    apply updateOne_Forall; [|exact H].
    intros q Hq. unfold pull_reads. cbn. now apply NoDup_pairs_filter.
  - cbn [handle]. unfold admin_delete_mark_read.
    destruct (deleteSchema "paperId" body); [exact H|].
    destruct (del_id body); try exact H.
    destruct (del_readEntryId body) as [| |[e| |]]; try exact H.
    unfold findOneAndUpdate.
    destruct (find _ (papers s)); [|exact H]. cbn.
    apply updateOne_Forall; [|exact H].
    intros q Hq. unfold pull_reads. cbn. now apply NoDup_pairs_filter.
  - cbn [handle]. unfold post_config.
    destruct (configUpdateSchema value); [exact H|].
    destruct value; try exact H. destruct (configs s); exact H.
Qed.

(** Where the shared config module says [true], requests handled one
    after the other from an empty paper collection never leave a paper
    with two read entries of the same user and notes. *)
Theorem sequential_runs_store_no_duplicates : forall cs oid requests,
  Forall (fun p => NoDup (map (fun r => (read_user r, read_notes r))
                              (paper_reads p)))
         (papers (run (no_papers cs true oid) requests)).
Proof.
  intros cs oid requests.
  assert (H : forall rs s,
             sharedConfig s = true ->
             Forall (fun p => NoDup (map (fun r => (read_user r, read_notes r))
                                         (paper_reads p))) (papers s) ->
             Forall (fun p => NoDup (map (fun r => (read_user r, read_notes r))
                                         (paper_reads p))) (papers (run s rs))).
  { unfold run. induction rs as [|r rs IH]; intros s Hflag Hs; [exact Hs|].
    cbn [fold_left]. apply IH.
    - now rewrite handle_sharedConfig.
    - now apply handle_no_duplicates. }
  apply H; [reflexivity | constructor].
Qed.
